(** * Enrollment analysis (bin/enrollment-analysis.js): a shallow embedding

    The script reads a class-enrollment CSV twice.  Pass 1 resolves the
    parenthesised schedule of every [Session] cell into dates and records
    them in [sessionDays]; pass 2 counts the rows enrolled later than the
    first class day of their month plus a grace period.

    The repository holds two variants of the script.  They share the
    helpers below word for word ([monthNames], [addSessionDay],
    [getFirstClassDay], ...) and differ in [parseSessionDates] and in the
    pass-2 callbacks; the differing parts live in [Variant1] (configurable
    grace period, per-class tally) and [Variant2].

    Modelling conventions.
    - A JS string is a [string]: a sequence of code units below 256.
    - A JS number is an IEEE 754 double.  The numbers the script parses
      and adds are integers: such a number is the [Z] it denotes, with
      [infinity] (2^1024, which no finite double reaches) standing for
      [Infinity], and every result is rounded to the nearest double
      ([nearestDouble]); [jsnum] adds [NaN] where the script can meet it.
      The two row counters and the tally only ever count rows of the
      file and are kept as plain integers.  The percentage is a double
      that need not be an integer: a [jsfloat] holds its exact value.
    - [`${n}`] prints a number in plain decimal ([pretty]).  JS prints the
      same digits below 1e21 and switches to the exponent notation, or
      the word [Infinity], beyond; in both, different numbers print
      differently, and the script uses such texts as keys only.
    - An object literal used as a dictionary is the finite map of its own
      properties, with [Object.prototype] behind it: a read of a key the
      object does not own answers with the inherited member, if any.
    - The CSV stream is the list of its rows, each an object with the
      three cells the script reads.  An exception thrown by a row
      callback ends the run ([Throw]).
    - The report is the data the completion callback logs; the rendering
      of a finite percentage by [toFixed] is left out. *)

From Stdlib Require Import ZArith QArith Ascii String.
From stdpp Require Import gmap strings list fin_maps pretty.

Local Open Scope string_scope.
Local Open Scope list_scope.
Local Open Scope Z_scope.

(** ** JavaScript values *)

(** A number: an integer-valued double or [NaN]. *)
Inductive jsnum : Type :=
  | NaN
  | Num (z : Z).

(** What a property read on a plain object literal can produce in this
    script: [undefined], a number stored by the script, or a member
    inherited from [Object.prototype] (a function, or the prototype itself
    for [__proto__]), named by its property key. *)
Inductive jsval : Type :=
  | VUndefined
  | VNum (z : Z)
  | VInherited (key : string).

(** A call either returns or throws. *)
Inductive result (A : Type) : Type :=
  | Ok (a : A)
  | Throw (message : string).
Arguments Ok {A} a.
Arguments Throw {A} message.

#[global] Instance result_ret : MRet result := fun A a => Ok a.

#[global] Instance result_bind : MBind result := fun A B k r =>
  match r with
  | Ok a => k a
  | Throw m => Throw m
  end.

(** The own property names of [Object.prototype]: every object literal
    answers a read of one of these keys with an inherited member. *)
Definition objectPrototypeKeys : list string :=
  [ "constructor"; "__defineGetter__"; "__defineSetter__"; "hasOwnProperty";
    "__lookupGetter__"; "__lookupSetter__"; "isPrototypeOf";
    "propertyIsEnumerable"; "toString"; "valueOf"; "__proto__";
    "toLocaleString" ].

Definition inObjectPrototype (key : string) : bool :=
  existsb (String.eqb key) objectPrototypeKeys.

(** [!v] is false exactly on the truthy values. *)
Definition truthy (v : jsval) : bool :=
  match v with
  | VUndefined => false
  | VNum z => negb (z =? 0)
  | VInherited _ => true
  end.

(** [String(v)] for an inherited member, as V8 prints native functions. *)
Definition inheritedToString (key : string) : string :=
  if String.eqb key "__proto__" then "[object Object]"
  else "function " +:+ (if String.eqb key "constructor" then "Object" else key)
       +:+ "() { [native code] }".

(** [`${v}`] *)
Definition jsvalToString (v : jsval) : string :=
  match v with
  | VUndefined => "undefined"
  | VNum z => pretty z
  | VInherited key => inheritedToString key
  end.

Definition jsnumToString (n : jsnum) : string :=
  match n with
  | NaN => "NaN"
  | Num z => pretty z
  end.

(** [a > v] with a number on the left: an inherited member converts to
    [NaN], [undefined] too, and every comparison with [NaN] is false. *)
Definition numGreaterThan (a : Z) (v : jsval) : bool :=
  match v with
  | VNum b => b <? a
  | VUndefined | VInherited _ => false
  end.

(** ** Double arithmetic

    The integers among the doubles are the integers of magnitude up to
    2^53 and, beyond, the products [m * 2^e] of a 53-bit [m] and a power
    of two, below 2^1024. *)

Definition infinity : Z := 2 ^ 1024.

(** [n / d] rounded to the nearest integer, a tie to the even one. *)
Definition roundHalfEven (n d : Z) : Z :=
  let q := n / d in
  let r := n mod d in
  if 2 * r <? d then q
  else if d <? 2 * r then q + 1
  else if Z.even q then q else q + 1.

(** The double nearest to a non-negative integer: 53 significant bits
    are kept, and what rounds to 2^1024 or more is [Infinity]. *)
Definition nearestDoubleNatural (a : Z) : Z :=
  if a <? 2 ^ 53 then a
  else
    let ulp := 2 ^ (Z.log2 a - 52) in
    let v := roundHalfEven a ulp * ulp in
    if infinity <=? v then infinity else v.

Definition nearestDouble (z : Z) : Z :=
  if z <? 0 then - nearestDoubleNatural (- z) else nearestDoubleNatural z.

(** [a + b] for a finite [b]: the script adds 1, 7 or the grace period. *)
Definition jsAdd (a b : Z) : Z :=
  if Z.abs a =? infinity then a else nearestDouble (a + b).

(** A double that need not be an integer, by its exact value. *)
Inductive jsfloat : Type :=
  | FNaN
  | FInfinity
  | FNegInfinity
  | FReal (q : Q).

Definition negate (x : jsfloat) : jsfloat :=
  match x with
  | FNaN => FNaN
  | FInfinity => FNegInfinity
  | FNegInfinity => FInfinity
  | FReal q => FReal (- q)%Q
  end.

(** The fraction [n / d * 2^k]. *)
Definition scaled (n d k : Z) : Z * Z :=
  if 0 <=? k then (n * 2 ^ k, d) else (n, d * 2 ^ (- k)).

(** The double nearest to a positive fraction [n / d].  With
    [2^e <= n / d < 2^(e+1)], the last of its 53 bits weighs [2^(e-52)],
    and never less than [2^(-1074)] (subnormal numbers); [k] is the
    opposite of that exponent. *)
Definition nearestDoublePositive (n d : Z) : jsfloat :=
  let e0 := Z.log2 n - Z.log2 d in
  let '(n0, d0) := scaled n d (- e0) in
  let e := if d0 <=? n0 then e0 else e0 - 1 in
  let k := 52 - Z.max e (-1022) in
  let '(n1, d1) := scaled n d k in
  let m := roundHalfEven n1 d1 in
  if 0 <? k then FReal (Qred (m # Z.to_pos (2 ^ k)))
  else if infinity <=? m * 2 ^ (- k) then FInfinity
  else FReal (inject_Z (m * 2 ^ (- k))).

(** The double nearest to a rational number. *)
Definition nearestDoubleQ (q : Q) : jsfloat :=
  match Qnum q with
  | 0 => FReal 0
  | Z.pos n => nearestDoublePositive (Z.pos n) (Z.pos (Qden q))
  | Z.neg n => negate (nearestDoublePositive (Z.pos n) (Z.pos (Qden q)))
  end.

(** [a / b] on two row counters. *)
Definition divide (a b : Z) : jsfloat :=
  if b =? 0 then
    if a =? 0 then FNaN else if 0 <? a then FInfinity else FNegInfinity
  else nearestDoubleQ (Qmake (a * Z.sgn b) (Z.to_pos (Z.abs b))).

(** [x * k] for an integer [k]. *)
Definition times (x : jsfloat) (k : Z) : jsfloat :=
  match x with
  | FNaN => FNaN
  | FInfinity =>
      if 0 <? k then FInfinity else if k <? 0 then FNegInfinity else FNaN
  | FNegInfinity =>
      if 0 <? k then FNegInfinity else if k <? 0 then FInfinity else FNaN
  | FReal q => nearestDoubleQ (q * inject_Z k)
  end.

(** ** String primitives *)

Definition codeOf (c : ascii) : N := N_of_ascii c.

(** White space and line terminators, as [trim] and [parseInt] skip them. *)
Definition isWhiteSpace (c : ascii) : bool :=
  let n := codeOf c in
  ((9 <=? n) && (n <=? 13) || (n =? 32) || (n =? 160))%N.

Definition isDigit (c : ascii) : bool :=
  let n := codeOf c in ((48 <=? n) && (n <=? 57))%N.

Definition digitValue (c : ascii) : Z := Z.of_N (codeOf c) - 48.

Fixpoint trimStart (s : string) : string :=
  match s with
  | String c rest => if isWhiteSpace c then trimStart rest else s
  | EmptyString => EmptyString
  end.

Fixpoint allWhiteSpace (s : string) : bool :=
  match s with
  | String c rest => isWhiteSpace c && allWhiteSpace rest
  | EmptyString => true
  end.

Fixpoint trimEnd (s : string) : string :=
  match s with
  | String c rest => if allWhiteSpace s then EmptyString else String c (trimEnd rest)
  | EmptyString => EmptyString
  end.

(** [s.trim()] *)
Definition trim (s : string) : string := trimEnd (trimStart s).

(** [c.toLowerCase()] on one code unit: A-Z and the Latin-1 capitals. *)
Definition lowerChar (c : ascii) : ascii :=
  let n := codeOf c in
  if ((65 <=? n) && (n <=? 90)
      || (192 <=? n) && (n <=? 222) && negb (n =? 215))%N
  then ascii_of_N (n + 32) else c.

(** [s.toLowerCase()] *)
Fixpoint toLowerCase (s : string) : string :=
  match s with
  | String c rest => String (lowerChar c) (toLowerCase rest)
  | EmptyString => EmptyString
  end.

(** [s.startsWith(p)] *)
Fixpoint startsWith (s p : string) {struct p} : bool :=
  match p with
  | EmptyString => true
  | String a p' =>
      match s with
      | String b s' => Ascii.eqb a b && startsWith s' p'
      | EmptyString => false
      end
  end.

(** [s.split('/')]: every separator character ends a field. *)
Fixpoint splitOn (sep : ascii) (s : string) : list string :=
  match s with
  | EmptyString => [EmptyString]
  | String c rest =>
      if Ascii.eqb c sep then EmptyString :: splitOn sep rest
      else match splitOn sep rest with
           | field :: fields => String c field :: fields
           | [] => [String c EmptyString]
           end
  end.

(** The character class [[ .]] of the tokenizer. *)
Definition isTokenSeparator (c : ascii) : bool :=
  Ascii.eqb c " " || Ascii.eqb c ".".

(** [s.split(/[ .]+/)]: a maximal run of separators ends a field;
    [afterSeparator] tells that the previous character belonged to the
    run being consumed. *)
Fixpoint splitRuns (afterSeparator : bool) (s : string) : list string :=
  match s with
  | EmptyString => [EmptyString]
  | String c rest =>
      if isTokenSeparator c then
        if afterSeparator then splitRuns true rest
        else EmptyString :: splitRuns true rest
      else match splitRuns false rest with
           | field :: fields => String c field :: fields
           | [] => [String c EmptyString]
           end
  end.

(** The longest prefix of decimal digits, read as a number from [acc]. *)
Fixpoint takeDigits (s : string) : string :=
  match s with
  | String c rest => if isDigit c then String c (takeDigits rest) else EmptyString
  | EmptyString => EmptyString
  end.

Fixpoint digitsValue (acc : Z) (s : string) : Z :=
  match s with
  | String c rest => digitsValue (10 * acc + digitValue c) rest
  | EmptyString => acc
  end.

(** [parseInt(s, 10)]: skip leading white space, take an optional sign,
    then the longest run of digits; [NaN] when that run is empty, and
    otherwise the double nearest to the integer the digits spell. *)
Definition parseInt (s : string) : jsnum :=
  let s1 := trimStart s in
  let negative := match s1 with
                  | String c _ => Ascii.eqb c "-"
                  | EmptyString => false
                  end in
  let s2 := match s1 with
            | String c rest =>
                if Ascii.eqb c "-" || Ascii.eqb c "+" then rest else s1
            | EmptyString => s1
            end in
  match takeDigits s2 with
  | EmptyString => NaN
  | digits =>
      let n := digitsValue 0 digits in
      Num (nearestDouble (if negative then - n else n))
  end.

Definition isNaN (n : jsnum) : bool :=
  match n with NaN => true | Num _ => false end.

(** [s.match(/\(([^)]+)\)/)]: capture group 1 of the leftmost match.
    [upToClose s] is the text before the first [")"] of [s], when there is
    one; the group must be non-empty, otherwise the search resumes at the
    next character. *)
Fixpoint upToClose (s : string) : option string :=
  match s with
  | EmptyString => None
  | String c rest =>
      if Ascii.eqb c ")" then Some EmptyString
      else match upToClose rest with
           | Some inner => Some (String c inner)
           | None => None
           end
  end.

Fixpoint matchParenthesized (s : string) : option string :=
  match s with
  | EmptyString => None
  | String c rest =>
      if Ascii.eqb c "(" then
        match upToClose rest with
        | Some (String d inner) => Some (String d inner)
        | _ => matchParenthesized rest
        end
      else matchParenthesized rest
  end.

(** ** Tables and globals shared by both variants *)

Definition monthNamesOwn : list (string * Z) :=
  [ ("January", 1); ("February", 2); ("March", 3); ("April", 4);
    ("May", 5); ("June", 6); ("July", 7); ("August", 8);
    ("September", 9); ("October", 10); ("November", 11); ("December", 12) ].

Fixpoint ownProperty (key : string) (entries : list (string * Z)) : option Z :=
  match entries with
  | [] => None
  | (k, v) :: rest => if String.eqb key k then Some v else ownProperty key rest
  end.

(** [monthNames[token]]: the table is an object literal, so a key it does
    not own is looked up in [Object.prototype]. *)
Definition monthNames (token : string) : jsval :=
  match ownProperty token monthNamesOwn with
  | Some n => VNum n
  | None => if inObjectPrototype token then VInherited token else VUndefined
  end.

Definition monthNameStringsTable : list string :=
  [ ""; "January"; "February"; "March"; "April"; "May"; "June";
    "July"; "August"; "September"; "October"; "November"; "December" ].

(** [monthNameStrings[month]]: [undefined] ([None]) outside 0..12. *)
Definition monthNameStrings (month : Z) : option string :=
  if month <? 0 then None else nth_error monthNameStringsTable (Z.to_nat month).

(** One element of the array [parseSessionDates] returns. *)
Record sessionDate : Type := {
  year : Z;
  month : jsval;
  day : Z
}.

(** One CSV row, with the cells the script reads; [None] is a missing
    column ([undefined]). *)
Record row : Type := {
  Enroll_Date : option string;
  Session : option string;
  Class : option string
}.

(** The script's global variables.  A [Set] of days is the list of its
    members in insertion order; the objects used as dictionaries are maps
    of their own properties.  [monthlyEnrollmentCounts] exists in the
    first variant only; the second never touches it. *)
Record globals : Type := {
  totalEnrollmentRows : Z;
  enrollmentsAfterFirstWeekOfSession : Z;
  monthlyEnrollmentCounts : gmap string (gmap string jsnum);
  sessionDays : gmap string (list Z);
  blacklistedSessions : list string
}.

Definition initialGlobals : globals :=
  {| totalEnrollmentRows := 0;
     enrollmentsAfterFirstWeekOfSession := 0;
     monthlyEnrollmentCounts := ∅;
     sessionDays := ∅;
     blacklistedSessions := [] |}.

Definition setTotalEnrollmentRows (n : Z) (g : globals) : globals :=
  {| totalEnrollmentRows := n;
     enrollmentsAfterFirstWeekOfSession := enrollmentsAfterFirstWeekOfSession g;
     monthlyEnrollmentCounts := monthlyEnrollmentCounts g;
     sessionDays := sessionDays g;
     blacklistedSessions := blacklistedSessions g |}.

Definition setEnrollmentsAfterFirstWeekOfSession (n : Z) (g : globals) : globals :=
  {| totalEnrollmentRows := totalEnrollmentRows g;
     enrollmentsAfterFirstWeekOfSession := n;
     monthlyEnrollmentCounts := monthlyEnrollmentCounts g;
     sessionDays := sessionDays g;
     blacklistedSessions := blacklistedSessions g |}.

Definition setMonthlyEnrollmentCounts (m : gmap string (gmap string jsnum))
    (g : globals) : globals :=
  {| totalEnrollmentRows := totalEnrollmentRows g;
     enrollmentsAfterFirstWeekOfSession := enrollmentsAfterFirstWeekOfSession g;
     monthlyEnrollmentCounts := m;
     sessionDays := sessionDays g;
     blacklistedSessions := blacklistedSessions g |}.

Definition setSessionDays (m : gmap string (list Z)) (g : globals) : globals :=
  {| totalEnrollmentRows := totalEnrollmentRows g;
     enrollmentsAfterFirstWeekOfSession := enrollmentsAfterFirstWeekOfSession g;
     monthlyEnrollmentCounts := monthlyEnrollmentCounts g;
     sessionDays := m;
     blacklistedSessions := blacklistedSessions g |}.

Definition setBlacklistedSessions (l : list string) (g : globals) : globals :=
  {| totalEnrollmentRows := totalEnrollmentRows g;
     enrollmentsAfterFirstWeekOfSession := enrollmentsAfterFirstWeekOfSession g;
     monthlyEnrollmentCounts := monthlyEnrollmentCounts g;
     sessionDays := sessionDays g;
     blacklistedSessions := l |}.

(** [blacklistedSessions.includes(sessionStr)] *)
Definition includes (sessionStr : string) (sessions : list string) : bool :=
  existsb (String.eqb sessionStr) sessions.

(** [isBlacklisted(sessionStr)]; the argument is [undefined] when the row
    has no [Session] cell, and the array holds strings only. *)
Definition isBlacklisted (sessionStr : option string) (g : globals) : bool :=
  match sessionStr with
  | Some s => includes s (blacklistedSessions g)
  | None => false
  end.

(** [if (!blacklistedSessions.includes(s)) blacklistedSessions.push(s)] *)
Definition blacklist (sessionStr : string) (g : globals) : globals :=
  if includes sessionStr (blacklistedSessions g) then g
  else setBlacklistedSessions (blacklistedSessions g ++ [sessionStr]) g.

(** [set.add(day)] *)
Definition setAdd (day : Z) (days : list Z) : list Z :=
  if existsb (Z.eqb day) days then days else days ++ [day].

(** [`${year}-${month}`] *)
Definition calendarKey (year month : string) : string :=
  year +:+ "-" +:+ month.

Definition addSessionDay (year : Z) (month : jsval) (day : Z) (g : globals)
    : globals :=
  let key := calendarKey (pretty year) (jsvalToString month) in
  let days := match sessionDays g !! key with
              | Some days => days
              | None => []
              end in
  setSessionDays (<[key := setAdd day days]> (sessionDays g)) g.

(** [days.sort((a, b) => a - b)] *)
Fixpoint insertSorted (x : Z) (sorted : list Z) : list Z :=
  match sorted with
  | [] => [x]
  | y :: rest => if x <=? y then x :: sorted else y :: insertSorted x rest
  end.

Definition sortNumeric (days : list Z) : list Z := foldr insertSorted [] days.

(** [getFirstClassDay(month, year)]; [null] is [None]. *)
Definition getFirstClassDay (month : Z) (year : jsnum) (g : globals) : option Z :=
  let key := calendarKey (jsnumToString year) (pretty month) in
  match sessionDays g !! key with
  | None => None
  | Some days =>
      if (length days =? 0)%nat then None else head (sortNumeric days)
  end.

(** [inner.split(/[ .]+/).filter(token => token.trim() !== '')] *)
Definition tokenize (inner : string) : list string :=
  List.filter (fun token => negb (String.eqb (trim token) ""))
              (splitRuns false inner).

(** [!monthNames[token] && !isNaN(parseInt(token, 10))] *)
Definition isDayToken (token : string) : bool :=
  negb (truthy (monthNames token)) && negb (isNaN (parseInt token)).

(** [a !== b + 1], with the sum of doubles, is true as soon as one side
    is [NaN]. *)
Definition isSuccessor (a b : jsnum) : bool :=
  match a, b with
  | Num x, Num y => x =? jsAdd y 1
  | _, _ => false
  end.

(** The loop over [dayNumbers] that clears [isConsecutive] at the first
    element that is not its predecessor plus one. *)
Fixpoint isConsecutive (dayNumbers : list jsnum) : bool :=
  match dayNumbers with
  | previous :: (current :: _) as rest =>
      isSuccessor current previous && isConsecutive rest
  | _ => true
  end.

(** The special pattern: exactly 5 tokens, a month first, then 4
    consecutive day numbers. *)
Definition isSpecialPattern (tokens : list string) : bool :=
  (length tokens =? 5)%nat
  && truthy (monthNames (List.hd "" tokens))
  && (let dayNumbers := map parseInt (List.tl tokens) in
      forallb (fun num => negb (isNaN num)) dayNumbers
      && isConsecutive dayNumbers).

(** The body of [tokens.forEach] in the normal parsing: the state is the
    month cursor ([null] is [None]) and the [dates] array. *)
Definition scanToken (enrollYear enrollMonth : Z)
    (state : option jsval * list sessionDate) (token : string)
    : option jsval * list sessionDate :=
  let '(currentMonth, dates) := state in
  if truthy (monthNames token) then (Some (monthNames token), dates)
  else
    match parseInt token, currentMonth with
    | Num d, Some m =>
        let sessionYear :=
          if numGreaterThan enrollMonth m then jsAdd enrollYear 1
          else enrollYear in
        (currentMonth, dates ++ [{| year := sessionYear; month := m; day := d |}])
    | _, _ => state
    end.

Definition scanTokens (enrollYear enrollMonth : Z) (tokens : list string)
    : list sessionDate :=
  snd (fold_left (scanToken enrollYear enrollMonth) tokens (None, [])).

(** [!cell]: a missing cell or an empty string. *)
Definition isMissing (cell : option string) : bool :=
  match cell with
  | Some s => String.eqb s ""
  | None => true
  end.

(** [year++] *)
Definition postIncrement (n : jsnum) : jsnum :=
  match n with
  | NaN => NaN
  | Num z => Num (jsAdd z 1)
  end.

(** [counts[c]++] on a count of rows. *)
Definition increment (n : jsnum) : jsnum :=
  match n with
  | NaN => NaN
  | Num z => Num (z + 1)
  end.

(** The pass-1 callback, given the variant's [parseSessionDates]. *)
Definition pass1OnRow
    (parseSessionDates : string -> Z -> Z -> globals -> list sessionDate * globals)
    (r : row) (g : globals) : globals :=
  if isMissing (Enroll_Date r) || isMissing (Session r) then g
  else
    match Enroll_Date r, Session r with
    | Some enrollDateStr, Some sessionStr =>
        match splitOn "/" enrollDateStr with
        | [part0; _; part2] =>
            match parseInt part0, parseInt part2 with
            | Num enrollMonth, Num enrollYear =>
                let '(dates, g1) :=
                  parseSessionDates sessionStr enrollYear enrollMonth g in
                fold_left (fun g' d => addSessionDay (year d) (month d) (day d) g')
                          dates g1
            | _, _ => g
            end
        | _ => g
        end
    | _, _ => g
    end.

(** [readCSVFile(path, onRow)] for a callback that cannot throw. *)
Definition readCSVFile (onRow : row -> globals -> globals) (rows : list row)
    (g : globals) : globals :=
  fold_left (fun g' r => onRow r g') rows g.

(** [readCSVFile(path, onRow)] for a callback that may throw: the first
    exception ends the run. *)
Fixpoint readCSVFileThrowing (onRow : row -> globals -> result globals)
    (rows : list row) (g : globals) : result globals :=
  match rows with
  | [] => Ok g
  | r :: rest => g' ← onRow r g; readCSVFileThrowing onRow rest g'
  end.

Definition toLowerCaseOfUndefined : string :=
  "TypeError: Cannot read properties of undefined (reading 'toLowerCase')".

(** The part of the pass-2 callback that the two variants share word for
    word: every early return from the blacklist test to the estimate of
    the session year.  [Ok None] is an early return (the row is skipped);
    [Ok (Some (month, day, year))] reaches the calendar query;
    [enrollMonthName.toLowerCase()] throws when the month has no name. *)
Definition pass2Guards (r : row) (g : globals) : result (option (Z * Z * jsnum)) :=
  if isBlacklisted (Session r) g then Ok None
  else if isMissing (Enroll_Date r) || isMissing (Session r) then Ok None
  else
    match Enroll_Date r, Session r with
    | Some enrollDateStr, Some sessionStr =>
        match splitOn "/" enrollDateStr with
        | [part0; part1; part2] =>
            match parseInt part0, parseInt part1 with
            | Num month, Num day =>
                let year := parseInt part2 in
                match monthNameStrings month with
                | None => Throw toLowerCaseOfUndefined
                | Some enrollMonthName =>
                    if negb (startsWith (toLowerCase sessionStr)
                                        (toLowerCase enrollMonthName))
                    then Ok None
                    else
                      let sessionMonthIndex := monthNames enrollMonthName in
                      let year := if numGreaterThan month sessionMonthIndex
                                  then postIncrement year else year in
                      Ok (Some (month, day, year))
                end
            | _, _ => Ok None
            end
        | _ => Ok None
        end
    | _, _ => Ok None
    end.

(** ** First variant: configurable grace period and per-class tally *)

Module Variant1.

Definition parseSessionDates (sessionStr : string) (enrollYear enrollMonth : Z)
    (g : globals) : list sessionDate * globals :=
  match matchParenthesized sessionStr with
  | None => ([], g)
  | Some group =>
      let inner := trim group in
      let tokens := tokenize inner in
      let dayTokens := List.filter isDayToken tokens in
      if (length dayTokens <=? 3)%nat then ([], blacklist sessionStr g)
      else if isSpecialPattern tokens then ([], blacklist sessionStr g)
      else (scanTokens enrollYear enrollMonth tokens, g)
  end.

(** [if (!counts[c]) counts[c] = 0; counts[c]++] on an object literal:
    a key inherited from [Object.prototype] reads as a truthy member, is
    not initialised, and converts to [NaN] under [++]; the write creates
    the own property, except for [__proto__], whose setter drops it. *)
Definition countClass (classCategory : string) (classCounts : gmap string jsnum)
    : gmap string jsnum :=
  let initialised :=
    match classCounts !! classCategory with
    | Some (Num n) =>
        if n =? 0 then <[classCategory := Num 0]> classCounts else classCounts
    | Some NaN => <[classCategory := Num 0]> classCounts
    | None =>
        if inObjectPrototype classCategory then classCounts
        else <[classCategory := Num 0]> classCounts
    end in
  match initialised !! classCategory with
  | Some n => <[classCategory := increment n]> initialised
  | None =>
      if String.eqb classCategory "__proto__" then initialised
      else <[classCategory := NaN]> initialised
  end.

(** The increment of [monthlyEnrollmentCounts[key][classCategory]]. *)
Definition countMonthly (key classCategory : string)
    (counts : gmap string (gmap string jsnum)) : gmap string (gmap string jsnum) :=
  let classCounts := match counts !! key with
                     | Some classCounts => classCounts
                     | None => ∅
                     end in
  <[key := countClass classCategory classCounts]> counts.

(** The pass-2 callback.  [enrollmentGracePeriod] is
    [Number(process.argv[3] || 7)], taken here as a finite integer number
    of days. *)
Definition pass2OnRow (enrollmentGracePeriod : Z) (r : row) (g0 : globals)
    : result globals :=
  let g := setTotalEnrollmentRows (totalEnrollmentRows g0 + 1) g0 in
  let classCategory := if isMissing (Class r) then "Unknown"
                       else default "Unknown" (Class r) in
  enrollment ← pass2Guards r g;
  match enrollment with
  | None => Ok g
  | Some (month, day, year) =>
      match getFirstClassDay month year g with
      | None => Ok g
      | Some firstClassDay =>
          let firstWeekThreshold := jsAdd firstClassDay enrollmentGracePeriod in
          if firstWeekThreshold <? day then
            let key := calendarKey (jsnumToString year) (pretty month) in
            Ok (setMonthlyEnrollmentCounts
                  (countMonthly key classCategory (monthlyEnrollmentCounts g))
                  (setEnrollmentsAfterFirstWeekOfSession
                     (enrollmentsAfterFirstWeekOfSession g + 1) g))
          else Ok g
      end
  end.

(** [a + b] on tally values. *)
Definition addNum (a b : jsnum) : jsnum :=
  match a, b with
  | Num x, Num y => Num (x + y)
  | _, _ => NaN
  end.

(** What the completion callback logs: the fraction, the percentage
    before [toFixed(2)], the tally, and the total of every month. *)
Record report : Type := {
  factor : string;
  decimal : jsfloat;
  monthlyCounts : gmap string (gmap string jsnum);
  overallMonthlyTotals : gmap string jsnum
}.

Definition pass2OnComplete (g : globals) : report :=
  {| factor := pretty (enrollmentsAfterFirstWeekOfSession g) +:+ " / "
               +:+ pretty (totalEnrollmentRows g);
     decimal := times (divide (enrollmentsAfterFirstWeekOfSession g)
                              (totalEnrollmentRows g)) 100;
     monthlyCounts := monthlyEnrollmentCounts g;
     overallMonthlyTotals :=
       (fun classCounts : gmap string jsnum =>
          map_fold (fun _ b a => addNum a b) (Num 0) classCounts)
       <$> monthlyEnrollmentCounts g |}.

(** Both passes, then the report. *)
Definition pass2 (enrollmentGracePeriod : Z) (rows : list row)
    : result globals :=
  readCSVFileThrowing (pass2OnRow enrollmentGracePeriod) rows
    (readCSVFile (pass1OnRow parseSessionDates) rows initialGlobals).

Definition main (enrollmentGracePeriod : Z) (rows : list row) : result report :=
  g ← pass2 enrollmentGracePeriod rows; Ok (pass2OnComplete g).

End Variant1.

(** ** Second variant: fixed grace period of 7, no tally *)

Module Variant2.

Definition parseSessionDates (sessionStr : string) (enrollYear enrollMonth : Z)
    (g : globals) : list sessionDate * globals :=
  match matchParenthesized sessionStr with
  | None => ([], g)
  | Some group =>
      let inner := trim group in
      let tokens := tokenize inner in
      if isSpecialPattern tokens then ([], blacklist sessionStr g)
      else (scanTokens enrollYear enrollMonth tokens, g)
  end.

(** [getFirstClassDay(month, year) + 7]: [null] converts to 0. *)
Definition nullToNumber (v : option Z) : Z :=
  match v with
  | Some z => z
  | None => 0
  end.

(** The pass-2 callback. *)
Definition pass2OnRow (r : row) (g0 : globals) : result globals :=
  let g := setTotalEnrollmentRows (totalEnrollmentRows g0 + 1) g0 in
  enrollment ← pass2Guards r g;
  match enrollment with
  | None => Ok g
  | Some (month, day, year) =>
      let firstWeekThreshold :=
        jsAdd (nullToNumber (getFirstClassDay month year g)) 7 in
      if firstWeekThreshold <? day then
        Ok (setEnrollmentsAfterFirstWeekOfSession
              (enrollmentsAfterFirstWeekOfSession g + 1) g)
      else Ok g
  end.

Record report : Type := {
  factor : string;
  decimal : jsfloat
}.

Definition pass2OnComplete (g : globals) : report :=
  {| factor := pretty (enrollmentsAfterFirstWeekOfSession g) +:+ " / "
               +:+ pretty (totalEnrollmentRows g);
     decimal := times (divide (enrollmentsAfterFirstWeekOfSession g)
                              (totalEnrollmentRows g)) 100 |}.

Definition pass2 (rows : list row) : result globals :=
  readCSVFileThrowing pass2OnRow rows
    (readCSVFile (pass1OnRow parseSessionDates) rows initialGlobals).

Definition main (rows : list row) : result report :=
  g ← pass2 rows; Ok (pass2OnComplete g).

End Variant2.

(** ** Vocabulary of the properties *)

(** What an early return of the pass-2 callback leaves behind: the row
    has been counted in [totalEnrollmentRows] and nothing else changed. *)
Definition skipRow (g : globals) : globals :=
  setTotalEnrollmentRows (totalEnrollmentRows g + 1) g.

Fixpoint hasChar (c : ascii) (s : string) : bool :=
  match s with
  | String d rest => Ascii.eqb d c || hasChar c rest
  | EmptyString => false
  end.

(** An opening parenthesis with a closing one somewhere after it. *)
Fixpoint hasParenthesisPair (s : string) : bool :=
  match s with
  | String c rest =>
      Ascii.eqb c "(" && hasChar ")" rest || hasParenthesisPair rest
  | EmptyString => false
  end.

Fixpoint allDigits (s : string) : bool :=
  match s with
  | String c rest => isDigit c && allDigits rest
  | EmptyString => true
  end.

Definition startsWithDigit (s : string) : bool :=
  match s with
  | String c _ => isDigit c
  | EmptyString => false
  end.

(** The number a tally holds for a class of a month; an absent or [NaN]
    entry is what the callback resets to 0 before counting. *)
Definition classCount (counts : gmap string (gmap string jsnum))
    (key classCategory : string) : Z :=
  match counts !! key with
  | Some classCounts =>
      match classCounts !! classCategory with
      | Some (Num n) => n
      | _ => 0
      end
  | None => 0
  end.

(** The date rule of the normal parsing, for one emitted date. *)
Definition followsYearRule (enrollYear enrollMonth : Z) (d : sessionDate) : Prop :=
  year d = if numGreaterThan enrollMonth (month d) then jsAdd enrollYear 1
           else enrollYear.

(** What every element of [dates] satisfies: its year follows the rule
    for its month, and its month is the value of a month token. *)
Definition emittedBy (y m : Z) (tokens : list string) (d : sessionDate) : Prop :=
  followsYearRule y m d /\
  exists token, In token tokens /\ truthy (monthNames token) = true
                /\ month d = monthNames token.

(** Pass 1 works on the calendar and the blacklist only. *)
Definition sameCounters (g g' : globals) : Prop :=
  totalEnrollmentRows g' = totalEnrollmentRows g
  /\ enrollmentsAfterFirstWeekOfSession g' = enrollmentsAfterFirstWeekOfSession g
  /\ monthlyEnrollmentCounts g' = monthlyEnrollmentCounts g.

(** The class the first variant tallies a row under. *)
Definition classCategoryOf (r : row) : string :=
  if isMissing (Class r) then "Unknown" else default "Unknown" (Class r).

(** A late row, as the first variant records it. *)
Definition countLate (key classCategory : string) (g : globals) : globals :=
  setMonthlyEnrollmentCounts
    (Variant1.countMonthly key classCategory (monthlyEnrollmentCounts g))
    (setEnrollmentsAfterFirstWeekOfSession
       (enrollmentsAfterFirstWeekOfSession g + 1) g).

Definition csvRow (enrollDate session class : string) : row :=
  {| Enroll_Date := Some enrollDate; Session := Some session;
     Class := Some class |}.

(** A late row, a timely one, a blacklisted session, a row without a date
    cell, and a date that is not slash-separated. *)
Definition sampleRows : list row :=
  [ csvRow "05/20/2024" "May (May 6 13 20 27)" "Beginner";
    csvRow "05/08/2024" "May (May 6 13 20 27)" "Beginner";
    csvRow "05/20/2024" "May (May 5 6 7 8)" "Camp";
    {| Enroll_Date := None; Session := Some "May (May 6 13 20 27)";
       Class := None |};
    csvRow "2024-05-20" "May (May 6 13 20 27)" "Beginner" ].

(** The least element of a list of days, if any. *)
Definition leastOf (days : list Z) : option Z :=
  foldr (fun d least => Some (match least with
                              | Some y => Z.min d y
                              | None => d
                              end)) None days.

(** Every recorded set of days is non-empty and holds each day once. *)
Definition calendarWellFormed (g : globals) : Prop :=
  forall key days, sessionDays g !! key = Some days -> days <> [] /\ NoDup days.

(** Every key of the calendar is the key of a parsed year. *)
Definition calendarYearsParsed (g : globals) : Prop :=
  forall key days, sessionDays g !! key = Some days ->
                   exists (y : Z) (m : string), key = calendarKey (pretty y) m.

(** The day a token stands for in the normal parsing. *)
Definition dayOfToken (token : string) : option Z :=
  match parseInt token with
  | Num d => Some d
  | NaN => None
  end.

(** The sum of a month's tally, and of the whole tally. *)
Definition monthTotal (classCounts : gmap string jsnum) : jsnum :=
  map_fold (fun _ b a => Variant1.addNum a b) (Num 0) classCounts.

Definition tallyTotal (counts : gmap string (gmap string jsnum)) : jsnum :=
  map_fold (fun _ classCounts a => Variant1.addNum a (monthTotal classCounts))
           (Num 0) counts.

(** Every stored count is a positive number. *)
Definition tallyPositive (counts : gmap string (gmap string jsnum)) : Prop :=
  forall key classCounts, counts !! key = Some classCounts ->
    forall class v, classCounts !! class = Some v -> exists n, v = Num n /\ 0 < n.

(** The first variant's state, with the tally the second variant lacks
    put back to [counts]. *)
Definition withoutTally (counts : gmap string (gmap string jsnum)) (g : globals)
    : globals :=
  setMonthlyEnrollmentCounts counts g.

Fixpoint hasTokenSeparator (s : string) : bool :=
  match s with
  | String c rest => isTokenSeparator c || hasTokenSeparator rest
  | EmptyString => false
  end.

(** A day is recorded under a key of the calendar. *)
Definition recorded (key : string) (d : Z) (g : globals) : Prop :=
  exists days, sessionDays g !! key = Some days /\ In d days.



(** The integers that are doubles together with their neighbours
    ([Number.isSafeInteger]). *)
Definition isSafeInteger (z : Z) : Prop := - 2 ^ 53 < z < 2 ^ 53.

(** Case analysis on the key compared by a table lookup. *)
Ltac case_key t :=
  repeat match goal with
         | |- context [String.eqb t ?k] =>
             destruct (String.eqb_spec t k) as [-> | ?];
             [ vm_compute; congruence | ]
         end.

(** * Properties *)

(** ** Double arithmetic *)

Lemma roundHalfEven_cases (n d : Z) :
  roundHalfEven n d = n / d \/ roundHalfEven n d = n / d + 1.
Proof.
  unfold roundHalfEven. cbv zeta.
  destruct (2 * (n mod d) <? d); [by left|].
  destruct (d <? 2 * (n mod d)); [by right|].
  destruct (Z.even (n / d)); [by left | by right].
Qed.

Lemma roundHalfEven_multiple (m d : Z) : 0 < d -> roundHalfEven (m * d) d = m.
Proof.
  intros Hd. unfold roundHalfEven. cbv zeta.
  rewrite Z.mod_mul, Z.div_mul by lia.
  destruct (Z.ltb_spec (2 * 0) d); [reflexivity | lia].
Qed.

Lemma roundHalfEven_nonneg (n d : Z) : 0 <= n -> 0 < d -> 0 <= roundHalfEven n d.
Proof.
  intros Hn Hd. pose proof (Z.div_pos n d Hn Hd).
  destruct (roundHalfEven_cases n d) as [-> | ->]; lia.
Qed.

(** Rounding never passes an integer bound. *)
Lemma roundHalfEven_le (n d bound : Z) :
  0 < d -> n <= bound * d -> roundHalfEven n d <= bound.
Proof.
  intros Hd Hn. unfold roundHalfEven. cbv zeta.
  pose proof (Z.div_mod n d ltac:(lia)) as Hdiv.
  pose proof (Z.mod_pos_bound n d Hd) as Hmod.
  assert (n / d <= bound) as Hq by nia.
  destruct (Z.ltb_spec (2 * (n mod d)) d); [exact Hq|].
  assert (n / d < bound) by nia.
  destruct (d <? 2 * (n mod d)); [lia|]. destruct (Z.even (n / d)); lia.
Qed.

Lemma nearestDoubleNatural_safe (a : Z) :
  a <= 2 ^ 53 -> nearestDoubleNatural a = a.
Proof.
  intros Ha. unfold nearestDoubleNatural.
  destruct (Z.ltb_spec a (2 ^ 53)) as [|Hge]; [reflexivity|].
  assert (a = 2 ^ 53) as -> by lia. by vm_compute.
Qed.

(** Below 2^53 in magnitude, and at 2^53, every integer is a double. *)
Lemma nearestDouble_safe (z : Z) :
  - 2 ^ 53 <= z <= 2 ^ 53 -> nearestDouble z = z.
Proof.
  intros Hz. unfold nearestDouble. destruct (Z.ltb_spec z 0).
  - rewrite nearestDoubleNatural_safe by lia. lia.
  - apply nearestDoubleNatural_safe. lia.
Qed.

Lemma jsAdd_safe (a b : Z) :
  - 2 ^ 53 <= a <= 2 ^ 53 -> - 2 ^ 53 <= a + b <= 2 ^ 53 -> jsAdd a b = a + b.
Proof.
  intros Ha Hab. unfold jsAdd.
  destruct (Z.eqb_spec (Z.abs a) infinity) as [Habs|_].
  - exfalso. assert (2 ^ 53 < infinity) by (by vm_compute). lia.
  - by apply nearestDouble_safe.
Qed.

Lemma jsAdd_one (z : Z) : isSafeInteger z -> jsAdd z 1 = z + 1.
Proof. intros [? ?]. apply jsAdd_safe; lia. Qed.

Lemma nearestDoubleNatural_pos (a : Z) : 0 < a -> 0 < nearestDoubleNatural a.
Proof.
  intros Ha. unfold nearestDoubleNatural.
  destruct (Z.ltb_spec a (2 ^ 53)) as [|Hge]; [exact Ha|]. cbv zeta.
  destruct (Z.leb_spec infinity (roundHalfEven a (2 ^ (Z.log2 a - 52))
                                 * 2 ^ (Z.log2 a - 52))); [by vm_compute|].
  assert (53 <= Z.log2 a) as Hlog.
  { change 53 with (Z.log2 (2 ^ 53)). by apply Z.log2_le_mono. }
  set (e := Z.log2 a - 52) in *.
  assert (0 < 2 ^ e) as Hulp by (apply Z.pow_pos_nonneg; lia).
  assert (2 ^ e <= a) as Hle.
  { transitivity (2 ^ Z.log2 a); [apply Z.pow_le_mono_r; lia|].
    apply Z.log2_spec. lia. }
  assert (1 <= a / 2 ^ e) by (apply Z.div_le_lower_bound; lia).
  destruct (roundHalfEven_cases a (2 ^ e)) as [-> | ->]; nia.
Qed.

(** Rounding a double changes nothing. *)
Lemma nearestDoubleNatural_idem (a : Z) :
  nearestDoubleNatural (nearestDoubleNatural a) = nearestDoubleNatural a.
Proof.
  unfold nearestDoubleNatural at 2 3.
  destruct (Z.ltb_spec a (2 ^ 53)) as [Hlt|Hge].
  { unfold nearestDoubleNatural. destruct (Z.ltb_spec a (2 ^ 53)); [reflexivity|lia]. }
  cbv zeta.
  assert (0 < a) as Hpos by (assert (0 < 2 ^ 53) by (by vm_compute); lia).
  assert (53 <= Z.log2 a) as Hlog.
  { change 53 with (Z.log2 (2 ^ 53)). by apply Z.log2_le_mono. }
  pose proof (Z.log2_spec a Hpos) as [Hlow Hhigh].
  set (e := Z.log2 a - 52) in *.
  assert (Z.log2 a = e + 52) as Hloga by lia. rewrite Hloga in Hlow, Hhigh.
  assert (0 < 2 ^ e) as Hulp by (apply Z.pow_pos_nonneg; lia).
  assert (2 ^ (e + 52) = 2 ^ 52 * 2 ^ e) as Hlow2.
  { rewrite Z.pow_add_r by lia. lia. }
  assert (2 ^ Z.succ (e + 52) = 2 ^ 53 * 2 ^ e) as Hhigh2.
  { replace (Z.succ (e + 52)) with (53 + e) by lia. by rewrite Z.pow_add_r by lia. }
  rewrite Hlow2 in Hlow. rewrite Hhigh2 in Hhigh.
  assert (2 ^ 52 <= a / 2 ^ e) as Hq1 by (apply Z.div_le_lower_bound; lia).
  assert (a / 2 ^ e < 2 ^ 53) as Hq2 by (apply Z.div_lt_upper_bound; lia).
  set (m := roundHalfEven a (2 ^ e)).
  assert (2 ^ 52 <= m <= 2 ^ 53) as Hm.
  { unfold m. destruct (roundHalfEven_cases a (2 ^ e)) as [-> | ->]; lia. }
  destruct (Z.leb_spec infinity (m * 2 ^ e)) as [|Hfinite];
    [vm_compute; reflexivity|].
  unfold nearestDoubleNatural.
  assert (2 ^ 52 = 4503599627370496) as H52 by reflexivity.
  assert (2 ^ 53 = 9007199254740992) as H53 by reflexivity.
  assert (2 <= 2 ^ e) as Htwo.
  { change 2 with (2 ^ 1) at 1. apply Z.pow_le_mono_r; lia. }
  destruct (Z.ltb_spec (m * 2 ^ e) (2 ^ 53)) as [Hsmall|_]; [nia|]. cbv zeta.
  destruct (Z.eq_dec m (2 ^ 53)) as [Hmax|Hnot].
  - assert (Z.log2 (m * 2 ^ e) - 52 = e + 1) as ->.
    { rewrite Hmax, Z.log2_mul_pow2 by lia. change (Z.log2 (2 ^ 53)) with 53. lia. }
    assert (m * 2 ^ e = 2 ^ 52 * 2 ^ (e + 1)) as Hv.
    { rewrite Hmax, (Z.pow_add_r 2 e 1) by lia. change (2 ^ 1) with 2. lia. }
    assert (roundHalfEven (m * 2 ^ e) (2 ^ (e + 1)) = 2 ^ 52) as ->.
    { rewrite Hv. apply roundHalfEven_multiple. apply Z.pow_pos_nonneg; lia. }
    rewrite <- Hv. destruct (Z.leb_spec infinity (m * 2 ^ e)); [lia|reflexivity].
  - assert (Z.log2 (m * 2 ^ e) - 52 = e) as ->.
    { rewrite Z.log2_mul_pow2 by lia.
      assert (Z.log2 m = 52) as ->; [|lia].
      apply Z.log2_unique; [lia|]. change (2 ^ Z.succ 52) with (2 ^ 53). lia. }
    rewrite roundHalfEven_multiple by lia.
    destruct (Z.leb_spec infinity (m * 2 ^ e)); [lia|reflexivity].
Qed.

Lemma nearestDouble_idem (z : Z) :
  nearestDouble (nearestDouble z) = nearestDouble z.
Proof.
  unfold nearestDouble at 2 3. destruct (Z.ltb_spec z 0) as [Hneg|Hpos].
  - pose proof (nearestDoubleNatural_pos (- z) ltac:(lia)) as Hr.
    unfold nearestDouble.
    destruct (Z.ltb_spec (- nearestDoubleNatural (- z)) 0); [|lia].
    by rewrite Z.opp_involutive, nearestDoubleNatural_idem.
  - unfold nearestDouble.
    destruct (Z.ltb_spec (nearestDoubleNatural z) 0) as [Hlt|_].
    + exfalso. destruct (Z.eq_dec z 0) as [-> |]; [by vm_compute in Hlt|].
      pose proof (nearestDoubleNatural_pos z ltac:(lia)). lia.
    + apply nearestDoubleNatural_idem.
Qed.

(** The successor test of the special pattern accepts a parsed number
    and its exact successor, when that is a double too. *)
Lemma isSuccessor_exact (d : Z) :
  nearestDouble (d + 1) = d + 1 -> isSuccessor (Num (d + 1)) (Num d) = true.
Proof.
  intros Hd. unfold isSuccessor, jsAdd.
  destruct (Z.eqb_spec (Z.abs d) infinity) as [Habs|_].
  - exfalso. destruct (Z.abs_spec d) as [[_ Heq]|[_ Heq]]; rewrite Heq in Habs.
    + subst d. by vm_compute in Hd.
    + assert (d = - infinity) as -> by lia. by vm_compute in Hd.
  - rewrite Hd. apply Z.eqb_refl.
Qed.

(** ** Tokens, month names and [parseInt] *)

(** A token that [monthNames] answers with a truthy value is one of the
    table's names or a key of [Object.prototype]: never a number. *)
Lemma monthNames_truthy_parseInt (token : string) :
  truthy (monthNames token) = true -> parseInt token = NaN.
Proof.
  unfold monthNames, inObjectPrototype; simpl ownProperty; simpl existsb.
  case_key token. simpl. discriminate.
Qed.

Lemma parseInt_Num_not_month (token : string) (n : Z) :
  parseInt token = Num n -> truthy (monthNames token) = false.
Proof.
  intros Hn. destruct (truthy (monthNames token)) eqn:Hm; [|reflexivity].
  apply monthNames_truthy_parseInt in Hm. congruence.
Qed.

(** The filter for day tokens keeps exactly the tokens that parse. *)
Lemma isDayToken_parseInt (token : string) :
  isDayToken token = negb (isNaN (parseInt token)).
Proof.
  unfold isDayToken. destruct (parseInt token) eqn:Hp; simpl.
  - apply andb_false_r.
  - by rewrite (parseInt_Num_not_month _ _ Hp).
Qed.

(** A recognised month: one of the twelve names of the table. *)
Lemma monthNames_own (token : string) (n : Z) :
  ownProperty token monthNamesOwn = Some n ->
  monthNames token = VNum n /\ 1 <= n <= 12.
Proof.
  unfold monthNames. intros Hown. rewrite Hown. split; [reflexivity|].
  revert Hown. simpl ownProperty.
  repeat match goal with
         | |- context [String.eqb token ?k] =>
             destruct (String.eqb token k)
         end; intros [= <-]; lia.
Qed.

Lemma isDigit_code (c : ascii) :
  isDigit c = true -> (48 <= codeOf c <= 57)%N.
Proof.
  unfold isDigit. cbv zeta. intros [H1 H2]%andb_prop.
  apply N.leb_le in H1, H2. lia.
Qed.

Lemma isDigit_not_space (c : ascii) : isDigit c = true -> isWhiteSpace c = false.
Proof.
  intros H%isDigit_code. unfold isWhiteSpace. cbv zeta.
  destruct (N.leb_spec 9 (codeOf c)), (N.leb_spec (codeOf c) 13),
    (N.eqb_spec (codeOf c) 32), (N.eqb_spec (codeOf c) 160);
    simpl; try reflexivity; lia.
Qed.

Lemma isDigit_not_sign (c : ascii) :
  isDigit c = true -> Ascii.eqb c "-" || Ascii.eqb c "+" = false.
Proof.
  intros H%isDigit_code.
  destruct (Ascii.eqb_spec c "-") as [-> |_]; [unfold codeOf in H; simpl in H; lia|].
  destruct (Ascii.eqb_spec c "+") as [-> |_]; [unfold codeOf in H; simpl in H; lia|].
  reflexivity.
Qed.

Lemma takeDigits_app (digits rest : string) :
  allDigits digits = true -> startsWithDigit rest = false ->
  takeDigits (digits +:+ rest) = digits.
Proof.
  intros Hd Hr. induction digits as [|c ds IH]; simpl in *.
  - destruct rest as [|d rest]; simpl in *; [reflexivity| by rewrite Hr].
  - apply andb_prop in Hd as [Hc Hds]. rewrite Hc. f_equal. by apply IH.
Qed.

Lemma string_app_cons (x : ascii) (a b : string) :
  String x a +:+ b = String x (a +:+ b).
Proof. reflexivity. Qed.

Lemma string_app_assoc (a b c : string) : (a +:+ b) +:+ c = a +:+ (b +:+ c).
Proof.
  induction a as [|x a IH]; [done|]. rewrite !string_app_cons. by f_equal.
Qed.

Lemma string_app_nil_r (a : string) : a +:+ "" = a.
Proof.
  induction a as [|x a IH]; [done|]. rewrite string_app_cons. by f_equal.
Qed.


(** [parseInt] reads a leading run of digits and ignores what follows. *)
Lemma parseInt_digits_prefix (digits rest : string) :
  digits <> "" -> allDigits digits = true -> startsWithDigit rest = false ->
  parseInt (digits +:+ rest) = Num (nearestDouble (digitsValue 0 digits)).
Proof.
  intros Hne Hd Hr. destruct digits as [|c ds]; [done|].
  pose proof Hd as Hd'. simpl in Hd'. apply andb_prop in Hd' as [Hc _].
  unfold parseInt. change (String c ds +:+ rest) with (String c (ds +:+ rest)).
  cbn [trimStart]. rewrite (isDigit_not_space _ Hc).
  assert (Ascii.eqb c "-" = false) as Hminus.
  { pose proof (isDigit_not_sign _ Hc) as Hs. by apply orb_false_elim in Hs as [? _]. }
  rewrite (isDigit_not_sign _ Hc), Hminus.
  change (String c (ds +:+ rest)) with (String c ds +:+ rest).
  rewrite takeDigits_app by done. reflexivity.
Qed.

Lemma digitsValue_nonneg (digits : string) (acc : Z) :
  allDigits digits = true -> 0 <= acc -> 0 <= digitsValue acc digits.
Proof.
  revert acc. induction digits as [|c ds IH]; intros acc Hd Hacc; [done|].
  simpl in Hd. apply andb_prop in Hd as [Hc Hds]. apply isDigit_code in Hc.
  cbn [digitsValue]. apply IH; [done|]. unfold digitValue. lia.
Qed.

(** A run of digits that spells an integer up to 2^53 parses to it. *)
Lemma parseInt_digits (digits : string) :
  digits <> "" -> allDigits digits = true -> digitsValue 0 digits <= 2 ^ 53 ->
  parseInt digits = Num (digitsValue 0 digits).
Proof.
  intros Hne Hd Hsafe.
  pose proof (parseInt_digits_prefix digits "" Hne Hd eq_refl) as Hparse.
  rewrite string_app_nil_r in Hparse. rewrite Hparse, nearestDouble_safe; [done|].
  pose proof (digitsValue_nonneg digits 0 Hd ltac:(lia)).
  assert (0 < 2 ^ 53) by (by vm_compute). lia.
Qed.

(** What [parseInt] returns is a double. *)
Lemma parseInt_double (s : string) (z : Z) :
  parseInt s = Num z -> nearestDouble z = z.
Proof.
  unfold parseInt. cbv zeta. destruct (takeDigits _); [discriminate|].
  intros [= <-]. apply nearestDouble_idem.
Qed.


(** ** Dictionary keys *)

Lemma hasChar_app (c : ascii) (a b : string) :
  hasChar c (a +:+ String c b) = true.
Proof.
  induction a as [|d a IH]; simpl.
  - by rewrite Ascii.eqb_refl.
  - rewrite IH. apply orb_true_r.
Qed.

(** A calendar key holds a dash and no key of [Object.prototype] does:
    reading [sessionDays[key]] or [monthlyEnrollmentCounts[key]] never
    finds an inherited member, so these objects are the maps of their own
    properties. *)
Lemma calendarKey_not_inherited (year month : string) :
  inObjectPrototype (calendarKey year month) = false.
Proof.
  pose proof (hasChar_app "-" year month) as Hdash.
  change (year +:+ String "-" month) with (calendarKey year month) in Hdash.
  unfold inObjectPrototype. simpl existsb.
  repeat match goal with
         | |- context [String.eqb (calendarKey year month) ?k] =>
             destruct (String.eqb_spec (calendarKey year month) k) as [Heq | _];
             [ rewrite Heq in Hdash; discriminate Hdash | ]
         end.
  reflexivity.
Qed.

(** ** The blacklist *)

Lemma includes_app (s : string) (l1 l2 : list string) :
  includes s (l1 ++ l2) = includes s l1 || includes s l2.
Proof. unfold includes. apply existsb_app. Qed.

(** After [blacklist] the session is on the list, whatever was there. *)
Lemma blacklist_includes (sessionStr : string) (g : globals) :
  includes sessionStr (blacklistedSessions (blacklist sessionStr g)) = true.
Proof.
  unfold blacklist. destruct (includes sessionStr (blacklistedSessions g)) eqn:Hin.
  - exact Hin.
  - simpl. rewrite includes_app. simpl. rewrite String.eqb_refl.
    by rewrite orb_true_r.
Qed.

(** Blacklisting touches the list only, and never drops an entry. *)
Lemma blacklist_sessionDays (sessionStr : string) (g : globals) :
  sessionDays (blacklist sessionStr g) = sessionDays g.
Proof. unfold blacklist. by destruct (includes _ _). Qed.

Lemma blacklist_keeps (sessionStr other : string) (g : globals) :
  includes other (blacklistedSessions g) = true ->
  includes other (blacklistedSessions (blacklist sessionStr g)) = true.
Proof.
  intros Hin. unfold blacklist. destruct (includes sessionStr _); [done|].
  simpl. rewrite includes_app, Hin. reflexivity.
Qed.

(** ** The parenthesised group *)

Lemma upToClose_hasChar (s inner : string) :
  upToClose s = Some inner -> hasChar ")" s = true.
Proof.
  revert inner. induction s as [|c rest IH]; intros inner; simpl; [done|].
  destruct (Ascii.eqb c ")"); [done|].
  destruct (upToClose rest) as [x|]; [|done]. intros _. by apply (IH x).
Qed.

(** The regular expression only matches where a pair of parentheses is. *)
Lemma matchParenthesized_pair (s group : string) :
  matchParenthesized s = Some group -> hasParenthesisPair s = true.
Proof.
  induction s as [|c rest IH]; simpl; [done|].
  destruct (Ascii.eqb c "("); simpl; [|exact IH].
  destruct (upToClose rest) as [[|d inner]|] eqn:Hclose.
  - intros H. rewrite (upToClose_hasChar _ _ Hclose). reflexivity.
  - intros _. rewrite (upToClose_hasChar _ _ Hclose). reflexivity.
  - intros H. rewrite (IH H). apply orb_true_r.
Qed.

Lemma matchParenthesized_none (s : string) :
  hasParenthesisPair s = false -> matchParenthesized s = None.
Proof.
  intros Hpair. destruct (matchParenthesized s) as [group|] eqn:Hm; [|done].
  apply matchParenthesized_pair in Hm. congruence.
Qed.

(** The captured group is never empty and holds no closing parenthesis. *)
Lemma upToClose_no_close (s inner : string) :
  upToClose s = Some inner -> hasChar ")" inner = false.
Proof.
  revert inner. induction s as [|c rest IH]; intros inner; simpl; [done|].
  destruct (Ascii.eqb c ")") eqn:Hc; [by intros [= <-]|].
  destruct (upToClose rest) as [x|]; [|done].
  intros [= <-]. simpl. rewrite Hc. by apply IH.
Qed.

Lemma matchParenthesized_group (s group : string) :
  matchParenthesized s = Some group -> group <> "" /\ hasChar ")" group = false.
Proof.
  induction s as [|c rest IH]; simpl; [done|].
  destruct (Ascii.eqb c "("); [|exact IH].
  destruct (upToClose rest) as [[|d inner]|] eqn:Hclose; [exact IH| |exact IH].
  intros [= <-]. split; [done|]. by apply (upToClose_no_close rest).
Qed.

(** ** The normal parsing *)

Lemma scanToken_month (y m : Z) (cur : option jsval) (dates : list sessionDate)
    (token : string) :
  truthy (monthNames token) = true ->
  scanToken y m (cur, dates) token = (Some (monthNames token), dates).
Proof. intros H. unfold scanToken. by rewrite H. Qed.


Lemma scanToken_unset (y m : Z) (dates : list sessionDate) (token : string) :
  truthy (monthNames token) = false ->
  scanToken y m (None, dates) token = (None, dates).
Proof. intros H. unfold scanToken. rewrite H. by destruct (parseInt token). Qed.

(** Tokens that are not months leave an unset cursor unset. *)
Lemma scan_before_first_month (y m : Z) (before : list string)
    (dates : list sessionDate) :
  Forall (fun token => truthy (monthNames token) = false) before ->
  fold_left (scanToken y m) before (None, dates) = (None, dates).
Proof.
  induction 1 as [|token rest Htoken _ IH]; cbn [fold_left]; [done|].
  by rewrite scanToken_unset.
Qed.

Lemma scan_invariant (y m : Z) (all tokens : list string) (cur : option jsval)
    (dates : list sessionDate) :
  (forall token, In token tokens -> In token all) ->
  (forall v, cur = Some v ->
     exists token, In token all /\ truthy (monthNames token) = true
                   /\ v = monthNames token) ->
  Forall (emittedBy y m all) dates ->
  Forall (emittedBy y m all) (snd (fold_left (scanToken y m) tokens (cur, dates))).
Proof.
  revert cur dates.
  induction tokens as [|token rest IH]; intros cur dates Hall Hcur Hdates;
    cbn [fold_left]; [done|].
  assert (forall t, In t rest -> In t all) as Hrest by (intros t Ht; apply Hall; by right).
  unfold scanToken at 2. destruct (truthy (monthNames token)) eqn:Hmonth.
  - apply IH; [done| |done].
    intros v [= <-]. exists token. split; [apply Hall; by left|done].
  - destruct (parseInt token) as [|d]; [by apply IH|].
    destruct cur as [cursor|]; [|by apply IH].
    apply IH; [done..|].
    apply Forall_app. split; [done|]. constructor; [|constructor].
    split; [reflexivity|]. simpl. by apply Hcur.
Qed.

Lemma scanTokens_emittedBy (y m : Z) (tokens : list string) :
  Forall (emittedBy y m tokens) (scanTokens y m tokens).
Proof. unfold scanTokens. apply scan_invariant; [done|done|constructor]. Qed.

(** ** The session-date resolver *)

(** Pass 1 on a row whose session resolves to no date: nothing is added to
    the calendar; the globals are the ones the resolver left. *)
Lemma pass1OnRow_no_dates
    (parse : string -> Z -> Z -> globals -> list sessionDate * globals)
    (r : row) (g g1 : globals) (sessionStr : string) :
  Session r = Some sessionStr ->
  (forall y m, parse sessionStr y m g = ([], g1)) ->
  pass1OnRow parse r g = g \/ pass1OnRow parse r g = g1.
Proof.
  intros Hs Hparse. unfold pass1OnRow. rewrite Hs.
  destruct (isMissing (Enroll_Date r) || isMissing (Some sessionStr)); [by left|].
  destruct (Enroll_Date r) as [enrollDateStr|]; [|by left].
  destruct (splitOn "/" enrollDateStr) as [|p0 [|p1 [|p2 [|]]]]; try by left.
  destruct (parseInt p0) as [|em]; [by left|].
  destruct (parseInt p2) as [|ey]; [by left|].
  rewrite Hparse. by right.
Qed.

(** First variant: a group with at most 3 day tokens blacklists the
    session and yields no date. *)
Lemma Variant1_few_day_tokens (sessionStr group : string) (y m : Z) (g : globals) :
  matchParenthesized sessionStr = Some group ->
  (length (List.filter isDayToken (tokenize (trim group))) <= 3)%nat ->
  Variant1.parseSessionDates sessionStr y m g = ([], blacklist sessionStr g).
Proof.
  intros Hm Hfew. unfold Variant1.parseSessionDates. rewrite Hm.
  apply Nat.leb_le in Hfew. cbv zeta. by rewrite Hfew.
Qed.

(** ... and so the row leaves the session calendar as it was. *)
Lemma Variant1_few_day_tokens_calendar (r : row) (sessionStr group : string)
    (g : globals) :
  Session r = Some sessionStr ->
  matchParenthesized sessionStr = Some group ->
  (length (List.filter isDayToken (tokenize (trim group))) <= 3)%nat ->
  sessionDays (pass1OnRow Variant1.parseSessionDates r g) = sessionDays g.
Proof.
  intros Hs Hm Hfew.
  destruct (pass1OnRow_no_dates Variant1.parseSessionDates r g
              (blacklist sessionStr g) sessionStr Hs) as [-> | ->].
  - intros y m. by apply Variant1_few_day_tokens with group.
  - reflexivity.
  - apply blacklist_sessionDays.
Qed.

(** C2 (second variant): the session [May (May 5 6 7)] has 3 day tokens in
    its parentheses, yet the second variant's resolver returns its three
    dates, leaves the blacklist empty, and pass 1 records the days 5, 6, 7
    under the key 2024-5. *)
Theorem C2_variant2_resolves_short_session :
  matchParenthesized "May (May 5 6 7)" = Some "May 5 6 7"
  /\ length (List.filter isDayToken (tokenize (trim "May 5 6 7"))) = 3%nat
  /\ Variant2.parseSessionDates "May (May 5 6 7)" 2024 5 initialGlobals
     = ([ {| year := 2024; month := VNum 5; day := 5 |};
          {| year := 2024; month := VNum 5; day := 6 |};
          {| year := 2024; month := VNum 5; day := 7 |} ], initialGlobals)
  /\ sessionDays
       (pass1OnRow Variant2.parseSessionDates
          (csvRow "05/01/2024" "May (May 5 6 7)" "Beginner") initialGlobals)
     !! "2024-5" = Some [5; 6; 7]
  /\ Variant1.parseSessionDates "May (May 5 6 7)" 2024 5 initialGlobals
     = ([], blacklist "May (May 5 6 7)" initialGlobals).
Proof. repeat split; vm_compute; reflexivity. Qed.

(** A month of the table followed by four consecutive integers is the
    special pattern. *)
Lemma isSpecialPattern_consecutive (t0 t1 t2 t3 t4 : string) (mo d1 : Z) :
  ownProperty t0 monthNamesOwn = Some mo ->
  parseInt t1 = Num d1 -> parseInt t2 = Num (d1 + 1) ->
  parseInt t3 = Num (d1 + 2) -> parseInt t4 = Num (d1 + 3) ->
  isSpecialPattern [t0; t1; t2; t3; t4] = true.
Proof.
  intros Hmo H1 H2 H3 H4. unfold isSpecialPattern.
  destruct (monthNames_own _ _ Hmo) as [Hmonth Hrange].
  assert (isSuccessor (Num (d1 + 1)) (Num d1) = true) as S1
    by apply isSuccessor_exact, (parseInt_double _ _ H2).
  assert (isSuccessor (Num (d1 + 2)) (Num (d1 + 1)) = true) as S2.
  { apply parseInt_double in H3. replace (d1 + 2) with (d1 + 1 + 1) in * by lia.
    by apply isSuccessor_exact. }
  assert (isSuccessor (Num (d1 + 3)) (Num (d1 + 2)) = true) as S3.
  { apply parseInt_double in H4. replace (d1 + 3) with (d1 + 2 + 1) in * by lia.
    by apply isSuccessor_exact. }
  cbn [length List.hd List.tl map forallb isConsecutive].
  rewrite Hmonth, H1, H2, H3, H4, S1, S2, S3. simpl.
  by destruct (Z.eqb_spec mo 0); [lia|].
Qed.

Lemma four_day_tokens (t0 t1 t2 t3 t4 : string) (d1 d2 d3 d4 : Z) :
  parseInt t1 = Num d1 -> parseInt t2 = Num d2 ->
  parseInt t3 = Num d3 -> parseInt t4 = Num d4 ->
  (length (List.filter isDayToken [t0; t1; t2; t3; t4]) <=? 3)%nat = false.
Proof.
  intros H1 H2 H3 H4. cbn [List.filter].
  rewrite (isDayToken_parseInt t1), (isDayToken_parseInt t2),
    (isDayToken_parseInt t3), (isDayToken_parseInt t4), H1, H2, H3, H4.
  simpl. by destruct (isDayToken t0).
Qed.

(** What the group [May 5 6 7 9] resolves to, in both variants. *)
Lemma nonconsecutive_block_dates (sessionStr group : string) (y m : Z)
    (g : globals) :
  matchParenthesized sessionStr = Some group ->
  trim group = "May 5 6 7 9" ->
  let sessionYear := if 5 <? m then jsAdd y 1 else y in
  let dates := map (fun d => {| year := sessionYear; month := VNum 5; day := d |})
                   [5; 6; 7; 9] in
  Variant1.parseSessionDates sessionStr y m g = (dates, g)
  /\ Variant2.parseSessionDates sessionStr y m g = (dates, g).
Proof.
  intros Hm Htrim.
  unfold Variant1.parseSessionDates, Variant2.parseSessionDates.
  rewrite Hm. cbv zeta. rewrite Htrim.
  change (tokenize "May 5 6 7 9") with ["May"; "5"; "6"; "7"; "9"].
  split; reflexivity.
Qed.

(** C5: a group of exactly 5 tokens, a month of the table first and then 4
    tokens that parse to numbers each one greater than the previous,
    blacklists the session and yields no date, in both variants; so do
    four runs of digits that spell consecutive integers up to 2^53.  The
    group [May 5 6 7 9] leaves the blacklist alone and yields May 5, 6, 7
    and 9, in the enrollment year when the enrollment month is at most 5
    and otherwise in the double sum of the enrollment year and 1, which
    is the next year for every enrollment year of magnitude below 2^53. *)
Theorem C5_consecutive_block_blacklisted :
  (forall (sessionStr group t0 t1 t2 t3 t4 : string) (mo d1 y m : Z) (g : globals),
      matchParenthesized sessionStr = Some group ->
      tokenize (trim group) = [t0; t1; t2; t3; t4] ->
      ownProperty t0 monthNamesOwn = Some mo ->
      parseInt t1 = Num d1 -> parseInt t2 = Num (d1 + 1) ->
      parseInt t3 = Num (d1 + 2) -> parseInt t4 = Num (d1 + 3) ->
      Variant1.parseSessionDates sessionStr y m g = ([], blacklist sessionStr g)
      /\ Variant2.parseSessionDates sessionStr y m g = ([], blacklist sessionStr g)
      /\ includes sessionStr (blacklistedSessions (blacklist sessionStr g)) = true)
  /\
  (forall (sessionStr group t0 t1 t2 t3 t4 : string) (mo y m : Z) (g : globals),
      matchParenthesized sessionStr = Some group ->
      tokenize (trim group) = [t0; t1; t2; t3; t4] ->
      ownProperty t0 monthNamesOwn = Some mo ->
      Forall (fun t => t <> "" /\ allDigits t = true) [t1; t2; t3; t4] ->
      digitsValue 0 t2 = digitsValue 0 t1 + 1 ->
      digitsValue 0 t3 = digitsValue 0 t1 + 2 ->
      digitsValue 0 t4 = digitsValue 0 t1 + 3 ->
      digitsValue 0 t4 <= 2 ^ 53 ->
      Variant1.parseSessionDates sessionStr y m g = ([], blacklist sessionStr g)
      /\ Variant2.parseSessionDates sessionStr y m g = ([], blacklist sessionStr g))
  /\
  (forall (sessionStr group : string) (y m : Z) (g : globals),
      matchParenthesized sessionStr = Some group ->
      trim group = "May 5 6 7 9" ->
      let sessionYear := if 5 <? m then jsAdd y 1 else y in
      let dates := map (fun d => {| year := sessionYear; month := VNum 5; day := d |})
                       [5; 6; 7; 9] in
      Variant1.parseSessionDates sessionStr y m g = (dates, g)
      /\ Variant2.parseSessionDates sessionStr y m g = (dates, g))
  /\
  (forall (sessionStr group : string) (y m : Z) (g : globals),
      matchParenthesized sessionStr = Some group ->
      trim group = "May 5 6 7 9" ->
      isSafeInteger y ->
      let sessionYear := if 5 <? m then y + 1 else y in
      let dates := map (fun d => {| year := sessionYear; month := VNum 5; day := d |})
                       [5; 6; 7; 9] in
      Variant1.parseSessionDates sessionStr y m g = (dates, g)
      /\ Variant2.parseSessionDates sessionStr y m g = (dates, g)).
Proof.
  assert (forall (sessionStr group t0 t1 t2 t3 t4 : string) (mo d1 y m : Z)
                 (g : globals),
             matchParenthesized sessionStr = Some group ->
             tokenize (trim group) = [t0; t1; t2; t3; t4] ->
             ownProperty t0 monthNamesOwn = Some mo ->
             parseInt t1 = Num d1 -> parseInt t2 = Num (d1 + 1) ->
             parseInt t3 = Num (d1 + 2) -> parseInt t4 = Num (d1 + 3) ->
             Variant1.parseSessionDates sessionStr y m g
             = ([], blacklist sessionStr g)
             /\ Variant2.parseSessionDates sessionStr y m g
                = ([], blacklist sessionStr g)) as Hblock.
  { intros sessionStr group t0 t1 t2 t3 t4 mo d1 y m g Hm Htok Hmo H1 H2 H3 H4.
    pose proof (isSpecialPattern_consecutive _ _ _ _ _ _ _ Hmo H1 H2 H3 H4) as Hsp.
    pose proof (four_day_tokens t0 _ _ _ _ _ _ _ _ H1 H2 H3 H4) as Hfour.
    unfold Variant1.parseSessionDates, Variant2.parseSessionDates.
    rewrite Hm. cbv zeta. by rewrite Htok, Hsp, Hfour. }
  split; [|split; [|split]].
  - intros sessionStr group t0 t1 t2 t3 t4 mo d1 y m g Hm Htok Hmo H1 H2 H3 H4.
    destruct (Hblock _ _ _ _ _ _ _ _ _ y m g Hm Htok Hmo H1 H2 H3 H4) as [-> ->].
    repeat split. apply blacklist_includes.
  - intros sessionStr group t0 t1 t2 t3 t4 mo y m g Hm Htok Hmo Hdigits
      E2 E3 E4 Hsafe.
    apply Forall_cons in Hdigits as [[N1 D1] Hdigits].
    apply Forall_cons in Hdigits as [[N2 D2] Hdigits].
    apply Forall_cons in Hdigits as [[N3 D3] Hdigits].
    apply Forall_cons in Hdigits as [[N4 D4] _].
    apply (Hblock _ _ _ _ _ _ _ _ (digitsValue 0 t1) y m g Hm Htok Hmo).
    + apply parseInt_digits; [done..|lia].
    + rewrite <- E2. apply parseInt_digits; [done..|lia].
    + rewrite <- E3. apply parseInt_digits; [done..|lia].
    + rewrite <- E4. by apply parseInt_digits.
  - intros sessionStr group y m g Hm Htrim.
    exact (nonconsecutive_block_dates sessionStr group y m g Hm Htrim).
  - intros sessionStr group y m g Hm Htrim Hsafe.
    rewrite <- (jsAdd_one y Hsafe).
    exact (nonconsecutive_block_dates sessionStr group y m g Hm Htrim).
Qed.

Lemma C5_consecutive_block_blacklisted_witness :
  (Variant1.parseSessionDates "May (May 5 6 7 8)" 2024 3 initialGlobals
   = ([], blacklist "May (May 5 6 7 8)" initialGlobals)
   /\ Variant2.parseSessionDates "May (May 5 6 7 8)" 2024 3 initialGlobals
      = ([], blacklist "May (May 5 6 7 8)" initialGlobals)
   /\ includes "May (May 5 6 7 8)"
        (blacklistedSessions (blacklist "May (May 5 6 7 8)" initialGlobals)) = true)
  /\
  (Variant1.parseSessionDates "May (May 12 13 14 15)" 2024 3 initialGlobals
   = ([], blacklist "May (May 12 13 14 15)" initialGlobals)
   /\ Variant2.parseSessionDates "May (May 12 13 14 15)" 2024 3 initialGlobals
      = ([], blacklist "May (May 12 13 14 15)" initialGlobals))
  /\
  (Variant1.parseSessionDates "May (May 5 6 7 9)" 2024 6 initialGlobals
   = ([ {| year := jsAdd 2024 1; month := VNum 5; day := 5 |};
        {| year := jsAdd 2024 1; month := VNum 5; day := 6 |};
        {| year := jsAdd 2024 1; month := VNum 5; day := 7 |};
        {| year := jsAdd 2024 1; month := VNum 5; day := 9 |} ], initialGlobals)
   /\ Variant2.parseSessionDates "May (May 5 6 7 9)" 2024 6 initialGlobals
      = ([ {| year := jsAdd 2024 1; month := VNum 5; day := 5 |};
           {| year := jsAdd 2024 1; month := VNum 5; day := 6 |};
           {| year := jsAdd 2024 1; month := VNum 5; day := 7 |};
           {| year := jsAdd 2024 1; month := VNum 5; day := 9 |} ], initialGlobals))
  /\
  (isSafeInteger 2024
   /\ Variant1.parseSessionDates "May (May 5 6 7 9)" 2024 6 initialGlobals
      = ([ {| year := 2025; month := VNum 5; day := 5 |};
           {| year := 2025; month := VNum 5; day := 6 |};
           {| year := 2025; month := VNum 5; day := 7 |};
           {| year := 2025; month := VNum 5; day := 9 |} ], initialGlobals)
   /\ Variant2.parseSessionDates "May (May 5 6 7 9)" 2024 6 initialGlobals
      = ([ {| year := 2025; month := VNum 5; day := 5 |};
           {| year := 2025; month := VNum 5; day := 6 |};
           {| year := 2025; month := VNum 5; day := 7 |};
           {| year := 2025; month := VNum 5; day := 9 |} ], initialGlobals)).
Proof.
  assert (isSafeInteger 2024) as Hsafe by (unfold isSafeInteger; simpl; lia).
  split; [|split; [|split; [|split; [exact Hsafe|]]]].
  - apply (proj1 C5_consecutive_block_blacklisted
             "May (May 5 6 7 8)" "May 5 6 7 8" "May" "5" "6" "7" "8" 5 5 2024 3
             initialGlobals); reflexivity.
  - apply (proj1 (proj2 C5_consecutive_block_blacklisted)
             "May (May 12 13 14 15)" "May 12 13 14 15" "May" "12" "13" "14" "15"
             5 2024 3 initialGlobals);
      [reflexivity | reflexivity | reflexivity
      | repeat constructor; discriminate
      | reflexivity | reflexivity | reflexivity | by vm_compute].
  - apply (proj1 (proj2 (proj2 C5_consecutive_block_blacklisted))
             "May (May 5 6 7 9)" "May 5 6 7 9" 2024 6 initialGlobals); reflexivity.
  - apply (proj2 (proj2 (proj2 C5_consecutive_block_blacklisted))
             "May (May 5 6 7 9)" "May 5 6 7 9" 2024 6 initialGlobals);
      [reflexivity | reflexivity | exact Hsafe].
Defined.

(** From 2^53 on the sums and the parsed numbers are no longer the exact
    integers.  With the enrollment year 2^53 and the enrollment month 6,
    the dates of [May 5 6 7 9] are in the year 2^53, not 2^53 + 1; and
    four tokens whose digits spell 2^53, 2^53 + 1, 2^53 + 2 and 2^53 + 3
    parse to 2^53, 2^53, 2^53 + 2 and 2^53 + 4: the session is not
    blacklisted and yields four dates. *)
Lemma C5_exact_arithmetic_fails :
  Variant1.parseSessionDates "May (May 5 6 7 9)" 9007199254740992 6 initialGlobals
  = (map (fun d => {| year := 9007199254740992; month := VNum 5; day := d |})
         [5; 6; 7; 9], initialGlobals)
  /\ Variant2.parseSessionDates "May (May 5 6 7 9)" 9007199254740992 6 initialGlobals
     = (map (fun d => {| year := 9007199254740992; month := VNum 5; day := d |})
            [5; 6; 7; 9], initialGlobals)
  /\ 9007199254740992 <> 9007199254740992 + 1
  /\ map parseInt ["9007199254740992"; "9007199254740993";
                   "9007199254740994"; "9007199254740995"]
     = [Num 9007199254740992; Num 9007199254740992;
        Num 9007199254740994; Num 9007199254740996]
  /\ Variant1.parseSessionDates
       "May (May 9007199254740992 9007199254740993 9007199254740994 9007199254740995)"
       2024 3 initialGlobals
     = (map (fun d => {| year := 2024; month := VNum 5; day := d |})
            [9007199254740992; 9007199254740992;
             9007199254740994; 9007199254740996], initialGlobals)
  /\ Variant2.parseSessionDates
       "May (May 9007199254740992 9007199254740993 9007199254740994 9007199254740995)"
       2024 3 initialGlobals
     = (map (fun d => {| year := 2024; month := VNum 5; day := d |})
            [9007199254740992; 9007199254740992;
             9007199254740994; 9007199254740996], initialGlobals).
Proof. repeat split; try (vm_compute; reflexivity). lia. Qed.

(** Whatever either variant returns comes from the normal parsing. *)
Lemma parseSessionDates_emittedBy (sessionStr : string) (y m : Z) (g : globals)
    (d : sessionDate) :
  In d (fst (Variant1.parseSessionDates sessionStr y m g))
  \/ In d (fst (Variant2.parseSessionDates sessionStr y m g)) ->
  exists group, matchParenthesized sessionStr = Some group
                /\ emittedBy y m (tokenize (trim group)) d.
Proof.
  unfold Variant1.parseSessionDates, Variant2.parseSessionDates.
  destruct (matchParenthesized sessionStr) as [group|]; [|by intros [[]|[]]].
  cbv zeta. intros Hd. exists group. split; [done|].
  pose proof (scanTokens_emittedBy y m (tokenize (trim group))) as Hall.
  rewrite List.Forall_forall in Hall. apply Hall.
  destruct (length _ <=? 3)%nat, (isSpecialPattern _); cbn [fst In] in Hd; tauto.
Qed.

(** C6: every date the resolver emits carries the double sum of the
    enrollment year and 1 when the enrollment month is strictly greater
    than the month the cursor held (the value of a month token of the
    group), and the enrollment year otherwise; for an enrollment year of
    magnitude below 2^53 the sum is exact and the year is the enrollment
    year plus one exactly when the enrollment month is strictly greater;
    tokens met before any month token emit nothing: the scan gives what
    it gives without them. *)
Theorem C6_year_inference :
  (forall (sessionStr : string) (y m : Z) (g : globals) (d : sessionDate),
      In d (fst (Variant1.parseSessionDates sessionStr y m g))
      \/ In d (fst (Variant2.parseSessionDates sessionStr y m g)) ->
      followsYearRule y m d
      /\ (forall n, month d = VNum n ->
            (n < m -> year d = jsAdd y 1) /\ (~ n < m -> year d = y))
      /\ (forall key, month d = VInherited key -> year d = y))
  /\
  (forall (sessionStr : string) (y m : Z) (g : globals) (d : sessionDate) (n : Z),
      isSafeInteger y ->
      In d (fst (Variant1.parseSessionDates sessionStr y m g))
      \/ In d (fst (Variant2.parseSessionDates sessionStr y m g)) ->
      month d = VNum n ->
      (year d = y + 1 <-> n < m) /\ (year d = y <-> ~ n < m))
  /\
  (forall (y m : Z) (before rest : list string),
      Forall (fun token => truthy (monthNames token) = false) before ->
      scanTokens y m (before ++ rest) = scanTokens y m rest).
Proof.
  split; [|split].
  - intros sessionStr y m g d Hd.
    apply parseSessionDates_emittedBy in Hd as (group & _ & Hrule & _).
    split; [exact Hrule|]. unfold followsYearRule in Hrule. split.
    + intros n Hn. rewrite Hn in Hrule. simpl in Hrule.
      destruct (Z.ltb_spec n m); rewrite Hrule; split; intros; try lia; done.
    + intros key Hkey. rewrite Hkey in Hrule. exact Hrule.
  - intros sessionStr y m g d n Hsafe Hd Hn.
    apply parseSessionDates_emittedBy in Hd as (group & _ & Hrule & _).
    unfold followsYearRule in Hrule. rewrite Hn in Hrule. simpl in Hrule.
    rewrite (jsAdd_one y Hsafe) in Hrule.
    destruct (Z.ltb_spec n m); rewrite Hrule; split; split; try lia; done.
  - intros y m before rest Hbefore. unfold scanTokens.
    rewrite fold_left_app. by rewrite scan_before_first_month.
Qed.

Lemma C6_year_inference_witness :
  (followsYearRule 2024 11 {| year := 2025; month := VNum 1; day := 6 |}
   /\ (forall n, VNum 1 = VNum n ->
         (n < 11 -> 2025 = jsAdd 2024 1) /\ (~ n < 11 -> 2025 = 2024))
   /\ (forall key, VNum 1 = VInherited key -> 2025 = 2024))
  /\ (isSafeInteger 2024
      /\ (2025 = 2024 + 1 <-> 1 < 11) /\ (2025 = 2024 <-> ~ 1 < 11))
  /\ scanTokens 2024 11 (["3"; "x"] ++ ["January"; "6"; "13"; "20"; "27"])
     = scanTokens 2024 11 ["January"; "6"; "13"; "20"; "27"].
Proof.
  assert (isSafeInteger 2024) as Hsafe by (unfold isSafeInteger; simpl; lia).
  split; [|split; [split; [exact Hsafe|]|]].
  - apply (proj1 C6_year_inference "January (3 x January 6 13 20 27)" 2024 11
             initialGlobals {| year := 2025; month := VNum 1; day := 6 |}).
    left. vm_compute. by left.
  - apply (proj1 (proj2 C6_year_inference) "January (3 x January 6 13 20 27)"
             2024 11 initialGlobals
             {| year := 2025; month := VNum 1; day := 6 |} 1 Hsafe);
      [left; vm_compute; by left | reflexivity].
  - apply (proj2 (proj2 C6_year_inference) 2024 11 ["3"; "x"]).
    repeat constructor.
Defined.

(** From 2^53 on the year rule is no longer one of exact integers: with
    the enrollment year 2^53 and the enrollment month 11, the dates of a
    January session are emitted with the year 2^53, the double sum of
    2^53 and 1, although 11 is greater than 1. *)
Lemma C6_exact_year_fails :
  let d := {| year := 9007199254740992; month := VNum 1; day := 6 |} in
  In d (fst (Variant1.parseSessionDates "January (January 6 13 20 27)"
               9007199254740992 11 initialGlobals))
  /\ In d (fst (Variant2.parseSessionDates "January (January 6 13 20 27)"
                  9007199254740992 11 initialGlobals))
  /\ month d = VNum 1 /\ 1 < 11
  /\ year d <> 9007199254740992 + 1
  /\ jsAdd 9007199254740992 1 = 9007199254740992.
Proof.
  cbv zeta. split; [vm_compute; by left|]. split; [vm_compute; by left|].
  split; [reflexivity|]. split; [lia|]. split; [simpl; lia|].
  vm_compute. reflexivity.
Qed.

(** C7: a session string without a pair of parentheses yields no date in
    either variant and leaves the globals untouched: the blacklist does
    not grow, and pass 1 on a row with that session changes nothing. *)
Theorem C7_no_parentheses (sessionStr : string) (y m : Z) (g : globals) (r : row) :
  hasParenthesisPair sessionStr = false ->
  Session r = Some sessionStr ->
  Variant1.parseSessionDates sessionStr y m g = ([], g)
  /\ Variant2.parseSessionDates sessionStr y m g = ([], g)
  /\ pass1OnRow Variant1.parseSessionDates r g = g
  /\ pass1OnRow Variant2.parseSessionDates r g = g.
Proof.
  intros Hpair%matchParenthesized_none Hs.
  assert (forall y m, Variant1.parseSessionDates sessionStr y m g = ([], g)) as H1.
  { intros. unfold Variant1.parseSessionDates. by rewrite Hpair. }
  assert (forall y m, Variant2.parseSessionDates sessionStr y m g = ([], g)) as H2.
  { intros. unfold Variant2.parseSessionDates. by rewrite Hpair. }
  repeat split; [apply H1 | apply H2 | |].
  - by destruct (pass1OnRow_no_dates _ r g g sessionStr Hs H1).
  - by destruct (pass1OnRow_no_dates _ r g g sessionStr Hs H2).
Qed.

Lemma C7_no_parentheses_witness :
  Variant1.parseSessionDates "May Monday 6 13 20 27" 2024 5 initialGlobals
  = ([], initialGlobals)
  /\ Variant2.parseSessionDates "May Monday 6 13 20 27" 2024 5 initialGlobals
     = ([], initialGlobals)
  /\ pass1OnRow Variant1.parseSessionDates
       (csvRow "05/01/2024" "May Monday 6 13 20 27" "Beginner") initialGlobals
     = initialGlobals
  /\ pass1OnRow Variant2.parseSessionDates
       (csvRow "05/01/2024" "May Monday 6 13 20 27" "Beginner") initialGlobals
     = initialGlobals.
Proof.
  apply (C7_no_parentheses "May Monday 6 13 20 27" 2024 5 initialGlobals
           (csvRow "05/01/2024" "May Monday 6 13 20 27" "Beginner"));
    reflexivity.
Defined.



(** Signed and white-space-led tokens: [-5x] is day -5, [+7th] is day 7,
    and a tab before the digits is skipped. *)
Example parseInt_signed_tokens :
  parseInt "-5x" = Num (-5) /\ parseInt "+7th" = Num 7
  /\ parseInt (String (ascii_of_nat 9) "12th") = Num 12
  /\ isDayToken "-5x" = true /\ isDayToken "+7th" = true.
Proof. repeat split; reflexivity. Qed.

(** From 2^53 on the day is the double nearest to what the digits spell;
    a run of 400 digits parses to [Infinity], still a day token. *)
Example parseInt_large_tokens :
  parseInt "9007199254740993rd" = Num 9007199254740992
  /\ isDayToken "9007199254740993rd" = true
  /\ parseInt (String.concat "" (repeat "9" 400)) = Num infinity
  /\ isDayToken (String.concat "" (repeat "9" 400)) = true.
Proof. repeat split; vm_compute; reflexivity. Qed.

(** A range token reads as its first number; in the first variant four
    suffixed day tokens pass the threshold of 3, three do not. *)
Example parseInt_range_token : parseInt "5-6" = Num 5.
Proof. reflexivity. Qed.

Example Variant1_suffixed_days :
  fst (Variant1.parseSessionDates "May (May 7th 14th 21st 5-6)" 2024 5 initialGlobals)
  = [ {| year := 2024; month := VNum 5; day := 7 |};
      {| year := 2024; month := VNum 5; day := 14 |};
      {| year := 2024; month := VNum 5; day := 21 |};
      {| year := 2024; month := VNum 5; day := 5 |} ]
  /\ Variant1.parseSessionDates "May (May 7th 14th 21st)" 2024 5 initialGlobals
     = ([], blacklist "May (May 7th 14th 21st)" initialGlobals).
Proof. split; reflexivity. Qed.

(** ** Pass 1 and the counters *)

Lemma sameCounters_refl (g : globals) : sameCounters g g.
Proof. by repeat split. Qed.

Lemma sameCounters_trans (g1 g2 g3 : globals) :
  sameCounters g1 g2 -> sameCounters g2 g3 -> sameCounters g1 g3.
Proof. unfold sameCounters. intros (? & ? & ?) (? & ? & ?). repeat split; congruence. Qed.

Lemma blacklist_sameCounters (sessionStr : string) (g : globals) :
  sameCounters g (blacklist sessionStr g).
Proof. unfold blacklist. destruct (includes _ _); by repeat split. Qed.

Lemma addSessionDays_sameCounters (dates : list sessionDate) (g : globals) :
  sameCounters g
    (fold_left (fun g' d => addSessionDay (year d) (month d) (day d) g') dates g).
Proof.
  revert g. induction dates as [|d dates IH]; intros g; cbn [fold_left].
  - apply sameCounters_refl.
  - eapply sameCounters_trans; [|apply IH]. by repeat split.
Qed.

Lemma Variant1_parse_sameCounters (s : string) (y m : Z) (g : globals) :
  sameCounters g (snd (Variant1.parseSessionDates s y m g)).
Proof.
  unfold Variant1.parseSessionDates.
  destruct (matchParenthesized s); [|apply sameCounters_refl]. cbv zeta.
  destruct (length _ <=? 3)%nat; [apply blacklist_sameCounters|].
  destruct (isSpecialPattern _);
    [apply blacklist_sameCounters | apply sameCounters_refl].
Qed.

Lemma Variant2_parse_sameCounters (s : string) (y m : Z) (g : globals) :
  sameCounters g (snd (Variant2.parseSessionDates s y m g)).
Proof.
  unfold Variant2.parseSessionDates.
  destruct (matchParenthesized s); [|apply sameCounters_refl]. cbv zeta.
  destruct (isSpecialPattern _);
    [apply blacklist_sameCounters | apply sameCounters_refl].
Qed.

Lemma pass1OnRow_sameCounters
    (parse : string -> Z -> Z -> globals -> list sessionDate * globals)
    (r : row) (g : globals) :
  (forall s y m g0, sameCounters g0 (snd (parse s y m g0))) ->
  sameCounters g (pass1OnRow parse r g).
Proof.
  intros Hparse. unfold pass1OnRow.
  destruct (isMissing (Enroll_Date r) || isMissing (Session r));
    [apply sameCounters_refl|].
  destruct (Enroll_Date r) as [enrollDateStr|]; [|apply sameCounters_refl].
  destruct (Session r) as [sessionStr|]; [|apply sameCounters_refl].
  destruct (splitOn "/" enrollDateStr) as [|p0 [|p1 [|p2 [|]]]];
    try apply sameCounters_refl.
  destruct (parseInt p0) as [|em]; [apply sameCounters_refl|].
  destruct (parseInt p2) as [|ey]; [apply sameCounters_refl|].
  specialize (Hparse sessionStr ey em g).
  destruct (parse sessionStr ey em g) as [dates g1]. simpl in Hparse.
  eapply sameCounters_trans; [exact Hparse|apply addSessionDays_sameCounters].
Qed.

Lemma readCSVFile_pass1_sameCounters
    (parse : string -> Z -> Z -> globals -> list sessionDate * globals)
    (rows : list row) (g : globals) :
  (forall s y m g0, sameCounters g0 (snd (parse s y m g0))) ->
  sameCounters g (readCSVFile (pass1OnRow parse) rows g).
Proof.
  intros Hparse. revert g. unfold readCSVFile.
  induction rows as [|r rows IH]; intros g; cbn [fold_left].
  - apply sameCounters_refl.
  - eapply sameCounters_trans; [|apply IH]. by apply pass1OnRow_sameCounters.
Qed.

(** ** Pass 2 *)

(** The callback of either variant, once the guards are known. *)
Lemma Variant1_pass2OnRow_skipped (G : Z) (r : row) (g : globals) :
  pass2Guards r g = Ok None -> Variant1.pass2OnRow G r g = Ok (skipRow g).
Proof.
  intros Hg. unfold Variant1.pass2OnRow. cbv zeta.
  change (pass2Guards r (setTotalEnrollmentRows (totalEnrollmentRows g + 1) g))
    with (pass2Guards r g).
  by rewrite Hg.
Qed.

Lemma Variant2_pass2OnRow_skipped (r : row) (g : globals) :
  pass2Guards r g = Ok None -> Variant2.pass2OnRow r g = Ok (skipRow g).
Proof.
  intros Hg. unfold Variant2.pass2OnRow. cbv zeta.
  change (pass2Guards r (setTotalEnrollmentRows (totalEnrollmentRows g + 1) g))
    with (pass2Guards r g).
  by rewrite Hg.
Qed.

Lemma Variant1_pass2OnRow_reached (G : Z) (r : row) (g : globals)
    (month day : Z) (year : jsnum) :
  pass2Guards r g = Ok (Some (month, day, year)) ->
  Variant1.pass2OnRow G r g =
  match getFirstClassDay month year g with
  | None => Ok (skipRow g)
  | Some firstClassDay =>
      if jsAdd firstClassDay G <? day
      then Ok (countLate (calendarKey (jsnumToString year) (pretty month))
                         (classCategoryOf r) (skipRow g))
      else Ok (skipRow g)
  end.
Proof.
  intros Hg. unfold Variant1.pass2OnRow. cbv zeta.
  change (pass2Guards r (setTotalEnrollmentRows (totalEnrollmentRows g + 1) g))
    with (pass2Guards r g).
  rewrite Hg. reflexivity.
Qed.

Lemma Variant2_pass2OnRow_reached (r : row) (g : globals)
    (month day : Z) (year : jsnum) :
  pass2Guards r g = Ok (Some (month, day, year)) ->
  Variant2.pass2OnRow r g =
  if jsAdd (Variant2.nullToNumber (getFirstClassDay month year g)) 7 <? day
  then Ok (setEnrollmentsAfterFirstWeekOfSession
             (enrollmentsAfterFirstWeekOfSession g + 1) (skipRow g))
  else Ok (skipRow g).
Proof.
  intros Hg. unfold Variant2.pass2OnRow. cbv zeta.
  change (pass2Guards r (setTotalEnrollmentRows (totalEnrollmentRows g + 1) g))
    with (pass2Guards r g).
  rewrite Hg. reflexivity.
Qed.

Lemma Variant1_pass2OnRow_total (G : Z) (r : row) (g g' : globals) :
  Variant1.pass2OnRow G r g = Ok g' ->
  totalEnrollmentRows g' = totalEnrollmentRows g + 1.
Proof.
  destruct (pass2Guards r g) as [[[[mo da] ye]|]|msg] eqn:Hg.
  - rewrite (Variant1_pass2OnRow_reached _ _ _ _ _ _ Hg).
    destruct (getFirstClassDay mo ye g) as [f|]; [destruct (jsAdd f G <? da)|];
      by intros [= <-].
  - rewrite (Variant1_pass2OnRow_skipped _ _ _ Hg). by intros [= <-].
  - unfold Variant1.pass2OnRow. cbv zeta.
    change (pass2Guards r (setTotalEnrollmentRows (totalEnrollmentRows g + 1) g))
      with (pass2Guards r g).
    by rewrite Hg.
Qed.

Lemma Variant2_pass2OnRow_total (r : row) (g g' : globals) :
  Variant2.pass2OnRow r g = Ok g' ->
  totalEnrollmentRows g' = totalEnrollmentRows g + 1.
Proof.
  destruct (pass2Guards r g) as [[[[mo da] ye]|]|msg] eqn:Hg.
  - rewrite (Variant2_pass2OnRow_reached _ _ _ _ _ Hg).
    destruct (_ <? da); by intros [= <-].
  - rewrite (Variant2_pass2OnRow_skipped _ _ Hg). by intros [= <-].
  - unfold Variant2.pass2OnRow. cbv zeta.
    change (pass2Guards r (setTotalEnrollmentRows (totalEnrollmentRows g + 1) g))
      with (pass2Guards r g).
    by rewrite Hg.
Qed.

(** A completed read has counted every row once. *)
Lemma readCSVFileThrowing_total (onRow : row -> globals -> result globals)
    (rows : list row) (g g' : globals) :
  (forall r g0 g1, onRow r g0 = Ok g1 ->
                   totalEnrollmentRows g1 = totalEnrollmentRows g0 + 1) ->
  readCSVFileThrowing onRow rows g = Ok g' ->
  totalEnrollmentRows g' = totalEnrollmentRows g + Z.of_nat (length rows).
Proof.
  intros Hrow. revert g. induction rows as [|r rows IH]; intros g; simpl.
  - intros [= <-]. lia.
  - destruct (onRow r g) as [g1|msg] eqn:Hr; simpl; [|done].
    intros Hrest%IH. rewrite Hrest, (Hrow _ _ _ Hr). lia.
Qed.

Lemma Variant1_pass2_total (G : Z) (rows : list row) (g : globals) :
  Variant1.pass2 G rows = Ok g ->
  totalEnrollmentRows g = Z.of_nat (length rows).
Proof.
  unfold Variant1.pass2. intros Hrun.
  apply readCSVFileThrowing_total in Hrun;
    [|intros; by eapply Variant1_pass2OnRow_total].
  destruct (readCSVFile_pass1_sameCounters Variant1.parseSessionDates rows
              initialGlobals Variant1_parse_sameCounters) as (Ht & _).
  rewrite Hrun, Ht. reflexivity.
Qed.

Lemma Variant2_pass2_total (rows : list row) (g : globals) :
  Variant2.pass2 rows = Ok g ->
  totalEnrollmentRows g = Z.of_nat (length rows).
Proof.
  unfold Variant2.pass2. intros Hrun.
  apply readCSVFileThrowing_total in Hrun;
    [|intros; by eapply Variant2_pass2OnRow_total].
  destruct (readCSVFile_pass1_sameCounters Variant2.parseSessionDates rows
              initialGlobals Variant2_parse_sameCounters) as (Ht & _).
  rewrite Hrun, Ht. reflexivity.
Qed.

(** C9: when pass 2 completes, [totalEnrollmentRows] is the number of rows
    of the file, in both variants: the callback counts a row before any
    of its early returns. *)
Theorem C9_total_counts_every_row (G : Z) (rows : list row) :
  (forall g, Variant1.pass2 G rows = Ok g ->
             totalEnrollmentRows g = Z.of_nat (length rows))
  /\ (forall g, Variant2.pass2 rows = Ok g ->
                totalEnrollmentRows g = Z.of_nat (length rows)).
Proof.
  split; intros g Hrun.
  - by apply (Variant1_pass2_total G).
  - by apply Variant2_pass2_total.
Qed.

(** A late row, a timely one, a blacklisted session, a row without a date
    cell and a date that is not slash-separated: five rows, five counted. *)
Lemma C9_total_counts_every_row_witness :
  exists g1 g2,
    Variant1.pass2 7 sampleRows = Ok g1 /\ Variant2.pass2 sampleRows = Ok g2
    /\ totalEnrollmentRows g1 = 5 /\ totalEnrollmentRows g2 = 5
    /\ enrollmentsAfterFirstWeekOfSession g1 = 1.
Proof.
  eexists _, _.
  split; [vm_compute; reflexivity|]. split; [vm_compute; reflexivity|].
  split; [|split].
  - apply (proj1 (C9_total_counts_every_row 7 sampleRows)). vm_compute. reflexivity.
  - apply (proj2 (C9_total_counts_every_row 7 sampleRows)). vm_compute. reflexivity.
  - reflexivity.
Defined.

(** ** The report *)

(** C3 (as stated, refuted): on a file without rows both variants return
    normally, and the percentage of the report is [NaN]. *)
Lemma C3_empty_file_reports_NaN :
  Variant1.main 7 []
  = Ok {| Variant1.factor := "0 / 0"; Variant1.decimal := FNaN;
          Variant1.monthlyCounts := ∅; Variant1.overallMonthlyTotals := ∅ |}
  /\ Variant2.main []
     = Ok {| Variant2.factor := "0 / 0"; Variant2.decimal := FNaN |}
  /\ ~ (exists message, Variant1.main 7 [] = Throw message)
  /\ ~ (exists message, Variant2.main [] = Throw message).
Proof.
  repeat split; try reflexivity; intros [message H]; discriminate H.
Qed.

(** C3 (amended): when pass 2 ends with a total of zero rows, the report
    is produced as for any other file; its fraction reads [0 / 0] and its
    percentage is [NaN]. *)
Theorem C3_zero_rows_report (G : Z) (rows : list row) :
  (forall g, Variant1.pass2 G rows = Ok g -> totalEnrollmentRows g = 0 ->
             Variant1.main G rows = Ok (Variant1.pass2OnComplete g)
             /\ Variant1.factor (Variant1.pass2OnComplete g) = "0 / 0"
             /\ Variant1.decimal (Variant1.pass2OnComplete g) = FNaN)
  /\ (forall g, Variant2.pass2 rows = Ok g -> totalEnrollmentRows g = 0 ->
                Variant2.main rows = Ok (Variant2.pass2OnComplete g)
                /\ Variant2.factor (Variant2.pass2OnComplete g) = "0 / 0"
                /\ Variant2.decimal (Variant2.pass2OnComplete g) = FNaN).
Proof.
  split; intros g Hrun Hzero.
  - pose proof (Variant1_pass2_total _ _ _ Hrun) as Htotal.
    destruct rows as [|r rows]; [|simpl in Htotal; lia].
    unfold Variant1.main. rewrite Hrun.
    injection Hrun as <-. repeat split.
  - pose proof (Variant2_pass2_total _ _ Hrun) as Htotal.
    destruct rows as [|r rows]; [|simpl in Htotal; lia].
    unfold Variant2.main. rewrite Hrun.
    injection Hrun as <-. repeat split.
Qed.

Lemma C3_zero_rows_report_witness :
  (Variant1.main 7 [] = Ok (Variant1.pass2OnComplete initialGlobals)
   /\ Variant1.factor (Variant1.pass2OnComplete initialGlobals) = "0 / 0"
   /\ Variant1.decimal (Variant1.pass2OnComplete initialGlobals) = FNaN)
  /\ (Variant2.main [] = Ok (Variant2.pass2OnComplete initialGlobals)
      /\ Variant2.factor (Variant2.pass2OnComplete initialGlobals) = "0 / 0"
      /\ Variant2.decimal (Variant2.pass2OnComplete initialGlobals) = FNaN).
Proof.
  split.
  - apply (proj1 (C3_zero_rows_report 7 []) initialGlobals); reflexivity.
  - apply (proj2 (C3_zero_rows_report 7 []) initialGlobals); reflexivity.
Defined.

(** ** The first class day *)

(** A key without recorded days has no first class day. *)
Lemma getFirstClassDay_no_days (month : Z) (year : jsnum) (g : globals) :
  let key := calendarKey (jsnumToString year) (pretty month) in
  sessionDays g !! key = None \/ sessionDays g !! key = Some [] ->
  getFirstClassDay month year g = None.
Proof. intros key [H|H]; unfold getFirstClassDay; fold key; by rewrite H. Qed.

Lemma insertSorted_head (x : Z) (l : list Z) :
  head (insertSorted x l) = Some (match head l with
                                  | Some y => Z.min x y
                                  | None => x
                                  end).
Proof.
  destruct l as [|y l]; simpl; [done|].
  destruct (Z.leb_spec x y); simpl; f_equal; lia.
Qed.

(** The head of the sorted days is below every recorded day. *)
Lemma sortNumeric_head_le (days : list Z) (first : Z) :
  head (sortNumeric days) = Some first -> Forall (fun d => first <= d) days.
Proof.
  revert first. induction days as [|d days IH]; intros first; [constructor|].
  unfold sortNumeric. cbn [foldr]. rewrite insertSorted_head.
  fold (sortNumeric days).
  destruct (head (sortNumeric days)) as [y|] eqn:Hy; intros [= <-].
  - constructor; [lia|]. eapply Forall_impl; [by apply IH|]. simpl. lia.
  - constructor; [lia|]. destruct days as [|e days]; [constructor|].
    unfold sortNumeric in Hy. cbn [foldr] in Hy.
    rewrite insertSorted_head in Hy. by destruct (head _).
Qed.

Lemma sortNumeric_head_in (days : list Z) (first : Z) :
  head (sortNumeric days) = Some first -> In first days.
Proof.
  revert first. induction days as [|d days IH]; intros first; [done|].
  unfold sortNumeric. cbn [foldr]. rewrite insertSorted_head.
  fold (sortNumeric days).
  destruct (head (sortNumeric days)) as [y|] eqn:Hy; intros [= <-].
  - destruct (Z.min_spec d y) as [[_ ->]|[_ ->]]; [by left|right; by apply IH].
  - by left.
Qed.

(** The first class day is the least of the days recorded for the key. *)
Lemma getFirstClassDay_least (month : Z) (year : jsnum) (g : globals) (first : Z) :
  getFirstClassDay month year g = Some first ->
  exists days,
    sessionDays g !! calendarKey (jsnumToString year) (pretty month) = Some days
    /\ In first days /\ Forall (fun d => first <= d) days.
Proof.
  unfold getFirstClassDay.
  destruct (sessionDays g !! _) as [days|]; [|done].
  destruct (length days =? 0)%nat; [done|]. intros Hhead. exists days.
  split; [done|]. split; [by apply sortNumeric_head_in|by apply sortNumeric_head_le].
Qed.

(** ** The guards of pass 2 *)

Lemma monthNameStrings_range (month : Z) (name : string) :
  monthNameStrings month = Some name -> 0 <= month <= 12.
Proof.
  unfold monthNameStrings. destruct (Z.ltb_spec month 0); [done|].
  intros Hnth. assert (Z.to_nat month < 13)%nat; [|lia].
  change 13%nat with (length monthNameStringsTable).
  apply nth_error_Some. congruence.
Qed.

(** The session-year estimate of pass 2 never fires: the index of the
    month's own name is the month. *)
Lemma monthNameStrings_index (month : Z) (name : string) :
  monthNameStrings month = Some name ->
  numGreaterThan month (monthNames name) = false.
Proof.
  intros Hname. pose proof (monthNameStrings_range _ _ Hname) as Hrange.
  assert (month = 0 \/ month = 1 \/ month = 2 \/ month = 3 \/ month = 4
          \/ month = 5 \/ month = 6 \/ month = 7 \/ month = 8 \/ month = 9
          \/ month = 10 \/ month = 11 \/ month = 12) as Hcases by lia.
  repeat (destruct Hcases as [-> | Hcases]);
    try subst month; injection Hname as <-; reflexivity.
Qed.

Lemma pass2Guards_prefix_mismatch (r : row) (g : globals)
    (enrollDateStr sessionStr part0 part1 part2 : string) (month day : Z)
    (name : string) :
  Enroll_Date r = Some enrollDateStr -> Session r = Some sessionStr ->
  splitOn "/" enrollDateStr = [part0; part1; part2] ->
  parseInt part0 = Num month -> parseInt part1 = Num day ->
  monthNameStrings month = Some name ->
  startsWith (toLowerCase sessionStr) (toLowerCase name) = false ->
  pass2Guards r g = Ok None.
Proof.
  intros Hd Hs Hsplit Hm Hday Hname Hprefix. unfold pass2Guards.
  destruct (isBlacklisted (Session r) g); [done|].
  destruct (isMissing (Enroll_Date r) || isMissing (Session r)); [done|].
  by rewrite Hd, Hs, Hsplit, Hm, Hday, Hname, Hprefix.
Qed.

Lemma pass2Guards_reached (r : row) (g : globals) (month day : Z) (year : jsnum) :
  pass2Guards r g = Ok (Some (month, day, year)) ->
  exists sessionStr name,
    Session r = Some sessionStr
    /\ includes sessionStr (blacklistedSessions g) = false
    /\ monthNameStrings month = Some name
    /\ startsWith (toLowerCase sessionStr) (toLowerCase name) = true.
Proof.
  unfold pass2Guards.
  destruct (isBlacklisted (Session r) g) eqn:Hbl; [done|].
  destruct (isMissing (Enroll_Date r) || isMissing (Session r)); [done|].
  destruct (Enroll_Date r) as [enrollDateStr|]; [|done].
  destruct (Session r) as [sessionStr|]; [|done].
  destruct (splitOn "/" enrollDateStr) as [|p0 [|p1 [|p2 [|]]]]; try done.
  destruct (parseInt p0) as [|mo]; [done|].
  destruct (parseInt p1) as [|da]; [done|].
  destruct (monthNameStrings mo) as [name|] eqn:Hname; [|done].
  destruct (startsWith _ _) eqn:Hprefix; [|done].
  simpl. intros [= <- <- <-]. by exists sessionStr, name.
Qed.

(** A row that pass 2 does more with than count it in the total got past
    the guards. *)
Lemma Variant1_not_skipped_reached (G : Z) (r : row) (g g' : globals) :
  Variant1.pass2OnRow G r g = Ok g' -> g' <> skipRow g ->
  exists month day year, pass2Guards r g = Ok (Some (month, day, year)).
Proof.
  intros Hrow Hne. destruct (pass2Guards r g) as [[[[mo da] ye]|]|msg] eqn:Hg.
  - by exists mo, da, ye.
  - rewrite (Variant1_pass2OnRow_skipped _ _ _ Hg) in Hrow. congruence.
  - unfold Variant1.pass2OnRow in Hrow. cbv zeta in Hrow.
    change (pass2Guards r (setTotalEnrollmentRows (totalEnrollmentRows g + 1) g))
      with (pass2Guards r g) in Hrow.
    by rewrite Hg in Hrow.
Qed.

Lemma Variant2_not_skipped_reached (r : row) (g g' : globals) :
  Variant2.pass2OnRow r g = Ok g' -> g' <> skipRow g ->
  exists month day year, pass2Guards r g = Ok (Some (month, day, year)).
Proof.
  intros Hrow Hne. destruct (pass2Guards r g) as [[[[mo da] ye]|]|msg] eqn:Hg.
  - by exists mo, da, ye.
  - rewrite (Variant2_pass2OnRow_skipped _ _ Hg) in Hrow. congruence.
  - unfold Variant2.pass2OnRow in Hrow. cbv zeta in Hrow.
    change (pass2Guards r (setTotalEnrollmentRows (totalEnrollmentRows g + 1) g))
      with (pass2Guards r g) in Hrow.
    by rewrite Hg in Hrow.
Qed.

(** The filter where the enrollment month has a name (months 0 to 12): a
    row whose session does not start, letter case aside, with that name
    returns early in both variants; conversely a row that a completed
    callback does not merely count in the total has a session that starts
    with that name, letter case aside.  A session that starts with [MAY]
    passes the test for month 5, whose name is [May], and such a row
    reaches the calendar query. *)
Lemma month_prefix_filter :
  (forall (G : Z) (r : row) (g : globals)
          (enrollDateStr sessionStr part0 part1 part2 : string)
          (month day : Z) (name : string),
      Enroll_Date r = Some enrollDateStr -> Session r = Some sessionStr ->
      splitOn "/" enrollDateStr = [part0; part1; part2] ->
      parseInt part0 = Num month -> parseInt part1 = Num day ->
      monthNameStrings month = Some name ->
      startsWith (toLowerCase sessionStr) (toLowerCase name) = false ->
      Variant1.pass2OnRow G r g = Ok (skipRow g)
      /\ Variant2.pass2OnRow r g = Ok (skipRow g))
  /\ (forall (G : Z) (r : row) (g g' : globals),
        (Variant1.pass2OnRow G r g = Ok g' \/ Variant2.pass2OnRow r g = Ok g') ->
        g' <> skipRow g ->
        exists sessionStr month day year name,
          pass2Guards r g = Ok (Some (month, day, year))
          /\ Session r = Some sessionStr
          /\ monthNameStrings month = Some name
          /\ startsWith (toLowerCase sessionStr) (toLowerCase name) = true)
  /\ monthNameStrings 5 = Some "May"
  /\ (forall rest, startsWith (toLowerCase ("MAY" +:+ rest)) (toLowerCase "May") = true)
  /\ (forall g, includes "MAY (May 6 13 20 27)" (blacklistedSessions g) = false ->
        pass2Guards (csvRow "05/20/2024" "MAY (May 6 13 20 27)" "Beginner") g
        = Ok (Some (5, 20, Num 2024))).
Proof.
  split; [|split; [|split; [reflexivity|split]]].
  - intros G r g enrollDateStr sessionStr p0 p1 p2 month day name
      Hd Hs Hsplit Hm Hday Hname Hprefix.
    pose proof (pass2Guards_prefix_mismatch r g _ _ _ _ _ _ _ _
                  Hd Hs Hsplit Hm Hday Hname Hprefix) as Hguards.
    split; [by apply Variant1_pass2OnRow_skipped
           |by apply Variant2_pass2OnRow_skipped].
  - intros G r g g' Hrow Hne.
    assert (exists month day year, pass2Guards r g = Ok (Some (month, day, year)))
      as (month & day & year & Hg).
    { destruct Hrow as [Hrow|Hrow];
        [by apply (Variant1_not_skipped_reached G r g g')
        |by apply (Variant2_not_skipped_reached r g g')]. }
    destruct (pass2Guards_reached _ _ _ _ _ Hg) as (s & name & Hs & _ & Hname & Hp).
    by exists s, month, day, year, name.
  - intros rest. reflexivity.
  - intros g Hbl. unfold pass2Guards. cbn [Session csvRow isBlacklisted].
    rewrite Hbl. reflexivity.
Qed.

Example month_prefix_filter_other_month :
  Variant1.pass2OnRow 7 (csvRow "05/20/2024" "June (June 3 10 17 24)" "Beginner")
    initialGlobals = Ok (skipRow initialGlobals)
  /\ Variant2.pass2OnRow (csvRow "05/20/2024" "June (June 3 10 17 24)" "Beginner")
       initialGlobals = Ok (skipRow initialGlobals).
Proof.
  apply (proj1 month_prefix_filter 7
           (csvRow "05/20/2024" "June (June 3 10 17 24)" "Beginner")
           initialGlobals "05/20/2024" "June (June 3 10 17 24)"
           "05" "20" "2024" 5 20 "May"); reflexivity.
Qed.

(** C8: a row whose enrollment month has no name is not skipped.  On the
    day-first date [13/05/2024] the number 13 passes the [isNaN] test,
    [monthNameStrings[13]] is [undefined], and [toLowerCase] throws in
    both variants: pass 2 is aborted and no report is logged, also when
    every other row of the file is well formed. *)
Theorem C8_month_without_name_throws :
  let r := csvRow "13/05/2024" "May (May 6 13 20 27)" "Beginner" in
  parseInt "13" = Num 13
  /\ monthNameStrings 13 = None
  /\ pass2Guards r initialGlobals = Throw toLowerCaseOfUndefined
  /\ Variant1.pass2OnRow 7 r initialGlobals = Throw toLowerCaseOfUndefined
  /\ Variant2.pass2OnRow r initialGlobals = Throw toLowerCaseOfUndefined
  /\ Variant1.main 7 [r] = Throw toLowerCaseOfUndefined
  /\ Variant2.main [r] = Throw toLowerCaseOfUndefined
  /\ Variant1.main 7 (sampleRows ++ [r]) = Throw toLowerCaseOfUndefined
  /\ Variant2.main (sampleRows ++ [r]) = Throw toLowerCaseOfUndefined.
Proof. cbv zeta. repeat split; vm_compute; reflexivity. Qed.

(** The row in capitals is counted as late by a whole run of either
    variant: pass 1 records May 6, and day 20 is past 6 + 7. *)
Example capital_month_row_is_classified :
  (exists g, Variant1.pass2 7 [csvRow "05/20/2024" "MAY (May 6 13 20 27)" "Beginner"]
             = Ok g /\ enrollmentsAfterFirstWeekOfSession g = 1)
  /\ (exists g, Variant2.pass2 [csvRow "05/20/2024" "MAY (May 6 13 20 27)" "Beginner"]
                = Ok g /\ enrollmentsAfterFirstWeekOfSession g = 1).
Proof. split; eexists; (split; [vm_compute; reflexivity|reflexivity]). Qed.

(** ** Rows without a first class day *)

(** First variant: the row is skipped. *)
Lemma Variant1_no_first_class_day_skipped (G : Z) (r : row) (g : globals)
    (month day : Z) (year : jsnum) :
  pass2Guards r g = Ok (Some (month, day, year)) ->
  getFirstClassDay month year g = None ->
  Variant1.pass2OnRow G r g = Ok (skipRow g).
Proof.
  intros Hg Hnone. rewrite (Variant1_pass2OnRow_reached _ _ _ _ _ _ Hg).
  by rewrite Hnone.
Qed.

(** Second variant: [null + 7] is 7, and the row is compared with it. *)
Lemma Variant2_no_first_class_day_as_zero (r : row) (g : globals)
    (month day : Z) (year : jsnum) :
  pass2Guards r g = Ok (Some (month, day, year)) ->
  getFirstClassDay month year g = None ->
  Variant2.pass2OnRow r g =
  if 7 <? day
  then Ok (setEnrollmentsAfterFirstWeekOfSession
             (enrollmentsAfterFirstWeekOfSession g + 1) (skipRow g))
  else Ok (skipRow g).
Proof.
  intros Hg Hnone. rewrite (Variant2_pass2OnRow_reached _ _ _ _ _ Hg).
  by rewrite Hnone.
Qed.

(** C1 (second variant): a file of one row, enrolled on 05/20/2024 in a
    session without parentheses.  Pass 1 records no day, so the query for
    (5, 2024) answers [null]; the second variant still compares day 20
    with [null + 7 = 7] and counts the row, where the first variant skips
    it. *)
Theorem C1_variant2_counts_row_without_first_class_day :
  let r := csvRow "05/20/2024" "May Mondays" "Beginner" in
  let calendar :=
    readCSVFile (pass1OnRow Variant2.parseSessionDates) [r] initialGlobals in
  calendar = initialGlobals
  /\ getFirstClassDay 5 (Num 2024) calendar = None
  /\ pass2Guards r calendar = Ok (Some (5, 20, Num 2024))
  /\ Variant2.pass2 [r]
     = Ok (setEnrollmentsAfterFirstWeekOfSession 1
             (setTotalEnrollmentRows 1 initialGlobals))
  /\ Variant2.main [r]
     = Ok {| Variant2.factor := "1 / 1";
             Variant2.decimal := FReal (100 # 1) |}
  /\ Variant1.pass2 7 [r] = Ok (setTotalEnrollmentRows 1 initialGlobals).
Proof. repeat split. Qed.

(** ** The grace period and the tally *)

Lemma countClass_own (classCategory : string) (classCounts : gmap string jsnum) :
  inObjectPrototype classCategory = false ->
  Variant1.countClass classCategory classCounts !! classCategory
  = Some (Num (match classCounts !! classCategory with
               | Some (Num n) => n
               | _ => 0
               end + 1)).
Proof.
  intros Hown. unfold Variant1.countClass.
  destruct (classCounts !! classCategory) as [[|n]|] eqn:Hc.
  - rewrite lookup_insert_eq. simpl. by rewrite lookup_insert_eq.
  - destruct (Z.eqb_spec n 0) as [-> | Hn].
    + rewrite lookup_insert_eq. simpl. by rewrite lookup_insert_eq.
    + rewrite Hc. simpl. by rewrite lookup_insert_eq.
  - rewrite Hown. rewrite lookup_insert_eq. simpl. by rewrite lookup_insert_eq.
Qed.

Lemma countClass_other (classCategory other : string)
    (classCounts : gmap string jsnum) :
  classCategory <> other ->
  Variant1.countClass classCategory classCounts !! other = classCounts !! other.
Proof.
  intros Hne. unfold Variant1.countClass.
  destruct (classCounts !! classCategory) as [[|n]|] eqn:Hc.
  - rewrite lookup_insert_eq. by rewrite !lookup_insert_ne.
  - destruct (n =? 0).
    + rewrite lookup_insert_eq. by rewrite !lookup_insert_ne.
    + rewrite Hc. by rewrite lookup_insert_ne.
  - destruct (inObjectPrototype classCategory).
    + rewrite Hc. destruct (String.eqb classCategory "__proto__"); [done|].
      by rewrite lookup_insert_ne.
    + rewrite lookup_insert_eq. by rewrite !lookup_insert_ne.
Qed.

(** For a class that is not a key of [Object.prototype] the tally of the
    month goes up by one; the other classes and months keep theirs. *)
Lemma countMonthly_own (key classCategory : string)
    (counts : gmap string (gmap string jsnum)) :
  inObjectPrototype classCategory = false ->
  classCount (Variant1.countMonthly key classCategory counts) key classCategory
  = classCount counts key classCategory + 1.
Proof.
  intros Hown. unfold classCount, Variant1.countMonthly.
  rewrite lookup_insert_eq, (countClass_own _ _ Hown).
  destruct (counts !! key) as [classCounts|]; [done|].
  by rewrite lookup_empty.
Qed.

Lemma countMonthly_other (key classCategory key' other : string)
    (counts : gmap string (gmap string jsnum)) :
  key <> key' \/ classCategory <> other ->
  classCount (Variant1.countMonthly key classCategory counts) key' other
  = classCount counts key' other.
Proof.
  intros Hne. unfold classCount, Variant1.countMonthly.
  destruct (decide (key = key')) as [<- | Hkey].
  - destruct Hne as [Hne|Hne]; [done|].
    rewrite lookup_insert_eq, (countClass_other _ _ _ Hne).
    destruct (counts !! key) as [classCounts|]; [done|].
    by rewrite lookup_empty.
  - by rewrite lookup_insert_ne.
Qed.

(** A row that reaches the calendar query and finds a first class day:
    counted exactly when its day is past the threshold, and then tallied
    under the month's key and the row's class. *)
Lemma Variant1_classified_row (G : Z) (r : row) (g : globals)
    (month day : Z) (year : jsnum) (f : Z) :
  pass2Guards r g = Ok (Some (month, day, year)) ->
  getFirstClassDay month year g = Some f ->
  let key := calendarKey (jsnumToString year) (pretty month) in
  exists g',
    Variant1.pass2OnRow G r g = Ok g'
    /\ (enrollmentsAfterFirstWeekOfSession g'
        = enrollmentsAfterFirstWeekOfSession g + 1 <-> jsAdd f G < day)
    /\ (~ jsAdd f G < day -> g' = skipRow g)
    /\ (jsAdd f G < day ->
        monthlyEnrollmentCounts g'
        = Variant1.countMonthly key (classCategoryOf r) (monthlyEnrollmentCounts g)
        /\ (inObjectPrototype (classCategoryOf r) = false ->
            classCount (monthlyEnrollmentCounts g') key (classCategoryOf r)
            = classCount (monthlyEnrollmentCounts g) key (classCategoryOf r) + 1))
    /\ (Class r = None -> classCategoryOf r = "Unknown").
Proof.
  intros Hg Hf key. rewrite (Variant1_pass2OnRow_reached _ _ _ _ _ _ Hg), Hf.
  fold key. destruct (Z.ltb_spec (jsAdd f G) day) as [Hlate|Hnot].
  - eexists. split; [reflexivity|]. simpl. repeat split; try done; try lia.
    + intros Hown. by apply countMonthly_own.
    + intros Hclass. unfold classCategoryOf. by rewrite Hclass.
  - eexists. split; [reflexivity|]. simpl. repeat split; try done; try lia.
    intros Hclass. unfold classCategoryOf. by rewrite Hclass.
Qed.

(** With a grace period of 7 and the first class on day 3, day 10 is not
    counted and day 11 is; the late row is tallied under its class, and
    under [Unknown] when the row has no class. *)
Example Variant1_grace_period_boundary :
  exists g,
    Variant1.pass2 7
      [ csvRow "05/10/2024" "May (May 3 10 17 24)" "Beginner";
        csvRow "05/11/2024" "May (May 3 10 17 24)" "Beginner";
        {| Enroll_Date := Some "05/11/2024";
           Session := Some "May (May 3 10 17 24)"; Class := None |} ] = Ok g
    /\ getFirstClassDay 5 (Num 2024) g = Some 3
    /\ enrollmentsAfterFirstWeekOfSession g = 2
    /\ totalEnrollmentRows g = 3
    /\ classCount (monthlyEnrollmentCounts g) "2024-5" "Beginner" = 1
    /\ classCount (monthlyEnrollmentCounts g) "2024-5" "Unknown" = 1.
Proof. eexists. split; [vm_compute; reflexivity|]. repeat split. Qed.

(** C4 (the tally of an inherited key): one row enrolled on day 11 in a
    session whose first class is on day 3, with the class [constructor].
    With a grace period of 7 the row is late and counted, but the tally of
    its month holds [NaN] for its class instead of 1; a second such row
    makes it 1 where two rows were counted. *)
Theorem C4_inherited_class_name_not_tallied :
  let r := csvRow "05/11/2024" "May (May 3 10 17 24)" "constructor" in
  (exists g,
      Variant1.pass2 7 [r] = Ok g
      /\ getFirstClassDay 5 (Num 2024) g = Some 3
      /\ enrollmentsAfterFirstWeekOfSession g = 1
      /\ monthlyEnrollmentCounts g !! "2024-5" = Some {[ "constructor" := NaN ]}
      /\ classCount (monthlyEnrollmentCounts g) "2024-5" "constructor" = 0)
  /\ (exists g,
         Variant1.pass2 7 [r; r] = Ok g
         /\ enrollmentsAfterFirstWeekOfSession g = 2
         /\ classCount (monthlyEnrollmentCounts g) "2024-5" "constructor" = 1).
Proof.
  split; eexists; (split; [vm_compute; reflexivity|]); repeat split.
Qed.

(** * Further properties of the script *)

(** ** Numbers in calendar keys *)

Lemma pretty_N_char_isDigit (x : N) : isDigit (pretty_N_char x) = true.
Proof. unfold pretty_N_char. by repeat case_match. Qed.

Lemma allDigits_app (a b : string) :
  allDigits (a +:+ b) = allDigits a && allDigits b.
Proof.
  induction a as [|c a IH]; [done|].
  change (allDigits (String c a +:+ b)) with (isDigit c && allDigits (a +:+ b)).
  rewrite IH. simpl. by rewrite andb_assoc.
Qed.

(** The digits [pretty_N_go] puts in front of its accumulator. *)
Lemma pretty_N_go_digits (x : N) (s : string) :
  exists digits, pretty_N_go x s = digits +:+ s /\ allDigits digits = true
                 /\ ((0 < x)%N -> digits <> "").
Proof.
  revert s. induction (N.lt_wf_0 x) as [x _ IH]; intros s.
  assert (x = 0 \/ 0 < x)%N as [-> | Hpos] by lia.
  - exists "". rewrite pretty_N_go_0. split; [done|]. split; [done|lia].
  - rewrite pretty_N_go_step by done.
    destruct (IH (x `div` 10)%N (N.div_lt x 10 Hpos eq_refl)
                (String (pretty_N_char (x `mod` 10)) s)) as (ds & -> & Hds & _).
    exists (ds +:+ String (pretty_N_char (x `mod` 10)) "").
    split; [|split].
    + by rewrite string_app_assoc.
    + rewrite allDigits_app, Hds. simpl.
      by rewrite pretty_N_char_isDigit.
    + intros _. by destruct ds.
Qed.

(** A printed integer: an optional minus sign, then one digit or more. *)
Lemma pretty_Z_shape (z : Z) :
  exists digits, allDigits digits = true /\ digits <> ""
                 /\ pretty z = (if z <? 0 then "-" else "") +:+ digits.
Proof.
  destruct z as [|p|p].
  - by exists "0".
  - destruct (pretty_N_go_digits (N.pos p) "") as (ds & Hgo & Hds & Hne).
    exists ds. repeat split; [done|apply Hne; lia|].
    change (pretty (Z.pos p)) with (pretty_N_go (N.pos p) "").
    by rewrite Hgo, string_app_nil_r.
  - destruct (pretty_N_go_digits (N.pos p) "") as (ds & Hgo & Hds & Hne).
    exists ds. repeat split; [done|apply Hne; lia|].
    change (pretty (Z.neg p)) with ("-" +:+ pretty_N_go (N.pos p) "").
    by rewrite Hgo, string_app_nil_r.
Qed.

Lemma digits_dash_split (d1 d2 r1 r2 : string) :
  allDigits d1 = true -> allDigits d2 = true ->
  d1 +:+ String "-" r1 = d2 +:+ String "-" r2 -> d1 = d2 /\ r1 = r2.
Proof.
  revert d2. induction d1 as [|c d1 IH]; intros [|c2 d2] H1 H2;
    rewrite ?string_app_cons; change ("" +:+ ?s) with s; intros Heq.
  - by injection Heq as ->.
  - injection Heq as <- _. by simpl in H2.
  - injection Heq as -> _. by simpl in H1.
  - injection Heq as -> Heq. simpl in H1, H2.
    apply andb_prop in H1 as [_ H1]. apply andb_prop in H2 as [_ H2].
    by destruct (IH d2 H1 H2 Heq) as [-> ->].
Qed.

Lemma digits_no_dash_head (d r : string) (s : string) :
  allDigits d = true -> d <> "" -> d +:+ r <> String "-" s.
Proof.
  intros Hd Hne. destruct d as [|c d]; [done|]. rewrite string_app_cons.
  intros [= -> _]. by simpl in Hd.
Qed.

(** Two keys are equal only for the same year and the same month text. *)
Lemma calendarKey_inj (y1 y2 : Z) (m1 m2 : string) :
  calendarKey (pretty y1) m1 = calendarKey (pretty y2) m2 ->
  y1 = y2 /\ m1 = m2.
Proof.
  unfold calendarKey.
  destruct (pretty_Z_shape y1) as (d1 & Hd1 & Hne1 & Hp1).
  destruct (pretty_Z_shape y2) as (d2 & Hd2 & Hne2 & Hp2).
  rewrite Hp1, Hp2, !string_app_assoc.
  change ("-" +:+ m1) with (String "-" m1). change ("-" +:+ m2) with (String "-" m2).
  intros Heq.
  assert (d1 = d2 /\ m1 = m2 /\ (y1 <? 0) = (y2 <? 0)) as (Hd & Hm & Hs).
  { destruct (y1 <? 0), (y2 <? 0); revert Heq;
      rewrite ?string_app_cons; change ("" +:+ ?s) with s; intros Heq.
    - injection Heq as Heq.
      by destruct (digits_dash_split _ _ _ _ Hd1 Hd2 Heq) as [-> ->].
    - symmetry in Heq. by apply digits_no_dash_head in Heq.
    - by apply digits_no_dash_head in Heq.
    - by destruct (digits_dash_split _ _ _ _ Hd1 Hd2 Heq) as [-> ->]. }
  split; [|done]. apply (inj pretty). by rewrite Hp1, Hp2, Hd, Hs.
Qed.

(** The key of an unparsable year is no key of a parsed one. *)
Lemma calendarKey_NaN (y : Z) (m1 m2 : string) :
  calendarKey "NaN" m1 <> calendarKey (pretty y) m2.
Proof.
  unfold calendarKey. destruct (pretty_Z_shape y) as (d & Hd & Hne & ->).
  rewrite string_app_assoc. destruct d as [|c d]; [done|].
  simpl in Hd. apply andb_prop in Hd as [Hc _].
  destruct (y <? 0); rewrite ?string_app_cons; change ("" +:+ ?s) with s;
    rewrite ?string_app_cons; intros [= <-]; done.
Qed.

(** ** The session calendar *)

Lemma sortNumeric_head (days : list Z) : head (sortNumeric days) = leastOf days.
Proof.
  induction days as [|d days IH]; [done|].
  unfold sortNumeric, leastOf. cbn [foldr]. rewrite insertSorted_head.
  fold (sortNumeric days). fold (leastOf days). by rewrite IH.
Qed.

Lemma leastOf_app (days : list Z) (d : Z) :
  leastOf (days ++ [d]) = Some (match leastOf days with
                                | Some f => Z.min f d
                                | None => d
                                end).
Proof.
  induction days as [|e days IH]; [done|].
  change ((e :: days) ++ [d]) with (e :: (days ++ [d])).
  unfold leastOf in *. cbn [foldr]. rewrite IH. f_equal.
  destruct (foldr _ None days); lia.
Qed.

Lemma leastOf_le (days : list Z) (f d : Z) :
  leastOf days = Some f -> In d days -> f <= d.
Proof.
  revert f. induction days as [|e days IH]; intros f; [done|].
  unfold leastOf. cbn [foldr]. fold (leastOf days).
  destruct (leastOf days) as [y|] eqn:Hy; intros [= <-] [-> | Hin]; try lia.
  - specialize (IH y eq_refl Hin). lia.
  - destruct days; [done|]. unfold leastOf in Hy. by cbn [foldr] in Hy.
Qed.

Lemma existsb_In_Z (d : Z) (days : list Z) :
  existsb (Z.eqb d) days = true <-> In d days.
Proof.
  rewrite existsb_exists. split.
  - intros (x & Hin & ->%Z.eqb_eq). done.
  - intros Hin. exists d. by rewrite Z.eqb_refl.
Qed.

Lemma leastOf_setAdd (days : list Z) (d : Z) :
  leastOf (setAdd d days) = Some (match leastOf days with
                                  | Some f => Z.min f d
                                  | None => d
                                  end).
Proof.
  unfold setAdd. destruct (existsb (Z.eqb d) days) eqn:Hin.
  - apply existsb_In_Z in Hin. destruct (leastOf days) as [f|] eqn:Hf.
    + pose proof (leastOf_le _ _ _ Hf Hin). f_equal. lia.
    + by destruct days.
  - apply leastOf_app.
Qed.

Lemma setAdd_not_nil (d : Z) (days : list Z) : setAdd d days <> [].
Proof.
  unfold setAdd. destruct (existsb (Z.eqb d) days) eqn:Hin.
  - intros ->. done.
  - by destruct days.
Qed.

Lemma getFirstClassDay_lookup (month : Z) (year : jsnum) (g : globals) :
  getFirstClassDay month year g
  = match sessionDays g !! calendarKey (jsnumToString year) (pretty month) with
    | Some days => leastOf days
    | None => None
    end.
Proof.
  unfold getFirstClassDay. destruct (sessionDays g !! _) as [days|]; [|done].
  destruct days; [done|]. cbn [length Nat.eqb]. apply sortNumeric_head.
Qed.

(** X1: recording a day under a year and a month makes the first class
    day of that month the lesser of the day and the former first class
    day, and the day itself when none was recorded. *)
Theorem X1_addSessionDay_then_getFirstClassDay (year month day : Z) (g : globals) :
  getFirstClassDay month (Num year) (addSessionDay year (VNum month) day g)
  = Some (match getFirstClassDay month (Num year) g with
          | Some first => Z.min first day
          | None => day
          end).
Proof.
  rewrite !getFirstClassDay_lookup. unfold addSessionDay. cbn [sessionDays setSessionDays].
  change (calendarKey (pretty year) (jsvalToString (VNum month)))
    with (calendarKey (jsnumToString (Num year)) (pretty month)).
  rewrite lookup_insert_eq, leastOf_setAdd.
  by destruct (sessionDays g !! _).
Qed.

Lemma pretty_Z_not_inherited (z : Z) (key : string) :
  pretty z <> inheritedToString key.
Proof.
  destruct (pretty_Z_shape z) as (d & Hd & Hne & ->).
  destruct d as [|c d]; [done|]. simpl in Hd. apply andb_prop in Hd as [Hc _].
  unfold inheritedToString.
  destruct (String.eqb key "__proto__"), (z <? 0);
    rewrite ?string_app_cons; change ("" +:+ ?s) with s;
    rewrite ?string_app_cons; intros [= -> _]; done.
Qed.

Lemma pretty_Z_not_undefined (z : Z) : pretty z <> "undefined".
Proof.
  destruct (pretty_Z_shape z) as (d & Hd & Hne & ->).
  destruct d as [|c d]; [done|]. simpl in Hd. apply andb_prop in Hd as [Hc _].
  destruct (z <? 0); rewrite ?string_app_cons; change ("" +:+ ?s) with s;
    rewrite ?string_app_cons; intros [= -> _]; done.
Qed.

(** X2: recording a day leaves the first class day of every other
    (month, year) as it was, also when the query's year failed to parse
    or the day was recorded under an inherited member of [monthNames]. *)
Theorem X2_addSessionDay_other_month (year day month' : Z) (month : jsval)
    (year' : jsnum) (g : globals) :
  year' <> Num year \/ month <> VNum month' ->
  getFirstClassDay month' year' (addSessionDay year month day g)
  = getFirstClassDay month' year' g.
Proof.
  intros Hother. rewrite !getFirstClassDay_lookup. unfold addSessionDay.
  cbn [sessionDays setSessionDays]. rewrite lookup_insert_ne; [done|].
  intros Hkey. destruct year' as [|y'].
  - symmetry in Hkey. by apply calendarKey_NaN in Hkey.
  - apply calendarKey_inj in Hkey as [-> Hm].
    destruct Hother as [?|Hmonth]; [done|]. apply Hmonth.
    destruct month as [|m|key]; simpl in Hm.
    + symmetry in Hm. by apply pretty_Z_not_undefined in Hm.
    + by apply (inj pretty) in Hm as ->.
    + symmetry in Hm. by apply pretty_Z_not_inherited in Hm.
Qed.

Lemma X2_addSessionDay_other_month_witness :
  getFirstClassDay 5 (Num 2024) (addSessionDay 2024 (VNum 6) 3 initialGlobals)
  = getFirstClassDay 5 (Num 2024) initialGlobals.
Proof.
  apply (X2_addSessionDay_other_month 2024 3 5 (VNum 6) (Num 2024) initialGlobals).
  right. discriminate.
Defined.

Lemma leastOf_in (days : list Z) (f : Z) : leastOf days = Some f -> In f days.
Proof. rewrite <- sortNumeric_head. apply sortNumeric_head_in. Qed.

(** X3: the first class day of a (month, year) is [f] exactly when [f] is
    one of the days recorded under its key and no recorded day is
    smaller. *)
Theorem X3_getFirstClassDay_is_least (month : Z) (year : jsnum) (g : globals) (f : Z) :
  getFirstClassDay month year g = Some f
  <-> exists days,
        sessionDays g !! calendarKey (jsnumToString year) (pretty month) = Some days
        /\ In f days /\ forall d, In d days -> f <= d.
Proof.
  rewrite getFirstClassDay_lookup. split.
  - destruct (sessionDays g !! _) as [days|]; [|done]. intros Hleast.
    exists days. split; [done|]. split; [by apply leastOf_in|].
    intros d. by apply leastOf_le.
  - intros (days & -> & Hin & Hle).
    destruct (leastOf days) as [f'|] eqn:Hf'; [|by destruct days].
    pose proof (leastOf_in _ _ Hf') as Hin'.
    pose proof (leastOf_le _ _ _ Hf' Hin). specialize (Hle f' Hin').
    f_equal. lia.
Qed.

Lemma setAdd_In (d : Z) (days : list Z) : In d (setAdd d days).
Proof.
  unfold setAdd. destruct (existsb (Z.eqb d) days) eqn:Hin.
  - by apply existsb_In_Z.
  - apply in_or_app. right. by left.
Qed.

Lemma setAdd_NoDup (d : Z) (days : list Z) : NoDup days -> NoDup (setAdd d days).
Proof.
  intros Hnd. unfold setAdd. destruct (existsb (Z.eqb d) days) eqn:Hin; [done|].
  apply NoDup_app. split; [done|]. split; [|apply NoDup_singleton].
  intros x Hx ->%list_elem_of_singleton.
  assert (existsb (Z.eqb d) days = true); [|congruence].
  apply existsb_In_Z. by apply list_elem_of_In.
Qed.

Lemma setAdd_twice (d : Z) (days : list Z) :
  setAdd d (setAdd d days) = setAdd d days.
Proof.
  pose proof (setAdd_In d days) as Hin%existsb_In_Z.
  unfold setAdd at 1. by rewrite Hin.
Qed.

(** X4: a day is recorded once: recording it again under the same year
    and month leaves the globals as the first recording made them. *)
Theorem X4_addSessionDay_twice (year day : Z) (month : jsval) (g : globals) :
  addSessionDay year month day (addSessionDay year month day g)
  = addSessionDay year month day g.
Proof.
  unfold addSessionDay. cbn [sessionDays setSessionDays].
  rewrite lookup_insert_eq, setAdd_twice, insert_insert_eq. reflexivity.
Qed.

(** ** What pass 1 keeps true of the calendar *)

Lemma addSessionDay_wellFormed (year day : Z) (month : jsval) (g : globals) :
  calendarWellFormed g -> calendarWellFormed (addSessionDay year month day g).
Proof.
  intros Hwf key days. unfold addSessionDay. cbn [sessionDays setSessionDays].
  destruct (decide (calendarKey (pretty year) (jsvalToString month) = key))
    as [<- | Hne].
  - rewrite lookup_insert_eq. intros [= <-]. split; [apply setAdd_not_nil|].
    apply setAdd_NoDup.
    destruct (sessionDays g !! _) as [old|] eqn:Hold; [|apply NoDup_nil_2].
    by apply (Hwf _ _ Hold).
  - rewrite lookup_insert_ne by done. apply Hwf.
Qed.

Lemma addSessionDay_yearsParsed (year day : Z) (month : jsval) (g : globals) :
  calendarYearsParsed g -> calendarYearsParsed (addSessionDay year month day g).
Proof.
  intros Hyp key days. unfold addSessionDay. cbn [sessionDays setSessionDays].
  destruct (decide (calendarKey (pretty year) (jsvalToString month) = key))
    as [<- | Hne].
  - intros _. by eexists _, _.
  - rewrite lookup_insert_ne by done. apply Hyp.
Qed.

Lemma Variant1_parse_sessionDays (s : string) (y m : Z) (g : globals) :
  sessionDays (snd (Variant1.parseSessionDates s y m g)) = sessionDays g.
Proof.
  unfold Variant1.parseSessionDates. destruct (matchParenthesized s); [|done].
  cbv zeta. destruct (length _ <=? 3)%nat; [apply blacklist_sessionDays|].
  destruct (isSpecialPattern _); [apply blacklist_sessionDays|done].
Qed.

Lemma Variant2_parse_sessionDays (s : string) (y m : Z) (g : globals) :
  sessionDays (snd (Variant2.parseSessionDates s y m g)) = sessionDays g.
Proof.
  unfold Variant2.parseSessionDates. destruct (matchParenthesized s); [|done].
  cbv zeta. destruct (isSpecialPattern _); [apply blacklist_sessionDays|done].
Qed.

(** A property of the calendar that [addSessionDay] keeps is kept by
    pass 1, whichever resolver it runs. *)
Lemma pass1_calendar_invariant (P : globals -> Prop)
    (parse : string -> Z -> Z -> globals -> list sessionDate * globals)
    (rows : list row) (g : globals) :
  (forall g1 g2, sessionDays g1 = sessionDays g2 -> P g1 -> P g2) ->
  (forall y m d g0, P g0 -> P (addSessionDay y m d g0)) ->
  (forall s y m g0, sessionDays (snd (parse s y m g0)) = sessionDays g0) ->
  P g -> P (readCSVFile (pass1OnRow parse) rows g).
Proof.
  intros Hext Hadd Hparse. revert g. unfold readCSVFile.
  induction rows as [|r rows IH]; intros g Hg; cbn [fold_left]; [done|].
  apply IH. unfold pass1OnRow.
  destruct (isMissing (Enroll_Date r) || isMissing (Session r)); [done|].
  destruct (Enroll_Date r) as [enrollDateStr|]; [|done].
  destruct (Session r) as [sessionStr|]; [|done].
  destruct (splitOn "/" enrollDateStr) as [|p0 [|p1 [|p2 [|]]]]; try done.
  destruct (parseInt p0) as [|em]; [done|].
  destruct (parseInt p2) as [|ey]; [done|].
  specialize (Hparse sessionStr ey em g).
  destruct (parse sessionStr ey em g) as [dates g1]. simpl in Hparse.
  assert (P g1) as Hg1 by (by apply (Hext g)).
  clear Hparse Hg. revert g1 Hg1.
  induction dates as [|d dates IHd]; intros g1 Hg1; cbn [fold_left]; [done|].
  apply IHd. by apply Hadd.
Qed.

Lemma calendarWellFormed_ext (g1 g2 : globals) :
  sessionDays g1 = sessionDays g2 -> calendarWellFormed g1 -> calendarWellFormed g2.
Proof. unfold calendarWellFormed. by intros <-. Qed.

Lemma calendarYearsParsed_ext (g1 g2 : globals) :
  sessionDays g1 = sessionDays g2 -> calendarYearsParsed g1 -> calendarYearsParsed g2.
Proof. unfold calendarYearsParsed. by intros <-. Qed.

(** X5: after pass 1 of either variant, every key of the calendar holds a
    non-empty set of days without repetition; the query for a first class
    day then answers [null] exactly for the keys that were never
    recorded. *)
Theorem X5_pass1_calendar_wellFormed (rows : list row) :
  let g1 := readCSVFile (pass1OnRow Variant1.parseSessionDates) rows initialGlobals in
  let g2 := readCSVFile (pass1OnRow Variant2.parseSessionDates) rows initialGlobals in
  calendarWellFormed g1 /\ calendarWellFormed g2
  /\ (forall month year,
        getFirstClassDay month year g1 = None
        <-> sessionDays g1 !! calendarKey (jsnumToString year) (pretty month) = None)
  /\ (forall month year,
        getFirstClassDay month year g2 = None
        <-> sessionDays g2 !! calendarKey (jsnumToString year) (pretty month) = None).
Proof.
  intros g1 g2.
  assert (calendarWellFormed g1) as H1.
  { apply pass1_calendar_invariant;
      [apply calendarWellFormed_ext | intros; by apply addSessionDay_wellFormed
      | apply Variant1_parse_sessionDays | done]. }
  assert (calendarWellFormed g2) as H2.
  { apply pass1_calendar_invariant;
      [apply calendarWellFormed_ext | intros; by apply addSessionDay_wellFormed
      | apply Variant2_parse_sessionDays | done]. }
  assert (forall g, calendarWellFormed g -> forall month year,
            getFirstClassDay month year g = None
            <-> sessionDays g !! calendarKey (jsnumToString year) (pretty month) = None)
    as Hnone.
  { intros g Hwf month year. rewrite getFirstClassDay_lookup.
    destruct (sessionDays g !! _) as [days|] eqn:Hdays; [|done].
    destruct (Hwf _ _ Hdays) as [Hne _]. by destruct days. }
  split; [done|]. split; [done|]. split; intros; by apply Hnone.
Qed.

Lemma calendarYearsParsed_NaN (g : globals) (month : Z) :
  calendarYearsParsed g -> getFirstClassDay month NaN g = None.
Proof.
  intros Hyp. rewrite getFirstClassDay_lookup.
  destruct (sessionDays g !! _) as [days|] eqn:Hdays; [|done].
  destruct (Hyp _ _ Hdays) as (y & m & Hkey). by apply calendarKey_NaN in Hkey.
Qed.

Lemma pass1_yearsParsed
    (parse : string -> Z -> Z -> globals -> list sessionDate * globals)
    (rows : list row) :
  (forall s y m g0, sessionDays (snd (parse s y m g0)) = sessionDays g0) ->
  calendarYearsParsed (readCSVFile (pass1OnRow parse) rows initialGlobals).
Proof.
  intros Hparse. apply pass1_calendar_invariant;
    [apply calendarYearsParsed_ext | intros; by apply addSessionDay_yearsParsed
    | done | done].
Qed.

(** X6: a row whose date has a year that does not parse reaches the
    calendar query with the year [NaN].  Pass 1 records days under parsed
    years only, so the first variant always skips such a row; the second
    variant compares its day with [null + 7]. *)
Theorem X6_unparsed_year (G : Z) (rows : list row) (r : row) (month day : Z) :
  let g1 := readCSVFile (pass1OnRow Variant1.parseSessionDates) rows initialGlobals in
  let g2 := readCSVFile (pass1OnRow Variant2.parseSessionDates) rows initialGlobals in
  (pass2Guards r g1 = Ok (Some (month, day, NaN)) ->
   Variant1.pass2OnRow G r g1 = Ok (skipRow g1))
  /\ (pass2Guards r g2 = Ok (Some (month, day, NaN)) ->
      Variant2.pass2OnRow r g2
      = if 7 <? day
        then Ok (setEnrollmentsAfterFirstWeekOfSession
                   (enrollmentsAfterFirstWeekOfSession g2 + 1) (skipRow g2))
        else Ok (skipRow g2)).
Proof.
  intros g1 g2. split; intros Hg.
  - apply (Variant1_no_first_class_day_skipped _ _ _ _ _ _ Hg).
    apply calendarYearsParsed_NaN, pass1_yearsParsed, Variant1_parse_sessionDays.
  - apply (Variant2_no_first_class_day_as_zero _ _ _ _ _ Hg).
    apply calendarYearsParsed_NaN, pass1_yearsParsed, Variant2_parse_sessionDays.
Qed.

Lemma X6_unparsed_year_witness :
  let rows := [ csvRow "05/01/2024" "May (May 6 13 20 27)" "Beginner";
                csvRow "05/20/20x4" "May (May 6 13 20 27)" "Beginner" ] in
  let r := csvRow "05/20/x" "May (May 6 13 20 27)" "Beginner" in
  let g1 := readCSVFile (pass1OnRow Variant1.parseSessionDates) rows initialGlobals in
  let g2 := readCSVFile (pass1OnRow Variant2.parseSessionDates) rows initialGlobals in
  Variant1.pass2OnRow 7 r g1 = Ok (skipRow g1)
  /\ Variant2.pass2OnRow r g2
     = Ok (setEnrollmentsAfterFirstWeekOfSession
             (enrollmentsAfterFirstWeekOfSession g2 + 1) (skipRow g2)).
Proof.
  intros rows r g1 g2. split.
  - apply (proj1 (X6_unparsed_year 7 rows r 5 20)). reflexivity.
  - apply (proj2 (X6_unparsed_year 7 rows r 5 20)). reflexivity.
Defined.

(** ** The blacklist through pass 1 *)

Lemma includes_In (s : string) (l : list string) :
  includes s l = true <-> In s l.
Proof.
  unfold includes. rewrite existsb_exists. split.
  - intros (x & Hin & ->%String.eqb_eq). done.
  - intros Hin. exists s. by rewrite String.eqb_refl.
Qed.

Lemma blacklist_list (sessionStr : string) (g : globals) :
  blacklistedSessions (blacklist sessionStr g)
  = if includes sessionStr (blacklistedSessions g) then blacklistedSessions g
    else blacklistedSessions g ++ [sessionStr].
Proof. unfold blacklist. by destruct (includes _ _). Qed.

Lemma Variant1_parse_blacklist (s : string) (y m : Z) (g : globals) :
  snd (Variant1.parseSessionDates s y m g) = g
  \/ snd (Variant1.parseSessionDates s y m g) = blacklist s g.
Proof.
  unfold Variant1.parseSessionDates. destruct (matchParenthesized s); [|by left].
  cbv zeta. destruct (length _ <=? 3)%nat; [by right|].
  destruct (isSpecialPattern _); [by right|by left].
Qed.

Lemma Variant2_parse_blacklist (s : string) (y m : Z) (g : globals) :
  snd (Variant2.parseSessionDates s y m g) = g
  \/ snd (Variant2.parseSessionDates s y m g) = blacklist s g.
Proof.
  unfold Variant2.parseSessionDates. destruct (matchParenthesized s); [|by left].
  cbv zeta. destruct (isSpecialPattern _); [by right|by left].
Qed.

Lemma addSessionDays_blacklist (dates : list sessionDate) (g : globals) :
  blacklistedSessions
    (fold_left (fun g' d => addSessionDay (year d) (month d) (day d) g') dates g)
  = blacklistedSessions g.
Proof.
  revert g. induction dates as [|d dates IH]; intros g; cbn [fold_left]; [done|].
  by rewrite IH.
Qed.

(** What one row of pass 1 does to the blacklist: nothing, or it appends
    the row's own session, which was not on the list. *)
Lemma pass1OnRow_blacklist
    (parse : string -> Z -> Z -> globals -> list sessionDate * globals)
    (r : row) (g : globals) :
  (forall s y m g0, snd (parse s y m g0) = g0 \/ snd (parse s y m g0) = blacklist s g0) ->
  blacklistedSessions (pass1OnRow parse r g) = blacklistedSessions g
  \/ exists s, Session r = Some s
               /\ includes s (blacklistedSessions g) = false
               /\ blacklistedSessions (pass1OnRow parse r g)
                  = blacklistedSessions g ++ [s].
Proof.
  intros Hparse. unfold pass1OnRow.
  destruct (isMissing (Enroll_Date r) || isMissing (Session r)); [by left|].
  destruct (Enroll_Date r) as [enrollDateStr|]; [|by left].
  destruct (Session r) as [sessionStr|]; [|by left].
  destruct (splitOn "/" enrollDateStr) as [|p0 [|p1 [|p2 [|]]]]; try by left.
  destruct (parseInt p0) as [|em]; [by left|].
  destruct (parseInt p2) as [|ey]; [by left|].
  specialize (Hparse sessionStr ey em g).
  destruct (parse sessionStr ey em g) as [dates g1]. simpl in Hparse.
  rewrite addSessionDays_blacklist. destruct Hparse as [-> | ->]; [by left|].
  rewrite blacklist_list.
  destruct (includes sessionStr (blacklistedSessions g)) eqn:Hin; [by left|].
  right. by exists sessionStr.
Qed.

Lemma pass1_blacklist
    (parse : string -> Z -> Z -> globals -> list sessionDate * globals)
    (rows : list row) (g : globals) :
  (forall s y m g0, snd (parse s y m g0) = g0 \/ snd (parse s y m g0) = blacklist s g0) ->
  NoDup (blacklistedSessions g) ->
  exists added,
    blacklistedSessions (readCSVFile (pass1OnRow parse) rows g)
    = blacklistedSessions g ++ added
    /\ NoDup (blacklistedSessions g ++ added)
    /\ forall s, In s added -> exists r, In r rows /\ Session r = Some s.
Proof.
  intros Hparse. revert g. unfold readCSVFile.
  induction rows as [|r rows IH]; intros g Hnd; cbn [fold_left].
  - exists []. rewrite app_nil_r. by repeat split.
  - destruct (pass1OnRow_blacklist parse r g Hparse) as [Hsame | (s & Hs & Hnew & Happ)].
    + destruct (IH (pass1OnRow parse r g)) as (added & Hbl & Hnd' & Hrows);
        [by rewrite Hsame|].
      exists added. rewrite Hbl, Hsame. split; [done|]. split; [by rewrite <- Hsame|].
      intros s Hin. destruct (Hrows s Hin) as (r' & ? & ?). exists r'. split; [by right|done].
    + destruct (IH (pass1OnRow parse r g)) as (added & Hbl & Hnd' & Hrows).
      { rewrite Happ. apply NoDup_app. split; [done|].
        split; [|apply NoDup_singleton].
        intros x Hx ->%list_elem_of_singleton.
        apply list_elem_of_In, includes_In in Hx. congruence. }
      exists (s :: added). rewrite Hbl, Happ, <- app_assoc. simpl.
      rewrite Happ, <- app_assoc in Hnd'. simpl in Hnd'.
      repeat split; [done|].
      intros s' [<- | Hin]; [exists r; split; [by left|done]|].
      destruct (Hrows s' Hin) as (r' & ? & ?). exists r'. split; [by right|done].
Qed.

(** X7: pass 1 only appends to the blacklist.  After pass 1 of either
    variant over a file, the list holds no string twice, and every string
    on it is the session of a row of the file. *)
Theorem X7_pass1_blacklist (rows : list row) :
  let g1 := readCSVFile (pass1OnRow Variant1.parseSessionDates) rows initialGlobals in
  let g2 := readCSVFile (pass1OnRow Variant2.parseSessionDates) rows initialGlobals in
  (NoDup (blacklistedSessions g1)
   /\ forall s, In s (blacklistedSessions g1) ->
                exists r, In r rows /\ Session r = Some s)
  /\ (NoDup (blacklistedSessions g2)
      /\ forall s, In s (blacklistedSessions g2) ->
                   exists r, In r rows /\ Session r = Some s).
Proof.
  intros g1 g2. split.
  - destruct (pass1_blacklist Variant1.parseSessionDates rows initialGlobals
                Variant1_parse_blacklist (NoDup_nil_2 (A:=string))) as (added & Hbl & Hnd & Hrows).
    subst g1. rewrite Hbl. by split.
  - destruct (pass1_blacklist Variant2.parseSessionDates rows initialGlobals
                Variant2_parse_blacklist (NoDup_nil_2 (A:=string))) as (added & Hbl & Hnd & Hrows).
    subst g2. rewrite Hbl. by split.
Qed.

(** ** What pass 2 leaves alone *)

Lemma pass2Guards_throw (r : row) (g : globals) (message : string) :
  pass2Guards r g = Throw message -> message = toLowerCaseOfUndefined.
Proof.
  unfold pass2Guards.
  destruct (isBlacklisted (Session r) g); [done|].
  destruct (isMissing (Enroll_Date r) || isMissing (Session r)); [done|].
  destruct (Enroll_Date r) as [enrollDateStr|]; [|done].
  destruct (Session r) as [sessionStr|]; [|done].
  destruct (splitOn "/" enrollDateStr) as [|p0 [|p1 [|p2 [|]]]]; try done.
  destruct (parseInt p0) as [|mo]; [done|].
  destruct (parseInt p1) as [|da]; [done|].
  destruct (monthNameStrings mo) as [name|]; [|by intros [= <-]].
  by destruct (negb _).
Qed.

(** One row of pass 2, in full: the callback throws, or it returns the
    state with the row counted in the total and possibly as late. *)
Lemma Variant1_pass2OnRow_cases (G : Z) (r : row) (g : globals) :
  Variant1.pass2OnRow G r g = Throw toLowerCaseOfUndefined
  \/ Variant1.pass2OnRow G r g = Ok (skipRow g)
  \/ exists key, Variant1.pass2OnRow G r g
                 = Ok (countLate key (classCategoryOf r) (skipRow g))
                 /\ is_Some (sessionDays g !! key).
Proof.
  destruct (pass2Guards r g) as [[[[mo da] ye]|]|msg] eqn:Hg.
  - rewrite (Variant1_pass2OnRow_reached _ _ _ _ _ _ Hg).
    destruct (getFirstClassDay mo ye g) as [f|] eqn:Hf; [|by right; left].
    destruct (jsAdd f G <? da); [|by right; left].
    right. right. eexists. split; [done|].
    rewrite getFirstClassDay_lookup in Hf. by destruct (sessionDays g !! _).
  - right. left. by apply Variant1_pass2OnRow_skipped.
  - left. unfold Variant1.pass2OnRow. cbv zeta.
    change (pass2Guards r (setTotalEnrollmentRows (totalEnrollmentRows g + 1) g))
      with (pass2Guards r g).
    rewrite Hg. by rewrite (pass2Guards_throw _ _ _ Hg).
Qed.

Lemma Variant2_pass2OnRow_cases (r : row) (g : globals) :
  Variant2.pass2OnRow r g = Throw toLowerCaseOfUndefined
  \/ Variant2.pass2OnRow r g = Ok (skipRow g)
  \/ Variant2.pass2OnRow r g
     = Ok (setEnrollmentsAfterFirstWeekOfSession
             (enrollmentsAfterFirstWeekOfSession g + 1) (skipRow g)).
Proof.
  destruct (pass2Guards r g) as [[[[mo da] ye]|]|msg] eqn:Hg.
  - rewrite (Variant2_pass2OnRow_reached _ _ _ _ _ Hg).
    destruct (_ <? da); [by right; right|by right; left].
  - right. left. by apply Variant2_pass2OnRow_skipped.
  - left. unfold Variant2.pass2OnRow. cbv zeta.
    change (pass2Guards r (setTotalEnrollmentRows (totalEnrollmentRows g + 1) g))
      with (pass2Guards r g).
    rewrite Hg. by rewrite (pass2Guards_throw _ _ _ Hg).
Qed.

(** A property that every returning row callback keeps is kept by a
    completed read. *)
Lemma readCSVFileThrowing_invariant (P : globals -> Prop)
    (onRow : row -> globals -> result globals) (rows : list row) (g g' : globals) :
  (forall r g0 g1, onRow r g0 = Ok g1 -> P g0 -> P g1) ->
  readCSVFileThrowing onRow rows g = Ok g' -> P g -> P g'.
Proof.
  intros Hrow. revert g. induction rows as [|r rows IH]; intros g; simpl.
  - by intros [= <-].
  - destruct (onRow r g) as [g1|msg] eqn:Hr; simpl; [|done].
    intros Hrest Hg. apply (IH g1 Hrest). by apply (Hrow r g).
Qed.

(** X8: pass 2 reads the calendar and the blacklist and never writes
    them: when it completes, both are what pass 1 left, in both
    variants. *)
Theorem X8_pass2_keeps_calendar_and_blacklist (G : Z) (rows : list row) :
  (forall g, Variant1.pass2 G rows = Ok g ->
     let g1 := readCSVFile (pass1OnRow Variant1.parseSessionDates) rows initialGlobals in
     sessionDays g = sessionDays g1
     /\ blacklistedSessions g = blacklistedSessions g1)
  /\ (forall g, Variant2.pass2 rows = Ok g ->
        let g2 := readCSVFile (pass1OnRow Variant2.parseSessionDates) rows initialGlobals in
        sessionDays g = sessionDays g2
        /\ blacklistedSessions g = blacklistedSessions g2
        /\ monthlyEnrollmentCounts g = ∅).
Proof.
  split; intros g Hrun gp.
  - apply (readCSVFileThrowing_invariant
             (fun g0 => sessionDays g0 = sessionDays gp
                        /\ blacklistedSessions g0 = blacklistedSessions gp)
             _ _ _ _) in Hrun; [done| |done].
    intros r g0 g1 Hr [Hs Hb].
    destruct (Variant1_pass2OnRow_cases G r g0) as [H|[H|(key & H & _)]];
      rewrite H in Hr; [done|injection Hr as <-..]; by split.
  - apply (readCSVFileThrowing_invariant
             (fun g0 => sessionDays g0 = sessionDays gp
                        /\ blacklistedSessions g0 = blacklistedSessions gp
                        /\ monthlyEnrollmentCounts g0 = ∅)
             _ _ _ _) in Hrun; [done| |].
    + intros r g0 g1 Hr (Hs & Hb & Hm).
      destruct (Variant2_pass2OnRow_cases r g0) as [H|[H|H]];
        rewrite H in Hr; [done|injection Hr as <-..]; by repeat split.
    + repeat split.
      by destruct (readCSVFile_pass1_sameCounters Variant2.parseSessionDates rows
                     initialGlobals Variant2_parse_sameCounters) as (_ & _ & ->).
Qed.

Lemma X8_pass2_keeps_calendar_and_blacklist_witness :
  (exists g, Variant1.pass2 7 sampleRows = Ok g
     /\ sessionDays g
        = sessionDays (readCSVFile (pass1OnRow Variant1.parseSessionDates)
                         sampleRows initialGlobals)
     /\ blacklistedSessions g
        = blacklistedSessions (readCSVFile (pass1OnRow Variant1.parseSessionDates)
                                 sampleRows initialGlobals))
  /\ (exists g, Variant2.pass2 sampleRows = Ok g
        /\ sessionDays g
           = sessionDays (readCSVFile (pass1OnRow Variant2.parseSessionDates)
                            sampleRows initialGlobals)
        /\ blacklistedSessions g
           = blacklistedSessions (readCSVFile (pass1OnRow Variant2.parseSessionDates)
                                    sampleRows initialGlobals)
        /\ monthlyEnrollmentCounts g = ∅).
Proof.
  split.
  - destruct (Variant1.pass2 7 sampleRows) as [g|message] eqn:Hrun;
      [|vm_compute in Hrun; discriminate Hrun].
    exists g. split; [done|].
    apply (proj1 (X8_pass2_keeps_calendar_and_blacklist 7 sampleRows) g Hrun).
  - destruct (Variant2.pass2 sampleRows) as [g|message] eqn:Hrun;
      [|vm_compute in Hrun; discriminate Hrun].
    exists g. split; [done|].
    apply (proj2 (X8_pass2_keeps_calendar_and_blacklist 7 sampleRows) g Hrun).
Defined.

(** X9: when pass 2 completes, the rows counted as late are at most the
    rows of the file and never negative, in both variants. *)
Theorem X9_late_rows_bounded (G : Z) (rows : list row) :
  (forall g, Variant1.pass2 G rows = Ok g ->
             0 <= enrollmentsAfterFirstWeekOfSession g <= Z.of_nat (length rows))
  /\ (forall g, Variant2.pass2 rows = Ok g ->
                0 <= enrollmentsAfterFirstWeekOfSession g <= Z.of_nat (length rows)).
Proof.
  split; intros g Hrun.
  - rewrite <- (Variant1_pass2_total _ _ _ Hrun).
    apply (readCSVFileThrowing_invariant
             (fun g0 => 0 <= enrollmentsAfterFirstWeekOfSession g0
                        <= totalEnrollmentRows g0) _ _ _ _) in Hrun; [done| |].
    + intros r g0 g1 Hr Hg0.
      destruct (Variant1_pass2OnRow_cases G r g0) as [H|[H|(key & H & _)]];
        rewrite H in Hr; [done|injection Hr as <-..]; simpl; lia.
    + destruct (readCSVFile_pass1_sameCounters Variant1.parseSessionDates rows
                  initialGlobals Variant1_parse_sameCounters) as (-> & -> & _).
      simpl. lia.
  - rewrite <- (Variant2_pass2_total _ _ Hrun).
    apply (readCSVFileThrowing_invariant
             (fun g0 => 0 <= enrollmentsAfterFirstWeekOfSession g0
                        <= totalEnrollmentRows g0) _ _ _ _) in Hrun; [done| |].
    + intros r g0 g1 Hr Hg0.
      destruct (Variant2_pass2OnRow_cases r g0) as [H|[H|H]];
        rewrite H in Hr; [done|injection Hr as <-..]; simpl; lia.
    + destruct (readCSVFile_pass1_sameCounters Variant2.parseSessionDates rows
                  initialGlobals Variant2_parse_sameCounters) as (-> & -> & _).
      simpl. lia.
Qed.

Lemma X9_late_rows_bounded_witness :
  exists g1 g2,
    Variant1.pass2 7 sampleRows = Ok g1 /\ Variant2.pass2 sampleRows = Ok g2
    /\ 0 <= enrollmentsAfterFirstWeekOfSession g1 <= 5
    /\ 0 <= enrollmentsAfterFirstWeekOfSession g2 <= 5.
Proof.
  eexists _, _.
  split; [vm_compute; reflexivity|]. split; [vm_compute; reflexivity|]. split.
  - apply (proj1 (X9_late_rows_bounded 7 sampleRows)). vm_compute. reflexivity.
  - apply (proj2 (X9_late_rows_bounded 7 sampleRows)). vm_compute. reflexivity.
Defined.

(** ** The percentage of the report *)

Lemma nearestDoubleQ_bounds (x : Q) (bound : Z) :
  (0 <= x)%Q -> (x <= inject_Z bound)%Q -> bound <= 2 ^ 50 ->
  exists q, nearestDoubleQ x = FReal q /\ (0 <= q)%Q /\ (q <= inject_Z bound)%Q.
Proof.
  destruct x as [n d]. intros Hlow Hhigh Hbound.
  unfold Qle in Hlow, Hhigh. simpl in Hlow, Hhigh.
  unfold nearestDoubleQ. simpl Qnum. simpl Qden.
  destruct n as [|n|n]; [| |lia].
  { exists 0%Q. split; [reflexivity|]. unfold Qle. simpl. lia. }
  unfold nearestDoublePositive.
  set (e0 := Z.log2 (Z.pos n) - Z.log2 (Z.pos d)).
  destruct (scaled (Z.pos n) (Z.pos d) (- e0)) as [n0 d0].
  set (e := if d0 <=? n0 then e0 else e0 - 1).
  assert (e <= e0) as He by (unfold e; destruct (d0 <=? n0); lia).
  assert (e0 <= 51) as He0.
  { unfold e0.
    assert (Z.log2 (Z.pos n) <= Z.log2 (bound * Z.pos d)) as H1
      by (apply Z.log2_le_mono; lia).
    assert (0 < bound) as Hb by nia.
    pose proof (Z.log2_mul_above bound (Z.pos d) ltac:(lia) ltac:(lia)) as H2.
    assert (Z.log2 bound <= 50) as H3.
    { change 50 with (Z.log2 (2 ^ 50)). by apply Z.log2_le_mono. }
    lia. }
  set (k := 52 - Z.max e (-1022)).
  assert (0 < k) as Hk by lia.
  unfold scaled. destruct (Z.leb_spec 0 k) as [_|]; [|lia].
  destruct (Z.ltb_spec 0 k) as [_|]; [|lia].
  assert (0 < 2 ^ k) as Hpow by (apply Z.pow_pos_nonneg; lia).
  set (m := roundHalfEven (Z.pos n * 2 ^ k) (Z.pos d)).
  assert (0 <= m) as Hm0 by (apply roundHalfEven_nonneg; lia).
  assert (m <= bound * 2 ^ k) as Hm1 by (apply roundHalfEven_le; nia).
  eexists. split; [reflexivity|].
  rewrite !Qred_correct. unfold Qle. simpl Qnum. simpl Qden.
  rewrite Z2Pos.id by lia. lia.
Qed.

(** The percentage of a count among a positive total is a finite number
    between 0 and 100. *)
Lemma percentage_bounds (a t : Z) :
  0 <= a <= t -> 0 < t ->
  exists q, times (divide a t) 100 = FReal q /\ (0 <= q)%Q /\ (q <= 100)%Q.
Proof.
  intros Ha Ht. unfold divide. destruct (Z.eqb_spec t 0); [lia|].
  destruct (nearestDoubleQ_bounds (a * Z.sgn t # Z.to_pos (Z.abs t)) 1)
    as (q1 & -> & Hlow & Hhigh).
  - unfold Qle. simpl. lia.
  - unfold Qle. simpl. rewrite Z2Pos.id by lia. lia.
  - by vm_compute.
  - unfold times.
    destruct (nearestDoubleQ_bounds (q1 * inject_Z 100) 100) as (q & -> & ? & ?).
    + apply Qmult_le_0_compat; [exact Hlow | by vm_compute].
    + change (inject_Z 100) with (1 * inject_Z 100)%Q at 2.
      apply Qmult_le_compat_r; [exact Hhigh | by vm_compute].
    + by vm_compute.
    + by exists q.
Qed.

Example percentage_of_11_in_20 :
  times (divide 11 20) 100 = FReal (55 + (1 # 2 ^ 47)).
Proof. by vm_compute. Qed.

(** X10: for a file with at least one row on which pass 2 completes, the
    percentage of the report, the double [late / rows * 100], is a finite
    number between 0 and 100; [NaN] and the infinities only arise from a
    total of zero. *)
Theorem X10_percentage_in_range (G : Z) (rows : list row) :
  rows <> [] ->
  (forall g, Variant1.pass2 G rows = Ok g ->
     exists q, Variant1.decimal (Variant1.pass2OnComplete g) = FReal q
               /\ (0 <= q)%Q /\ (q <= 100)%Q)
  /\ (forall g, Variant2.pass2 rows = Ok g ->
        exists q, Variant2.decimal (Variant2.pass2OnComplete g) = FReal q
                  /\ (0 <= q)%Q /\ (q <= 100)%Q).
Proof.
  intros Hrows.
  assert (0 < Z.of_nat (length rows)) as Hlen by (destruct rows; [done|simpl; lia]).
  split; intros g Hrun.
  - pose proof (Variant1_pass2_total _ _ _ Hrun) as Ht.
    assert (0 <= enrollmentsAfterFirstWeekOfSession g <= Z.of_nat (length rows)) as Ha.
    { rewrite <- Ht.
      apply (readCSVFileThrowing_invariant
               (fun g0 => 0 <= enrollmentsAfterFirstWeekOfSession g0
                          <= totalEnrollmentRows g0) _ _ _ _) in Hrun; [done| |].
      - intros r g0 g1 Hr Hg0.
        destruct (Variant1_pass2OnRow_cases G r g0) as [H|[H|(key & H & _)]];
          rewrite H in Hr; [done|injection Hr as <-..]; simpl; lia.
      - destruct (readCSVFile_pass1_sameCounters Variant1.parseSessionDates rows
                    initialGlobals Variant1_parse_sameCounters) as (-> & -> & _).
        simpl. lia. }
    simpl. rewrite Ht. by apply percentage_bounds.
  - pose proof (Variant2_pass2_total _ _ Hrun) as Ht.
    assert (0 <= enrollmentsAfterFirstWeekOfSession g <= Z.of_nat (length rows)) as Ha.
    { rewrite <- Ht.
      apply (readCSVFileThrowing_invariant
               (fun g0 => 0 <= enrollmentsAfterFirstWeekOfSession g0
                          <= totalEnrollmentRows g0) _ _ _ _) in Hrun; [done| |].
      - intros r g0 g1 Hr Hg0.
        destruct (Variant2_pass2OnRow_cases r g0) as [H|[H|H]];
          rewrite H in Hr; [done|injection Hr as <-..]; simpl; lia.
      - destruct (readCSVFile_pass1_sameCounters Variant2.parseSessionDates rows
                    initialGlobals Variant2_parse_sameCounters) as (-> & -> & _).
        simpl. lia. }
    simpl. rewrite Ht. by apply percentage_bounds.
Qed.

Lemma X10_percentage_in_range_witness :
  exists g q,
    Variant1.pass2 7 sampleRows = Ok g
    /\ Variant1.decimal (Variant1.pass2OnComplete g) = FReal q
    /\ (0 <= q)%Q /\ (q <= 100)%Q.
Proof.
  destruct (Variant1.pass2 7 sampleRows) as [g|message] eqn:Hrun;
    [|vm_compute in Hrun; discriminate Hrun].
  assert (sampleRows <> []) as Hne by discriminate.
  destruct (proj1 (X10_percentage_in_range 7 sampleRows Hne) g Hrun) as (q & Hq).
  by exists g, q.
Defined.

(** ** From pass 1 to pass 2 *)

Lemma pass1OnRow_keeps_blacklisted
    (parse : string -> Z -> Z -> globals -> list sessionDate * globals)
    (r : row) (g : globals) (s : string) :
  (forall s y m g0, snd (parse s y m g0) = g0 \/ snd (parse s y m g0) = blacklist s g0) ->
  includes s (blacklistedSessions g) = true ->
  includes s (blacklistedSessions (pass1OnRow parse r g)) = true.
Proof.
  intros Hparse Hin.
  destruct (pass1OnRow_blacklist parse r g Hparse) as [-> | (s' & _ & _ & ->)];
    [done|].
  by rewrite includes_app, Hin.
Qed.

Lemma pass1_keeps_blacklisted
    (parse : string -> Z -> Z -> globals -> list sessionDate * globals)
    (rows : list row) (g : globals) (s : string) :
  (forall s y m g0, snd (parse s y m g0) = g0 \/ snd (parse s y m g0) = blacklist s g0) ->
  includes s (blacklistedSessions g) = true ->
  includes s (blacklistedSessions (readCSVFile (pass1OnRow parse) rows g)) = true.
Proof.
  intros Hparse. revert g. unfold readCSVFile.
  induction rows as [|r rows IH]; intros g Hin; cbn [fold_left]; [done|].
  apply IH. by apply pass1OnRow_keeps_blacklisted.
Qed.

(** Pass 1 on a row with a well-formed date whose session the resolver
    blacklists. *)
Lemma pass1OnRow_blacklists
    (parse : string -> Z -> Z -> globals -> list sessionDate * globals)
    (r : row) (g : globals) (d s p0 p1 p2 : string) (em ey : Z) :
  Enroll_Date r = Some d -> Session r = Some s -> s <> "" ->
  splitOn "/" d = [p0; p1; p2] -> parseInt p0 = Num em -> parseInt p2 = Num ey ->
  snd (parse s ey em g) = blacklist s g ->
  includes s (blacklistedSessions (pass1OnRow parse r g)) = true.
Proof.
  intros Hd Hs Hne Hsplit Hm Hy Hparse. unfold pass1OnRow. rewrite Hd, Hs.
  assert (isMissing (Some d) || isMissing (Some s) = false) as ->.
  { simpl. destruct d; [done|]. destruct s; [done|]. done. }
  rewrite Hsplit, Hm, Hy.
  destruct (parse s ey em g) as [dates g1]. simpl in Hparse. subst g1.
  rewrite addSessionDays_blacklist. apply blacklist_includes.
Qed.

Lemma pass1_blacklists
    (parse : string -> Z -> Z -> globals -> list sessionDate * globals)
    (rows : list row) (g : globals) (r : row) (d s p0 p1 p2 : string) (em ey : Z) :
  (forall s y m g0, snd (parse s y m g0) = g0 \/ snd (parse s y m g0) = blacklist s g0) ->
  (forall g0, snd (parse s ey em g0) = blacklist s g0) ->
  In r rows ->
  Enroll_Date r = Some d -> Session r = Some s -> s <> "" ->
  splitOn "/" d = [p0; p1; p2] -> parseInt p0 = Num em -> parseInt p2 = Num ey ->
  includes s (blacklistedSessions (readCSVFile (pass1OnRow parse) rows g)) = true.
Proof.
  intros Hcases Hparse Hin Hd Hs Hne Hsplit Hm Hy. revert g.
  induction rows as [|r0 rows IH]; intros g; [done|].
  unfold readCSVFile. cbn [fold_left]. destruct Hin as [-> | Hin].
  - apply (pass1_keeps_blacklisted parse rows); [done|].
    by apply (pass1OnRow_blacklists parse r g d s p0 p1 p2 em ey).
  - by apply IH.
Qed.

Lemma matchParenthesized_nonempty (s group : string) :
  matchParenthesized s = Some group -> s <> "".
Proof. by intros H ->. Qed.

(** X11: in the first variant, one row with a well-formed date and a
    session of at most 3 day tokens is enough: after pass 1 the session is
    on the blacklist, and pass 2 returns early on every row that carries
    the same session string, whatever that row's date and class. *)
Theorem X11_short_session_rows_skipped (G : Z) (rows : list row) (r : row)
    (d s group p0 p1 p2 : string) (em ey : Z) :
  In r rows ->
  Enroll_Date r = Some d -> Session r = Some s ->
  splitOn "/" d = [p0; p1; p2] -> parseInt p0 = Num em -> parseInt p2 = Num ey ->
  matchParenthesized s = Some group ->
  (length (List.filter isDayToken (tokenize (trim group))) <= 3)%nat ->
  let g := readCSVFile (pass1OnRow Variant1.parseSessionDates) rows initialGlobals in
  includes s (blacklistedSessions g) = true
  /\ forall r', Session r' = Some s -> Variant1.pass2OnRow G r' g = Ok (skipRow g).
Proof.
  intros Hin Hd Hs Hsplit Hm Hy Hmatch Hfew g.
  assert (includes s (blacklistedSessions g) = true) as Hbl.
  { apply (pass1_blacklists Variant1.parseSessionDates rows initialGlobals r
             d s p0 p1 p2 em ey); try done.
    - apply Variant1_parse_blacklist.
    - intros g0. by rewrite (Variant1_few_day_tokens s group ey em g0).
    - by apply (matchParenthesized_nonempty s group). }
  split; [done|]. intros r' Hs'.
  apply Variant1_pass2OnRow_skipped. unfold pass2Guards.
  rewrite Hs'. cbn [isBlacklisted]. by rewrite Hbl.
Qed.

Lemma X11_short_session_rows_skipped_witness :
  let rows := [ csvRow "05/01/2024" "May (May 6 13)" "Beginner";
                csvRow "05/30/2024" "May (May 6 13)" "Advanced" ] in
  let g := readCSVFile (pass1OnRow Variant1.parseSessionDates) rows initialGlobals in
  includes "May (May 6 13)" (blacklistedSessions g) = true
  /\ forall r', Session r' = Some "May (May 6 13)" ->
                Variant1.pass2OnRow 7 r' g = Ok (skipRow g).
Proof.
  intros rows g.
  apply (X11_short_session_rows_skipped 7 rows
           (csvRow "05/01/2024" "May (May 6 13)" "Beginner")
           "05/01/2024" "May (May 6 13)" "May 6 13" "05" "01" "2024" 5 2024);
    try reflexivity.
  - by left.
  - vm_compute. lia.
Defined.

(** ** Months without a name *)

Lemma monthNameStrings_none (month : Z) :
  month < 0 \/ 12 < month -> monthNameStrings month = None.
Proof.
  intros Hout. destruct (monthNameStrings month) as [name|] eqn:Hname; [|done].
  apply monthNameStrings_range in Hname. lia.
Qed.

Lemma pass2Guards_no_month_name (r : row) (g : globals)
    (d s p0 p1 p2 : string) (month day : Z) :
  Enroll_Date r = Some d -> Session r = Some s -> s <> "" ->
  includes s (blacklistedSessions g) = false ->
  splitOn "/" d = [p0; p1; p2] -> parseInt p0 = Num month -> parseInt p1 = Num day ->
  month < 0 \/ 12 < month ->
  pass2Guards r g = Throw toLowerCaseOfUndefined.
Proof.
  intros Hd Hs Hne Hbl Hsplit Hm Hday Hout. unfold pass2Guards.
  rewrite Hd, Hs. cbn [isBlacklisted]. rewrite Hbl.
  assert (isMissing (Some d) || isMissing (Some s) = false) as ->.
  { simpl. destruct d; [done|]. by destruct s. }
  by rewrite Hsplit, Hm, Hday, (monthNameStrings_none _ Hout).
Qed.

(** A read that meets a throwing row does not complete. *)
Lemma readCSVFileThrowing_throws (P : globals -> Prop)
    (onRow : row -> globals -> result globals) (rows : list row) (r : row)
    (g : globals) (message : string) :
  (forall r0 g0 g1, onRow r0 g0 = Ok g1 -> P g0 -> P g1) ->
  (forall r0 g0 m, onRow r0 g0 = Throw m -> m = message) ->
  (forall g0, P g0 -> onRow r g0 = Throw message) ->
  In r rows -> P g ->
  readCSVFileThrowing onRow rows g = Throw message.
Proof.
  intros Hkeep Hmsg Hthrow. revert g.
  induction rows as [|r0 rows IH]; intros g Hin Hg; [done|]. simpl.
  destruct (onRow r0 g) as [g1|m] eqn:Hr0; simpl.
  - destruct Hin as [-> | Hin]; [by rewrite (Hthrow g Hg) in Hr0|].
    apply IH; [done|]. by apply (Hkeep r0 g).
  - by rewrite (Hmsg _ _ _ Hr0).
Qed.

(** X12: a row with both cells, a date of three parts whose month number
    is below 0 or above 12, and a session that pass 1 did not blacklist
    makes the pass-2 callback throw; one such row anywhere in the file
    and neither variant produces a report. *)
Theorem X12_month_without_name_aborts (G : Z) (rows : list row) (r : row)
    (d s p0 p1 p2 : string) (month day : Z) :
  In r rows ->
  Enroll_Date r = Some d -> Session r = Some s -> s <> "" ->
  splitOn "/" d = [p0; p1; p2] -> parseInt p0 = Num month -> parseInt p1 = Num day ->
  month < 0 \/ 12 < month ->
  (includes s (blacklistedSessions
                 (readCSVFile (pass1OnRow Variant1.parseSessionDates) rows
                    initialGlobals)) = false ->
   Variant1.main G rows = Throw toLowerCaseOfUndefined)
  /\ (includes s (blacklistedSessions
                    (readCSVFile (pass1OnRow Variant2.parseSessionDates) rows
                       initialGlobals)) = false ->
      Variant2.main rows = Throw toLowerCaseOfUndefined).
Proof.
  intros Hin Hd Hs Hne Hsplit Hm Hday Hout. split; intros Hbl.
  - unfold Variant1.main, Variant1.pass2.
    set (g1 := readCSVFile _ rows initialGlobals) in *.
    rewrite (readCSVFileThrowing_throws
               (fun g0 => blacklistedSessions g0 = blacklistedSessions g1)
               _ rows r g1 toLowerCaseOfUndefined); try done.
    + intros r0 g0 g' Hr0 Hg0.
      destruct (Variant1_pass2OnRow_cases G r0 g0) as [H|[H|(key & H & _)]];
        rewrite H in Hr0; [done|injection Hr0 as <-..]; done.
    + intros r0 g0 m Hr0.
      destruct (Variant1_pass2OnRow_cases G r0 g0) as [H|[H|(key & H & _)]];
        rewrite H in Hr0; congruence.
    + intros g0 Hg0. unfold Variant1.pass2OnRow. cbv zeta.
      rewrite (pass2Guards_no_month_name r _ d s p0 p1 p2 month day); try done.
      cbn [blacklistedSessions setTotalEnrollmentRows]. by rewrite Hg0.
  - unfold Variant2.main, Variant2.pass2.
    set (g2 := readCSVFile _ rows initialGlobals) in *.
    rewrite (readCSVFileThrowing_throws
               (fun g0 => blacklistedSessions g0 = blacklistedSessions g2)
               _ rows r g2 toLowerCaseOfUndefined); try done.
    + intros r0 g0 g' Hr0 Hg0.
      destruct (Variant2_pass2OnRow_cases r0 g0) as [H|[H|H]];
        rewrite H in Hr0; [done|injection Hr0 as <-..]; done.
    + intros r0 g0 m Hr0.
      destruct (Variant2_pass2OnRow_cases r0 g0) as [H|[H|H]];
        rewrite H in Hr0; congruence.
    + intros g0 Hg0. unfold Variant2.pass2OnRow. cbv zeta.
      rewrite (pass2Guards_no_month_name r _ d s p0 p1 p2 month day); try done.
      cbn [blacklistedSessions setTotalEnrollmentRows]. by rewrite Hg0.
Qed.

Lemma X12_month_without_name_aborts_witness :
  let rows := [ csvRow "05/20/2024" "May (May 6 13 20 27)" "Beginner";
                csvRow "13/05/2024" "May (May 6 13 20 27)" "Beginner";
                csvRow "05/21/2024" "May (May 6 13 20 27)" "Beginner" ] in
  Variant1.main 7 rows = Throw toLowerCaseOfUndefined
  /\ Variant2.main rows = Throw toLowerCaseOfUndefined.
Proof.
  intros rows.
  pose proof (X12_month_without_name_aborts 7 rows
                (csvRow "13/05/2024" "May (May 6 13 20 27)" "Beginner")
                "13/05/2024" "May (May 6 13 20 27)" "13" "05" "2024" 13 5) as H.
  split; apply H; try reflexivity; try discriminate;
    (right; by left) || (right; lia) || idtac.
Defined.

(** ** The guards of pass 2, in full *)

(** X13: a row reaches the calendar query of pass 2 exactly when both
    cells are present, the session is not blacklisted, the date has three
    slash-separated parts whose first two parse, the month has a name and
    the session starts with it, letter case aside.  The year it is queried
    with is the year of the date as parsed: the increment of the
    session-year estimate never runs, and the month lies in 0..12. *)
Theorem X13_pass2Guards_reached_iff (r : row) (g : globals) (month day : Z)
    (year : jsnum) :
  pass2Guards r g = Ok (Some (month, day, year))
  <-> exists d s p0 p1 p2 name,
        Enroll_Date r = Some d /\ Session r = Some s /\ s <> ""
        /\ includes s (blacklistedSessions g) = false
        /\ splitOn "/" d = [p0; p1; p2]
        /\ parseInt p0 = Num month /\ parseInt p1 = Num day /\ parseInt p2 = year
        /\ 0 <= month <= 12
        /\ monthNameStrings month = Some name
        /\ startsWith (toLowerCase s) (toLowerCase name) = true.
Proof.
  split.
  - unfold pass2Guards.
    destruct (isBlacklisted (Session r) g) eqn:Hbl; [done|].
    destruct (isMissing (Enroll_Date r) || isMissing (Session r)) eqn:Hmiss; [done|].
    destruct (Enroll_Date r) as [d|]; [|done].
    destruct (Session r) as [s|]; [|done].
    destruct (splitOn "/" d) as [|p0 [|p1 [|p2 [|]]]] eqn:Hsplit; try done.
    destruct (parseInt p0) as [|mo] eqn:Hmo; [done|].
    destruct (parseInt p1) as [|da] eqn:Hda; [done|].
    destruct (monthNameStrings mo) as [name|] eqn:Hname; [|done].
    destruct (startsWith _ _) eqn:Hprefix; [|done].
    cbn [negb]. rewrite (monthNameStrings_index _ _ Hname).
    intros [= <- <- <-]. exists d, s, p0, p1, p2, name.
    apply orb_false_elim in Hmiss as [_ Hs]. simpl in Hs.
    repeat split; try done.
    + intros ->. done.
    + by apply (monthNameStrings_range mo name).
    + by apply (monthNameStrings_range mo name).
  - intros (d & s & p0 & p1 & p2 & name & Hd & Hs & Hne & Hbl & Hsplit & Hmo & Hda
            & Hy & _ & Hname & Hprefix).
    unfold pass2Guards. rewrite Hd, Hs. cbn [isBlacklisted]. rewrite Hbl.
    assert (isMissing (Some d) || isMissing (Some s) = false) as ->.
    { simpl. destruct d; [done|]. by destruct s. }
    rewrite Hsplit, Hmo, Hda, Hname, Hprefix. cbn [negb].
    by rewrite (monthNameStrings_index _ _ Hname), Hy.
Qed.

(** ** The two resolvers side by side *)

(** X14: the first variant's resolver is the second variant's behind one
    more rejection: on every session it either returns what the second
    returns, or it returns no date and blacklists; and it returns what
    the second returns whenever the parentheses hold more than 3 day
    tokens or there are no parentheses to read. *)
Theorem X14_resolvers_agree (s : string) (y m : Z) (g : globals) :
  (Variant1.parseSessionDates s y m g = Variant2.parseSessionDates s y m g
   \/ Variant1.parseSessionDates s y m g = ([], blacklist s g))
  /\ (matchParenthesized s = None
      \/ (exists group, matchParenthesized s = Some group
            /\ (3 < length (List.filter isDayToken (tokenize (trim group))))%nat) ->
      Variant1.parseSessionDates s y m g = Variant2.parseSessionDates s y m g).
Proof.
  unfold Variant1.parseSessionDates, Variant2.parseSessionDates.
  destruct (matchParenthesized s) as [group|]; cbv zeta.
  - destruct (Nat.leb_spec (length (List.filter isDayToken (tokenize (trim group)))) 3).
    + split; [by right|]. intros [?|(group' & [= <-] & ?)]; [done|lia].
    + split; [by left|done].
  - split; [by left|done].
Qed.

Lemma X14_resolvers_agree_witness :
  Variant1.parseSessionDates "May (May 6 13 20 27)" 2024 5 initialGlobals
  = Variant2.parseSessionDates "May (May 6 13 20 27)" 2024 5 initialGlobals.
Proof.
  apply (proj2 (X14_resolvers_agree "May (May 6 13 20 27)" 2024 5 initialGlobals)).
  right. exists "May 6 13 20 27". split; [reflexivity|]. vm_compute. lia.
Defined.

(** X15: on a row that finds a first class day, or that stops before the
    calendar query, the first variant with a grace period of 7 and the
    second variant do the same to the counters: both throw, or the second
    returns the first's state without the tally entry. *)
Theorem X15_callbacks_agree (r : row) (g : globals) :
  (forall month day year, pass2Guards r g = Ok (Some (month, day, year)) ->
                          getFirstClassDay month year g <> None) ->
  match Variant1.pass2OnRow 7 r g with
  | Ok g1 => Variant2.pass2OnRow r g
             = Ok (withoutTally (monthlyEnrollmentCounts g) g1)
  | Throw message => Variant2.pass2OnRow r g = Throw message
  end.
Proof.
  intros Hfirst. destruct (pass2Guards r g) as [[[[mo da] ye]|]|msg] eqn:Hg.
  - rewrite (Variant1_pass2OnRow_reached _ _ _ _ _ _ Hg),
      (Variant2_pass2OnRow_reached _ _ _ _ _ Hg).
    specialize (Hfirst _ _ _ eq_refl).
    destruct (getFirstClassDay mo ye g) as [f|]; [|done]. simpl.
    by destruct (jsAdd f 7 <? da).
  - by rewrite (Variant1_pass2OnRow_skipped _ _ _ Hg),
      (Variant2_pass2OnRow_skipped _ _ Hg).
  - unfold Variant1.pass2OnRow, Variant2.pass2OnRow. cbv zeta.
    change (pass2Guards r (setTotalEnrollmentRows (totalEnrollmentRows g + 1) g))
      with (pass2Guards r g).
    by rewrite Hg.
Qed.

Lemma X15_callbacks_agree_witness :
  let g := addSessionDay 2024 (VNum 5) 6 initialGlobals in
  let r := csvRow "05/20/2024" "May (May 6 13 20 27)" "Beginner" in
  match Variant1.pass2OnRow 7 r g with
  | Ok g1 => Variant2.pass2OnRow r g
             = Ok (withoutTally (monthlyEnrollmentCounts g) g1)
  | Throw message => Variant2.pass2OnRow r g = Throw message
  end.
Proof.
  intros g r. apply (X15_callbacks_agree r g).
  intros month day year. vm_compute. intros [= <- <- <-]. discriminate.
Defined.

Lemma X3_getFirstClassDay_is_least_witness :
  getFirstClassDay 5 (Num 2024)
    (addSessionDay 2024 (VNum 5) 6 (addSessionDay 2024 (VNum 5) 13 initialGlobals))
  = Some 6.
Proof.
  apply (proj2 (X3_getFirstClassDay_is_least 5 (Num 2024) _ 6)).
  exists [13; 6]. split; [reflexivity|]. split; [right; by left|].
  intros d [<- | [<- | []]]; lia.
Defined.

Lemma X13_pass2Guards_reached_iff_witness :
  pass2Guards (csvRow "05/20/2024" "May (May 6 13 20 27)" "Beginner") initialGlobals
  = Ok (Some (5, 20, Num 2024)).
Proof.
  apply (proj2 (X13_pass2Guards_reached_iff _ _ 5 20 (Num 2024))).
  exists "05/20/2024", "May (May 6 13 20 27)", "05", "20", "2024", "May".
  repeat split; try reflexivity; try discriminate; lia.
Defined.

(** ** Tokens *)

Lemma splitRuns_no_separator (flag : bool) (s : string) :
  Forall (fun field => hasTokenSeparator field = false) (splitRuns flag s).
Proof.
  revert flag. induction s as [|c rest IH]; intros flag; simpl.
  - by repeat constructor.
  - destruct (isTokenSeparator c) eqn:Hc.
    + destruct flag; [apply IH|]. constructor; [done|apply IH].
    + specialize (IH false). destruct (splitRuns false rest) as [|field fields].
      * repeat constructor. simpl. by rewrite Hc.
      * apply Forall_cons in IH as [Hf Hfs]. constructor; [|done].
        simpl. by rewrite Hc, Hf.
Qed.

Lemma trimEnd_nil (s : string) : trimEnd s = "" <-> allWhiteSpace s = true.
Proof.
  destruct s as [|c rest]; [done|]. cbn [trimEnd].
  by destruct (allWhiteSpace (String c rest)).
Qed.

Lemma allWhiteSpace_trimStart (s : string) :
  allWhiteSpace (trimStart s) = allWhiteSpace s.
Proof.
  induction s as [|c rest IH]; [done|]. simpl.
  destruct (isWhiteSpace c) eqn:Hc; [done|]. simpl. by rewrite Hc.
Qed.

Lemma trim_nil (s : string) : trim s = "" <-> allWhiteSpace s = true.
Proof. unfold trim. by rewrite trimEnd_nil, allWhiteSpace_trimStart. Qed.

(** X16: the tokens of a parenthesised text hold no space and no period,
    and none of them is empty or made of white space only. *)
Theorem X16_tokens_well_formed (inner : string) :
  Forall (fun token => hasTokenSeparator token = false
                       /\ token <> ""
                       /\ allWhiteSpace token = false)
         (tokenize inner).
Proof.
  unfold tokenize. apply List.Forall_forall. intros token Hin.
  apply filter_In in Hin as [Hin Hkeep].
  pose proof (splitRuns_no_separator false inner) as Hsep.
  rewrite List.Forall_forall in Hsep. split; [by apply Hsep|].
  apply negb_true_iff in Hkeep.
  assert (allWhiteSpace token = false) as Hws.
  { destruct (allWhiteSpace token) eqn:Hws; [|done].
    apply trim_nil in Hws. by rewrite Hws in Hkeep. }
  split; [|done]. by intros ->.
Qed.

(** ** The regular expression *)

Lemma upToClose_app (group rest : string) :
  hasChar ")" group = false ->
  upToClose (group +:+ String ")" rest) = Some group.
Proof.
  induction group as [|c group IH]; [done|].
  rewrite string_app_cons. simpl. intros [Hc Hg]%orb_false_elim.
  by rewrite Hc, (IH Hg).
Qed.

Lemma upToClose_split (s inner : string) :
  upToClose s = Some inner -> exists rest, s = inner +:+ String ")" rest.
Proof.
  revert inner. induction s as [|c s IH]; intros inner; simpl; [done|].
  destruct (Ascii.eqb_spec c ")") as [-> | Hc].
  - intros [= <-]. by exists s.
  - destruct (upToClose s) as [x|]; [|done]. intros [= <-].
    destruct (IH x eq_refl) as (rest & ->). by exists rest.
Qed.

(** X17: when the regular expression matches, the session reads
    [before ( group ) after] with a non-empty group free of closing
    parentheses; and a session of that shape whose [before] holds no
    opening parenthesis is matched with exactly that group. *)
Theorem X17_matchParenthesized_sound_complete :
  (forall s group,
      matchParenthesized s = Some group ->
      group <> "" /\ hasChar ")" group = false
      /\ exists before after,
           s = before +:+ String "(" (group +:+ String ")" after))
  /\ (forall before group after,
        hasChar "(" before = false -> group <> "" -> hasChar ")" group = false ->
        matchParenthesized (before +:+ String "(" (group +:+ String ")" after))
        = Some group).
Proof.
  split.
  - intros s group Hm. destruct (matchParenthesized_group _ _ Hm) as [Hne Hclose].
    split; [done|]. split; [done|]. clear Hne Hclose. revert Hm.
    induction s as [|c s IH]; simpl; [done|].
    assert (matchParenthesized s = Some group ->
            exists before after,
              String c s = before +:+ String "(" (group +:+ String ")" after)) as Hrec.
    { intros (before & after & ->)%IH. by exists (String c before), after. }
    destruct (Ascii.eqb_spec c "(") as [-> | Hc]; [|done].
    destruct (upToClose s) as [[|d inner]|] eqn:Hclose; [done| |done].
    intros [= <-]. destruct (upToClose_split _ _ Hclose) as (rest & ->).
    by exists "", rest.
  - intros before group after Hopen Hne Hclose.
    induction before as [|c before IH].
    + change ("" +:+ ?x) with x. simpl.
      rewrite (upToClose_app _ _ Hclose). by destruct group.
    + rewrite string_app_cons. simpl in Hopen |- *.
      apply orb_false_elim in Hopen as [Hc Hopen]. rewrite Hc. by apply IH.
Qed.

Lemma X17_matchParenthesized_sound_complete_witness :
  matchParenthesized ("May Mon/Wed " +:+ String "(" ("May 6 13 20 27" +:+ String ")" " 4pm"))
  = Some "May 6 13 20 27".
Proof.
  apply (proj2 X17_matchParenthesized_sound_complete); [reflexivity|discriminate|reflexivity].
Defined.

(** ** Days out of tokens *)

Lemma scan_days (y m : Z) (tokens : list string) (cursor : jsval)
    (dates : list sessionDate) :
  map day (snd (fold_left (scanToken y m) tokens (Some cursor, dates)))
  = map day dates ++ omap dayOfToken tokens.
Proof.
  revert cursor dates. induction tokens as [|token rest IH]; intros cursor dates;
    cbn [fold_left omap list_omap].
  - by rewrite app_nil_r.
  - unfold scanToken at 2, dayOfToken at 1.
    destruct (truthy (monthNames token)) eqn:Hmonth.
    + rewrite (monthNames_truthy_parseInt _ Hmonth). apply IH.
    + destruct (parseInt token) as [|d]; [apply IH|].
      rewrite IH, map_app. simpl. by rewrite <- app_assoc.
Qed.

(** X18: once a month token has set the cursor, every later token that
    parses as an integer yields one date, in order, and no other token
    yields any: after a leading month token, the days of the dates are
    the numbers of the tokens that parse. *)
Theorem X18_days_after_month (y m : Z) (first : string) (rest : list string) :
  truthy (monthNames first) = true ->
  map day (scanTokens y m (first :: rest)) = omap dayOfToken rest.
Proof.
  intros Hmonth. unfold scanTokens. cbn [fold_left].
  rewrite (scanToken_month _ _ _ _ _ Hmonth). by rewrite scan_days.
Qed.

Lemma X18_days_after_month_witness :
  map day (scanTokens 2024 5 ["May"; "6"; "x"; "13th"; "June"; "3"])
  = omap dayOfToken ["6"; "x"; "13th"; "June"; "3"].
Proof. apply (X18_days_after_month 2024 5 "May"). reflexivity. Defined.

(** X19: the special pattern holds of exactly the token lists of five
    tokens that start with a token [monthNames] knows and go on with four
    tokens parsing to numbers each the double sum of the previous and 1;
    when the first of these numbers and its second successor are of
    magnitude below 2^53, these are the lists whose four numbers are
    consecutive integers. *)
Theorem X19_special_pattern_iff (tokens : list string) :
  (isSpecialPattern tokens = true
   <-> exists t0 t1 t2 t3 t4 d1 d2 d3 d4,
         tokens = [t0; t1; t2; t3; t4]
         /\ truthy (monthNames t0) = true
         /\ parseInt t1 = Num d1 /\ parseInt t2 = Num d2
         /\ parseInt t3 = Num d3 /\ parseInt t4 = Num d4
         /\ d2 = jsAdd d1 1 /\ d3 = jsAdd d2 1 /\ d4 = jsAdd d3 1)
  /\
  (forall t0 t1 t2 t3 t4 d,
      tokens = [t0; t1; t2; t3; t4] -> parseInt t1 = Num d ->
      isSafeInteger d -> isSafeInteger (d + 2) ->
      (isSpecialPattern tokens = true
       <-> truthy (monthNames t0) = true
           /\ parseInt t2 = Num (d + 1) /\ parseInt t3 = Num (d + 2)
           /\ parseInt t4 = Num (d + 3))).
Proof.
  assert (isSpecialPattern tokens = true
          <-> exists t0 t1 t2 t3 t4 d1 d2 d3 d4,
                tokens = [t0; t1; t2; t3; t4]
                /\ truthy (monthNames t0) = true
                /\ parseInt t1 = Num d1 /\ parseInt t2 = Num d2
                /\ parseInt t3 = Num d3 /\ parseInt t4 = Num d4
                /\ d2 = jsAdd d1 1 /\ d3 = jsAdd d2 1 /\ d4 = jsAdd d3 1) as Hiff.
  { unfold isSpecialPattern. split.
    - destruct tokens as [|t0 [|t1 [|t2 [|t3 [|t4 [|]]]]]]; try done.
      cbn [length Nat.eqb List.hd List.tl map forallb isConsecutive andb].
      destruct (truthy (monthNames t0)) eqn:Hm; [|done].
      destruct (parseInt t1) as [|d1] eqn:E1; [done|].
      destruct (parseInt t2) as [|d2] eqn:E2; [done|].
      destruct (parseInt t3) as [|d3] eqn:E3; [done|].
      destruct (parseInt t4) as [|d4] eqn:E4; [done|].
      cbn [isNaN negb andb isSuccessor]. intros H.
      apply andb_prop in H as [H2 H]. apply andb_prop in H as [H3 H].
      apply andb_prop in H as [H4 _].
      apply Z.eqb_eq in H2, H3, H4.
      by exists t0, t1, t2, t3, t4, d1, d2, d3, d4.
    - intros (t0 & t1 & t2 & t3 & t4 & d1 & d2 & d3 & d4 & -> & Hm
              & H1 & H2 & H3 & H4 & -> & -> & ->).
      cbn [length Nat.eqb List.hd List.tl map forallb isConsecutive andb].
      rewrite Hm, H1, H2, H3, H4. cbn [isNaN negb andb isSuccessor].
      by rewrite !Z.eqb_refl. }
  split; [exact Hiff|].
  intros t0 t1 t2 t3 t4 d -> H1 Hd Hd2.
  assert (jsAdd d 1 = d + 1) as A1 by (by apply jsAdd_one).
  assert (jsAdd (d + 1) 1 = d + 2) as A2.
  { rewrite jsAdd_one; [lia|]. unfold isSafeInteger in *. lia. }
  assert (jsAdd (d + 2) 1 = d + 3) as A3.
  { rewrite jsAdd_one; [lia|done]. }
  rewrite Hiff. split.
  - intros (u0 & u1 & u2 & u3 & u4 & d1 & d2 & d3 & d4 & [= <- <- <- <- <-] & Hm
            & U1 & U2 & U3 & U4 & -> & -> & ->).
    rewrite H1 in U1. injection U1 as <-.
    rewrite A1 in *. rewrite A2 in *. rewrite A3 in *. done.
  - intros (Hm & H2 & H3 & H4).
    exists t0, t1, t2, t3, t4, d, (d + 1), (d + 2), (d + 3).
    by rewrite A1, A2, A3.
Qed.

Lemma X19_special_pattern_iff_witness :
  isSpecialPattern ["June"; "10"; "11"; "12"; "13"] = true.
Proof.
  apply (proj2 (X19_special_pattern_iff _) "June" "10" "11" "12" "13" 10);
    [reflexivity | reflexivity | unfold isSafeInteger; simpl; lia
    | unfold isSafeInteger; simpl; lia | by repeat split].
Defined.

(** From 2^53 on the test is one of doubles: four tokens spelling 2^53
    are the special pattern, as 2^53 + 1 rounds to 2^53, and the tokens
    spelling 2^53 to 2^53 + 3 are not. *)
Example isSpecialPattern_at_2_53 :
  isSpecialPattern ["May"; "9007199254740992"; "9007199254740992";
                    "9007199254740992"; "9007199254740992"] = true
  /\ isSpecialPattern ["May"; "9007199254740992"; "9007199254740993";
                       "9007199254740994"; "9007199254740995"] = false.
Proof. split; vm_compute; reflexivity. Qed.

(** ** The tally and the counter *)

Lemma addNum_swap (y a b : jsnum) :
  Variant1.addNum (Variant1.addNum y a) b = Variant1.addNum (Variant1.addNum y b) a.
Proof. destruct y, a, b; simpl; try done. f_equal. lia. Qed.

Lemma addNum_increment (a b : jsnum) :
  Variant1.addNum a (increment b) = increment (Variant1.addNum a b).
Proof. destruct a, b; simpl; try done. f_equal. lia. Qed.

Lemma addNum_zero (a : jsnum) : Variant1.addNum a (Num 0) = a.
Proof. destruct a; simpl; [done|]. f_equal. lia. Qed.

(** A sum over a dictionary, with one entry set apart. *)
Lemma sum_insert {A : Type} (h : A -> jsnum) (m : gmap string A) (i : string) (x : A) :
  map_fold (fun _ v a => Variant1.addNum a (h v)) (Num 0) (<[i := x]> m)
  = Variant1.addNum
      (map_fold (fun _ v a => Variant1.addNum a (h v)) (Num 0) (delete i m)) (h x).
Proof.
  rewrite <- insert_delete_eq.
  apply (map_fold_insert_L (fun _ v a => Variant1.addNum a (h v))).
  - intros. apply addNum_swap.
  - apply lookup_delete_eq.
Qed.

Lemma sum_lookup {A : Type} (h : A -> jsnum) (m : gmap string A) (i : string) :
  map_fold (fun _ v a => Variant1.addNum a (h v)) (Num 0) m
  = Variant1.addNum
      (map_fold (fun _ v a => Variant1.addNum a (h v)) (Num 0) (delete i m))
      (match m !! i with Some x => h x | None => Num 0 end).
Proof.
  destruct (m !! i) as [x|] eqn:Hi.
  - apply (map_fold_delete_L (fun _ v a => Variant1.addNum a (h v))); [|done].
    intros. apply addNum_swap.
  - rewrite addNum_zero. by rewrite delete_id.
Qed.

Lemma countClass_positive (c : string) (cc : gmap string jsnum) :
  inObjectPrototype c = false ->
  (forall class v, cc !! class = Some v -> exists n, v = Num n /\ 0 < n) ->
  monthTotal (Variant1.countClass c cc) = increment (monthTotal cc)
  /\ forall class v, Variant1.countClass c cc !! class = Some v ->
                     exists n, v = Num n /\ 0 < n.
Proof.
  intros Hown Hpos.
  assert (Variant1.countClass c cc
          = <[c := Num (match cc !! c with Some (Num n) => n | _ => 0 end + 1)]> cc)
    as Hcount.
  { unfold Variant1.countClass.
    destruct (cc !! c) as [v|] eqn:Hc.
    - destruct (Hpos _ _ Hc) as (n & -> & Hn).
      destruct (Z.eqb_spec n 0); [lia|]. by rewrite Hc.
    - rewrite Hown, lookup_insert_eq. simpl. by rewrite insert_insert_eq. }
  rewrite Hcount. split.
  - unfold monthTotal.
    rewrite (sum_insert (fun v => v)), (sum_lookup (fun v => v) cc c).
    destruct (cc !! c) as [v|] eqn:Hc.
    + destruct (Hpos _ _ Hc) as (n & -> & Hn).
      change (Num (n + 1)) with (increment (Num n)). apply addNum_increment.
    + change (Num (0 + 1)) with (increment (Num 0)). apply addNum_increment.
  - intros class v. destruct (decide (c = class)) as [<- | Hne].
    + rewrite lookup_insert_eq. intros [= <-]. eexists. split; [done|].
      destruct (cc !! c) as [w|] eqn:Hc; [|lia].
      destruct (Hpos _ _ Hc) as (n & -> & Hn). lia.
    + rewrite lookup_insert_ne by done. apply Hpos.
Qed.

Lemma countMonthly_positive (key c : string) (counts : gmap string (gmap string jsnum)) :
  inObjectPrototype c = false -> tallyPositive counts ->
  tallyTotal (Variant1.countMonthly key c counts) = increment (tallyTotal counts)
  /\ tallyPositive (Variant1.countMonthly key c counts).
Proof.
  intros Hown Hpos. unfold Variant1.countMonthly.
  set (old := match counts !! key with Some cc => cc | None => ∅ end).
  assert (forall class v, old !! class = Some v -> exists n, v = Num n /\ 0 < n)
    as Hold.
  { subst old. destruct (counts !! key) as [cc|] eqn:Hkey; [by apply (Hpos key)|].
    intros class v. by rewrite lookup_empty. }
  destruct (countClass_positive c old Hown Hold) as [Htotal Hnew]. split.
  - unfold tallyTotal. rewrite (sum_insert monthTotal), (sum_lookup monthTotal counts key).
    rewrite Htotal, addNum_increment. do 2 f_equal.
    subst old. by destruct (counts !! key).
  - intros key' cc'. destruct (decide (key = key')) as [<- | Hne].
    + rewrite lookup_insert_eq. by intros [= <-].
    + rewrite lookup_insert_ne by done. apply Hpos.
Qed.

Lemma readCSVFileThrowing_invariant_rows (P : globals -> Prop)
    (onRow : row -> globals -> result globals) (rows : list row) (g g' : globals) :
  (forall r g0 g1, In r rows -> onRow r g0 = Ok g1 -> P g0 -> P g1) ->
  readCSVFileThrowing onRow rows g = Ok g' -> P g -> P g'.
Proof.
  revert g. induction rows as [|r rows IH]; intros g Hrow; simpl.
  - by intros [= <-].
  - destruct (onRow r g) as [g1|msg] eqn:Hr; simpl; [|done].
    intros Hrest Hg. apply (IH g1); [|done|].
    + intros r0 g0 g2 Hin. apply Hrow. by right.
    + apply (Hrow r g); [by left|done..].
Qed.

(** X20: when no row of the file has a class named like a member of
    [Object.prototype] and pass 2 of the first variant completes, the
    counts of the tally, summed over classes and months, add up to the
    counter of late rows, and every count in the tally is a positive
    number. *)
Theorem X20_tally_adds_up (G : Z) (rows : list row) (g : globals) :
  (forall r, In r rows -> inObjectPrototype (classCategoryOf r) = false) ->
  Variant1.pass2 G rows = Ok g ->
  tallyTotal (monthlyEnrollmentCounts g) = Num (enrollmentsAfterFirstWeekOfSession g)
  /\ tallyPositive (monthlyEnrollmentCounts g).
Proof.
  intros Hclasses Hrun. unfold Variant1.pass2 in Hrun.
  apply (readCSVFileThrowing_invariant_rows
           (fun g0 => tallyTotal (monthlyEnrollmentCounts g0)
                      = Num (enrollmentsAfterFirstWeekOfSession g0)
                      /\ tallyPositive (monthlyEnrollmentCounts g0))
           _ _ _ _) in Hrun; [done| |].
  - intros r g0 g1 Hin Hr [Htotal Hpos].
    destruct (Variant1_pass2OnRow_cases G r g0) as [H|[H|(key & H & _)]];
      rewrite H in Hr; [done|injection Hr as <-..]; [done|].
    destruct (countMonthly_positive key (classCategoryOf r)
                (monthlyEnrollmentCounts g0) (Hclasses r Hin) Hpos) as [Ht Hp].
    split; [|exact Hp]. cbn [monthlyEnrollmentCounts countLate
      setMonthlyEnrollmentCounts enrollmentsAfterFirstWeekOfSession
      setEnrollmentsAfterFirstWeekOfSession skipRow setTotalEnrollmentRows].
    by rewrite Ht, Htotal.
  - destruct (readCSVFile_pass1_sameCounters Variant1.parseSessionDates rows
                initialGlobals Variant1_parse_sameCounters) as (_ & -> & ->).
    split; [done|]. intros key cc. simpl. by rewrite lookup_empty.
Qed.

Lemma X20_tally_adds_up_witness :
  exists g, Variant1.pass2 7 sampleRows = Ok g
            /\ tallyTotal (monthlyEnrollmentCounts g)
               = Num (enrollmentsAfterFirstWeekOfSession g)
            /\ tallyPositive (monthlyEnrollmentCounts g).
Proof.
  destruct (Variant1.pass2 7 sampleRows) as [g|message] eqn:Hrun;
    [|vm_compute in Hrun; discriminate Hrun].
  exists g. split; [done|]. apply (X20_tally_adds_up 7 sampleRows g); [|done].
  intros r [<- | [<- | [<- | [<- | [<- | []]]]]]; reflexivity.
Defined.

(** X21: the first variant tallies under calendar keys only: when pass 2
    completes, every month of the tally is a month for which pass 1
    recorded days. *)
Theorem X21_tally_keys_in_calendar (G : Z) (rows : list row) (g : globals)
    (key : string) :
  Variant1.pass2 G rows = Ok g ->
  is_Some (monthlyEnrollmentCounts g !! key) ->
  is_Some (sessionDays g !! key).
Proof.
  intros Hrun. unfold Variant1.pass2 in Hrun. revert key.
  refine (readCSVFileThrowing_invariant
            (fun g0 => forall k, is_Some (monthlyEnrollmentCounts g0 !! k) ->
                                 is_Some (sessionDays g0 !! k))
            _ _ _ _ _ Hrun _).
  - intros r g0 g1 Hr Hg0 k.
    destruct (Variant1_pass2OnRow_cases G r g0) as [H|[H|(key' & H & Hkey')]];
      rewrite H in Hr; [done|injection Hr as <-..]; [apply Hg0|].
    cbn [monthlyEnrollmentCounts countLate setMonthlyEnrollmentCounts sessionDays
         setEnrollmentsAfterFirstWeekOfSession skipRow setTotalEnrollmentRows].
    unfold Variant1.countMonthly. destruct (decide (key' = k)) as [<- | Hne].
    + done.
    + rewrite lookup_insert_ne by done. apply Hg0.
  - intros k.
    destruct (readCSVFile_pass1_sameCounters Variant1.parseSessionDates rows
                initialGlobals Variant1_parse_sameCounters) as (_ & _ & ->).
    simpl. rewrite lookup_empty. by intros [? ?].
Qed.

Lemma X21_tally_keys_in_calendar_witness :
  exists g, Variant1.pass2 7 sampleRows = Ok g
            /\ is_Some (monthlyEnrollmentCounts g !! "2024-5")
            /\ is_Some (sessionDays g !! "2024-5").
Proof.
  destruct (Variant1.pass2 7 sampleRows) as [g|message] eqn:Hrun;
    [|vm_compute in Hrun; discriminate Hrun].
  exists g. split; [done|].
  assert (is_Some (monthlyEnrollmentCounts g !! "2024-5")) as Hkey.
  { vm_compute in Hrun. injection Hrun as <-. vm_compute. by eexists. }
  split; [done|]. by apply (X21_tally_keys_in_calendar 7 sampleRows g).
Defined.

(** ** From the resolver to the calendar *)

Lemma setAdd_keeps (d e : Z) (days : list Z) : In e days -> In e (setAdd d days).
Proof.
  intros Hin. unfold setAdd. destruct (existsb _ days); [done|].
  apply in_or_app. by left.
Qed.

Lemma addSessionDay_records (y d : Z) (m : jsval) (g : globals) :
  recorded (calendarKey (pretty y) (jsvalToString m)) d (addSessionDay y m d g).
Proof.
  unfold recorded, addSessionDay. cbn [sessionDays setSessionDays].
  rewrite lookup_insert_eq. eexists. split; [done|]. apply setAdd_In.
Qed.

Lemma addSessionDay_keeps_recorded (y d : Z) (m : jsval) (g : globals)
    (key : string) (e : Z) :
  recorded key e g -> recorded key e (addSessionDay y m d g).
Proof.
  intros (days & Hdays & Hin). unfold recorded, addSessionDay.
  cbn [sessionDays setSessionDays].
  destruct (decide (calendarKey (pretty y) (jsvalToString m) = key)) as [<- | Hne].
  - rewrite lookup_insert_eq, Hdays. eexists. split; [done|]. by apply setAdd_keeps.
  - rewrite lookup_insert_ne by done. by exists days.
Qed.

Lemma addSessionDays_keeps_recorded (dates : list sessionDate) (g : globals)
    (key : string) (e : Z) :
  recorded key e g ->
  recorded key e
    (fold_left (fun g' d => addSessionDay (year d) (month d) (day d) g') dates g).
Proof.
  revert g. induction dates as [|d dates IH]; intros g Hrec; cbn [fold_left]; [done|].
  apply IH. by apply addSessionDay_keeps_recorded.
Qed.

Lemma addSessionDays_records (dates : list sessionDate) (g : globals) (d : sessionDate) :
  In d dates ->
  recorded (calendarKey (pretty (year d)) (jsvalToString (month d))) (day d)
    (fold_left (fun g' d => addSessionDay (year d) (month d) (day d) g') dates g).
Proof.
  revert g. induction dates as [|d0 dates IH]; intros g Hin; [done|].
  cbn [fold_left]. destruct Hin as [-> | Hin]; [|by apply IH].
  apply addSessionDays_keeps_recorded, addSessionDay_records.
Qed.

Lemma recorded_ext (g1 g2 : globals) (key : string) (e : Z) :
  sessionDays g1 = sessionDays g2 -> recorded key e g1 -> recorded key e g2.
Proof. unfold recorded. by intros <-. Qed.

Lemma pass1OnRow_keeps_recorded
    (parse : string -> Z -> Z -> globals -> list sessionDate * globals)
    (r : row) (g : globals) (key : string) (e : Z) :
  (forall s y m g0, sessionDays (snd (parse s y m g0)) = sessionDays g0) ->
  recorded key e g -> recorded key e (pass1OnRow parse r g).
Proof.
  intros Hparse Hrec.
  apply (pass1_calendar_invariant (recorded key e) parse [r] g); try done.
  - intros g1 g2. apply recorded_ext.
  - intros. by apply addSessionDay_keeps_recorded.
Qed.

Lemma parse_dates_independent (s : string) (y m : Z) (g g' : globals) :
  fst (Variant1.parseSessionDates s y m g) = fst (Variant1.parseSessionDates s y m g')
  /\ fst (Variant2.parseSessionDates s y m g) = fst (Variant2.parseSessionDates s y m g').
Proof.
  unfold Variant1.parseSessionDates, Variant2.parseSessionDates.
  destruct (matchParenthesized s); [|done]. cbv zeta.
  destruct (length _ <=? 3)%nat, (isSpecialPattern _); done.
Qed.

Lemma pass1_records
    (parse : string -> Z -> Z -> globals -> list sessionDate * globals)
    (rows : list row) (g : globals) (r : row) (ds s p0 p1 p2 : string) (em ey : Z)
    (d : sessionDate) :
  (forall s y m g0, sessionDays (snd (parse s y m g0)) = sessionDays g0) ->
  (forall g0, In d (fst (parse s ey em g0))) ->
  In r rows ->
  Enroll_Date r = Some ds -> Session r = Some s -> s <> "" ->
  splitOn "/" ds = [p0; p1; p2] -> parseInt p0 = Num em -> parseInt p2 = Num ey ->
  recorded (calendarKey (pretty (year d)) (jsvalToString (month d))) (day d)
    (readCSVFile (pass1OnRow parse) rows g).
Proof.
  intros Hparse Hd Hin Hds Hs Hne Hsplit Hm Hy. revert g.
  induction rows as [|r0 rows IH]; intros g; [done|].
  unfold readCSVFile. cbn [fold_left]. destruct Hin as [-> | Hin]; [|by apply IH].
  apply (pass1_calendar_invariant (recorded _ _) parse rows); try done.
  - intros g1 g2. apply recorded_ext.
  - intros. by apply addSessionDay_keeps_recorded.
  - unfold pass1OnRow. rewrite Hds, Hs.
    assert (isMissing (Some ds) || isMissing (Some s) = false) as ->.
    { simpl. destruct ds; [done|]. by destruct s. }
    rewrite Hsplit, Hm, Hy. specialize (Hd g).
    destruct (parse s ey em g) as [dates g1]. by apply addSessionDays_records.
Qed.

(** X22: every date the resolver returns for a row with a well-formed
    date is in the calendar when pass 1 ends, in both variants: its day is
    recorded under the key of its year and month, and, for a month of the
    table, the first class day of that month and year is at most that
    day. *)
Theorem X22_resolved_dates_recorded (rows : list row) (r : row)
    (ds s p0 p1 p2 : string) (em ey : Z) :
  In r rows ->
  Enroll_Date r = Some ds -> Session r = Some s ->
  splitOn "/" ds = [p0; p1; p2] -> parseInt p0 = Num em -> parseInt p2 = Num ey ->
  (forall d, In d (fst (Variant1.parseSessionDates s ey em initialGlobals)) ->
     let g := readCSVFile (pass1OnRow Variant1.parseSessionDates) rows initialGlobals in
     recorded (calendarKey (pretty (year d)) (jsvalToString (month d))) (day d) g
     /\ forall mo, month d = VNum mo ->
          exists first, getFirstClassDay mo (Num (year d)) g = Some first
                        /\ first <= day d)
  /\ (forall d, In d (fst (Variant2.parseSessionDates s ey em initialGlobals)) ->
        let g := readCSVFile (pass1OnRow Variant2.parseSessionDates) rows initialGlobals in
        recorded (calendarKey (pretty (year d)) (jsvalToString (month d))) (day d) g
        /\ forall mo, month d = VNum mo ->
             exists first, getFirstClassDay mo (Num (year d)) g = Some first
                           /\ first <= day d).
Proof.
  intros Hin Hds Hs Hsplit Hm Hy.
  assert (forall g d,
            recorded (calendarKey (pretty (year d)) (jsvalToString (month d))) (day d) g ->
            forall mo, month d = VNum mo ->
              exists first, getFirstClassDay mo (Num (year d)) g = Some first
                            /\ first <= day d) as Hfirst.
  { intros g d (days & Hdays & Hday) mo Hmo. rewrite Hmo in Hdays.
    rewrite getFirstClassDay_lookup.
    change (calendarKey (jsnumToString (Num (year d))) (pretty mo))
      with (calendarKey (pretty (year d)) (jsvalToString (VNum mo))).
    rewrite Hdays. destruct (leastOf days) as [first|] eqn:Hleast; [|by destruct days].
    exists first. split; [done|]. by apply (leastOf_le days). }
  split; intros d Hd g.
  - assert (s <> "") as Hne.
    { intros ->. by vm_compute in Hd. }
    assert (recorded (calendarKey (pretty (year d)) (jsvalToString (month d))) (day d) g)
      as Hrec.
    { apply (pass1_records Variant1.parseSessionDates rows initialGlobals r
               ds s p0 p1 p2 em ey d); try done.
      - apply Variant1_parse_sessionDays.
      - intros g0.
        by rewrite (proj1 (parse_dates_independent s ey em g0 initialGlobals)). }
    split; [done|]. by apply Hfirst.
  - assert (s <> "") as Hne.
    { intros ->. by vm_compute in Hd. }
    assert (recorded (calendarKey (pretty (year d)) (jsvalToString (month d))) (day d) g)
      as Hrec.
    { apply (pass1_records Variant2.parseSessionDates rows initialGlobals r
               ds s p0 p1 p2 em ey d); try done.
      - apply Variant2_parse_sessionDays.
      - intros g0.
        by rewrite (proj2 (parse_dates_independent s ey em g0 initialGlobals)). }
    split; [done|]. by apply Hfirst.
Qed.

Lemma X22_resolved_dates_recorded_witness :
  let rows := [ csvRow "05/01/2024" "May (May 13 20 27 6)" "Beginner";
                csvRow "04/28/2024" "May (May 2 9 16 23)" "Advanced" ] in
  let g := readCSVFile (pass1OnRow Variant1.parseSessionDates) rows initialGlobals in
  recorded "2024-5" 13 g
  /\ forall mo, VNum 5 = VNum mo ->
       exists first, getFirstClassDay mo (Num 2024) g = Some first /\ first <= 13.
Proof.
  intros rows g.
  apply (proj1 (X22_resolved_dates_recorded rows
                  (csvRow "05/01/2024" "May (May 13 20 27 6)" "Beginner")
                  "05/01/2024" "May (May 13 20 27 6)" "05" "01" "2024" 5 2024
                  (or_introl eq_refl) eq_refl eq_refl eq_refl eq_refl eq_refl)
          {| year := 2024; month := VNum 5; day := 13 |}).
  vm_compute. by left.
Defined.

(** ** Rows that pass 1 does not read *)

(** X23: pass 1 reads the month and the year of the date and nothing
    else of it.  A row whose date does not split into three parts, or
    whose month or year does not parse, changes nothing, not even the
    blacklist; and two rows with the same session whose dates differ in
    the day part only are treated alike. *)
Theorem X23_pass1_reads_month_and_year
    (parse : string -> Z -> Z -> globals -> list sessionDate * globals) :
  (forall r g ds,
      Enroll_Date r = Some ds ->
      length (splitOn "/" ds) <> 3%nat
      \/ (exists p0 p1 p2, splitOn "/" ds = [p0; p1; p2]
            /\ (parseInt p0 = NaN \/ parseInt p2 = NaN)) ->
      pass1OnRow parse r g = g)
  /\ (forall r r' g ds ds' p0 p1 p1' p2,
        Enroll_Date r = Some ds -> Enroll_Date r' = Some ds' ->
        Session r = Session r' ->
        splitOn "/" ds = [p0; p1; p2] -> splitOn "/" ds' = [p0; p1'; p2] ->
        pass1OnRow parse r g = pass1OnRow parse r' g).
Proof.
  split.
  - intros r g ds Hds Hbad. unfold pass1OnRow. rewrite Hds.
    destruct (isMissing (Some ds) || isMissing (Session r)); [done|].
    destruct (Session r) as [s|]; [|done].
    destruct Hbad as [Hlen | (p0 & p1 & p2 & Hsplit & Hnan)].
    + by destruct (splitOn "/" ds) as [|q0 [|q1 [|q2 [|]]]].
    + rewrite Hsplit. destruct Hnan as [-> | Hy]; [done|].
      rewrite Hy. by destruct (parseInt p0).
  - intros r r' g ds ds' p0 p1 p1' p2 Hds Hds' Hs Hsplit Hsplit'.
    unfold pass1OnRow. rewrite Hds, Hds', <- Hs, Hsplit, Hsplit'.
    assert (isMissing (Some ds) = false) as ->
      by (destruct ds; [done|reflexivity]).
    assert (isMissing (Some ds') = false) as ->
      by (destruct ds'; [done|reflexivity]).
    reflexivity.
Qed.

Lemma X23_pass1_reads_month_and_year_witness :
  pass1OnRow Variant1.parseSessionDates
    (csvRow "2024-05-01" "May (May 6)" "Beginner") initialGlobals = initialGlobals
  /\ pass1OnRow Variant1.parseSessionDates
       (csvRow "05/01/2024" "May (May 6 13 20 27)" "Beginner") initialGlobals
     = pass1OnRow Variant1.parseSessionDates
         (csvRow "05/xx/2024" "May (May 6 13 20 27)" "Advanced") initialGlobals.
Proof.
  split.
  - apply (proj1 (X23_pass1_reads_month_and_year Variant1.parseSessionDates)
             _ _ "2024-05-01"); [reflexivity|]. left. vm_compute. lia.
  - apply (proj2 (X23_pass1_reads_month_and_year Variant1.parseSessionDates)
             _ _ _ "05/01/2024" "05/xx/2024" "05" "01" "xx" "2024"); reflexivity.
Defined.

(** X24: month number 0 has the empty name, which every session starts
    with: a row dated in month 0 with both cells, a day that parses and a
    session that is not blacklisted reaches the calendar query whatever
    its session says. *)
Theorem X24_month_zero_passes_filter (r : row) (g : globals)
    (ds s p0 p1 p2 : string) (day : Z) :
  Enroll_Date r = Some ds -> Session r = Some s -> s <> "" ->
  includes s (blacklistedSessions g) = false ->
  splitOn "/" ds = [p0; p1; p2] -> parseInt p0 = Num 0 -> parseInt p1 = Num day ->
  pass2Guards r g = Ok (Some (0, day, parseInt p2)).
Proof.
  intros Hds Hs Hne Hbl Hsplit Hm Hday. unfold pass2Guards.
  rewrite Hds, Hs. cbn [isBlacklisted]. rewrite Hbl.
  assert (isMissing (Some ds) || isMissing (Some s) = false) as ->.
  { simpl. destruct ds; [done|]. by destruct s. }
  rewrite Hsplit, Hm, Hday. reflexivity.
Qed.

Lemma X24_month_zero_passes_filter_witness :
  pass2Guards (csvRow "00/15/2024" "June (June 3 10 17 24)" "Beginner") initialGlobals
  = Ok (Some (0, 15, Num 2024)).
Proof.
  apply (X24_month_zero_passes_filter _ _ "00/15/2024" "June (June 3 10 17 24)"
           "00" "15" "2024" 15); try reflexivity. discriminate.
Defined.

Lemma X5_pass1_calendar_wellFormed_witness :
  getFirstClassDay 6 (Num 2024)
    (readCSVFile (pass1OnRow Variant1.parseSessionDates) sampleRows initialGlobals)
  = None.
Proof.
  apply (proj1 (proj2 (proj2 (X5_pass1_calendar_wellFormed sampleRows))) 6 (Num 2024)).
  reflexivity.
Defined.

Lemma X7_pass1_blacklist_witness :
  exists r, In r sampleRows /\ Session r = Some "May (May 5 6 7 8)".
Proof.
  apply (proj2 (proj1 (X7_pass1_blacklist sampleRows)) "May (May 5 6 7 8)").
  vm_compute. by left.
Defined.
